(* ===== verification/_CoqProject ===== *)
-Q . S2P
Prelude.v
PyDict.v
FloatFormat.v
AvailableModels.v
EventPayload.v
JsonText.v
ScriptMains.v
LlmHandler.v
HandlerProgress.v
FallbackSpec.v
HandlerRefinement.v
BedrockFallback.v
EntryPoints.v
ScriptRuns.v
