(* ===== verification/Prelude.v ===== *)
(** * llm-fallback: a verification development

    The repository is a small Python request-dispatch layer that sends a
    prompt to a large-language-model provider and falls back along an
    ordered list of models until one call succeeds.  Its parts:

    - [src/available_models.py]: the model registry, two literal dicts
      [AVAILABLE_MODELS] (model key -> LiteLLM model id) and [MODEL_NAMES]
      (model key -> display name) with the lookups [get_model_id] (raises
      [ValueError] on an unknown key) and [get_model_name] (falls back to
      the key); its [__main__] block prints [list_available_models()].
    - [src/event_payload.py]: the request record [EventPayload]
      (prompt, ordered model list, max_tokens, temperature, request_id),
      its properties [primary_model] / [fallback_models], the dict
      conversion [to_dict] / [from_dict], the JSON conversion [to_json] /
      [from_json] (Python's [json] module), the strategy catalogue
      [EXAMPLE_PAYLOADS] with [get_example_payload], and a [__main__]
      block that prints the catalogue and one payload's JSON.
    - [src/llm_handler.py]: the fallback execution engine
      [SimpleLLMHandler]: [_call_model] resolves a key through the
      registry and calls LiteLLM's [completion] (the provider adapter),
      [process] walks the model list in order, records one attempt per
      model, and returns on the first success; [main] dispatches on
      [sys.argv] and prints the result.
    - [src/bedrock-fallback.py]: a second, fixed two-stage fallback
      client (Anthropic HTTP API, then Amazon Bedrock), and a [main] that
      reads its configuration from the environment.

    How the files of this development model them (in dependency order):

    - [Prelude] (this file): the Python runtime the models share:
      exceptions as values ([py_exc]), a state-and-exception monad [PyM]
      whose state is the adapter's world together with the structured
      log the code writes, with its notation in [py_scope], its rewrite
      database [pym], its monad laws and the frame lemmas ([log_frame]: a
      computation does not read the log written before it); decimal
      rendering of integers ([str_of_nat], [str_of_Z], Python's
      [str(int)]), [repr] of strings and lists, [in] on strings, and
      [str.lower] / [str.upper] on Latin-1 characters ([ß] becomes
      ["SS"]; [µ] and [ÿ], whose capitals lie outside Latin-1, are kept).
    - [PyDict]: Python's insertion-ordered [dict] as an association list
      ([dict_lookup], [dict_getitem], [dict_get], [dict_setitem]), the
      refinement lemmas that it agrees with stdpp's [gmap] view, and
      Python's [==] on dicts as the setoid [dict_equiv] (same value for
      each key, any order) with its [Proper] instances.
    - [FloatFormat] (Module [FloatFormat]): CPython's fixed-point
      [format(x, '.pf')], used by the cost line
      [f"Cost: ${response.cost:.4f}"] of [main] in [llm_handler.py]: the
      float's exact binary value [m * 2^e] times [10^p], rounded to the
      nearest integer with ties to even ([round_half_even]), printed with
      [p] decimals ([format_fixed]); [inf], [-inf], [nan] and [-0.0]
      as CPython prints them.
    - [AvailableModels] (Module [AvailableModels]): the registry's two
      globals as a record [models_module], the literal configuration
      [available_models], [get_model_id], [get_model_name],
      [list_available_models], and the registry equivalence
      [models_equiv] under which the lookups are [Proper].
    - [EventPayload] (Module [EventPayload]): the payload record,
      [primary_model] (raising [IndexError] on an empty list, as Python
      does), [fallback_models], [to_dict] and [from_dict] over a model of
      Python values [pyval] (keyword binding of [cls( **data)] with its
      [TypeError]s), [EXAMPLE_PAYLOADS], [create_payload],
      [get_example_payload].
    - [JsonText] (Module [JsonText]): [json.dumps(..., indent=2)] as
      CPython 3.11's pure-Python encoder ([iterencode] with
      [ensure_ascii] escapes, [int.__repr__]'s 4300-digit limit and
      [NaN] / [Infinity]) and [json.loads] as its C scanner
      ([scan_once] with [array_items] / [object_items], [scan_str],
      [match_number]), with the [JSONDecodeError] message and its line
      and column ([json_error]); [to_json] and [from_json] on top.
      [repr(float)] and [float(str)] are Section variables, constrained
      only by [float_ok] (the repr is a float literal that [float] reads
      back).
    - [ScriptMains] (Module [ScriptMains]): the [__main__] blocks of
      [event_payload.py] ([payload_main]) and [available_models.py]
      ([available_models_main]) as the lines they print.
    - [LlmHandler] (Module [LlmHandler]): [SimpleLLMHandler].  LiteLLM is
      the type class [LiteLLM W] ([completion], [completion_cost]) over an
      arbitrary provider world [W], so every theorem holds for every
      provider behaviour.  [_call_model] and [process] (its loop
      [process_loop] and fall-through [process_tail]) run in [PyM] and
      write the log lines of the source as [log_line] values; [__init__]
      and [_setup_api_keys] act on [os.environ] as a [dict].  A run of
      failing calls is the inductive relation [fail_run].
    - [HandlerProgress] (Module [HandlerProgress]): liveness and the
      call bound of [process], over [call_counter], a provider that wraps
      any other and counts its [completion] calls.
    - [FallbackSpec] (Module [FallbackSpec]): the specification's engine,
      independently of the code: a registry contract, an opaque adapter,
      and [execute] both as a step relation [Pending -> TryModel i ... ->
      Succeeded | Exhausted] and as a function, with determinism,
      termination, forward progress and a unique final state.
    - [HandlerRefinement] (Module [HandlerRefinement]): the registry and
      adapter read off the code, and the simulation of [process] by the
      spec's machine.
    - [BedrockFallback] (Module [BedrockFallback]):
      [ClaudeFallbackClient] over the type class [AwsHttp W] (boto3 client
      creation, STS, the HTTP session's POST, Bedrock's [invoke_model]);
      JSON bodies as a [json] value type; [__init__], [call_anthropic_direct],
      [call_bedrock_fallback], [generate_response] in [PyM]; the session's
      [Retry] and urllib3's retry decision.
    - [EntryPoints] (Modules [HandlerMain], [BedrockMain]): [main] of
      [llm_handler.py] (argv dispatch, [process], [print_results] and the
      attempt history) and [main] of [bedrock-fallback.py] ([int()] on
      [MAX_TOKENS], [getattr(logging, LOG_LEVEL.upper())] and
      [setLevel], the level filter of the log lines, the [try] around
      [generate_response]).  Output is a list of lines.
    - [ScriptRuns] (Module [ScriptRuns]): running [llm_handler.py] and
      [bedrock-fallback.py] as scripts: the top-level [load_dotenv()]
      (python-dotenv with [override=False], over the bindings its
      parser returns) and [logging.basicConfig(level=logging.INFO)]
      (the root level that filters the handler's log lines), then
      [main()] under [if __name__ == "__main__"].

    Strings are [String.string], 8-bit characters read as Latin-1:
    [prompt[:100]] and [len] count code points in Python, bytes here, so
    the theorems on the prompt line are about Latin-1 prompts, and a
    [\uXXXX] escape above U+00FF stops the JSON decoder with [JWide].

    What the theorems show:

    - the handler's behaviour on every branch: ordered fallback with one
      attempt record per model tried ([process_fallback_success]),
      exhaustion with ["All N models failed"] ([process_all_fail]), the exact log of each ([process_log_*]), the
      result of [_call_model] ([call_model_spec]), the bounded prompt
      line ([prompt_preview_spec]), and the divergence from the
      specification: an unknown model key raises [ValueError] out of
      [process] ([process_unknown_model_raises]); constructing the
      handler leaves [os.environ] as it was ([handler_init_environ]);
    - the invariant of every response, for any provider and registry:
      the attempted models are a prefix of the request's list, all
      failed but a final success for [model_used], or all failed with
      the count in the error ([process_attempts_invariant], from the loop
      invariant [process_loop_attempts]); liveness when a model of the
      list is up ([process_reaches_up_model]); at most one [completion]
      call per model and exactly one per attempt recorded
      ([process_calls_bounded]); [process] depends on the registry only
      up to [dict] equality ([process_registry_equiv]);
    - the refinement: when every key is registered, [process] computes
      what the specification's [execute] computes and that result is the
      unique final state of the spec's machine
      ([process_refines_execute]);
    - JSON: [json.loads(json.dumps(v))] is [v] for every value whose
      dicts have no repeated key and whose floats read back
      ([json_dumps_loads]), hence [from_json (to_json p)] rebuilds the
      payload ([from_json_to_json]) unless [max_tokens] has more than
      4300 digits, where [to_json] raises ([to_json_int_limit]);
    - the registry and payload: the well-formedness of the literal
      configuration, the split into primary and fallback models
      ([primary_fallback_split]), the keyword binding of [from_dict] and
      [create_payload] with CPython's [TypeError] messages, that every
      example strategy names registered models, and that a request
      [from_dict] accepts without validation (no model, any
      [max_tokens]) reaches [process], which calls no provider and
      answers ["All 0 models failed"] ([unvalidated_request_processed]);
    - the Bedrock client: the status dispatch of the direct call, the
      three outcomes of [generate_response] and the only exception it
      raises, and that a failed [boto3.client('bedrock-runtime')] in
      the constructor leaves a client whose every Bedrock fallback fails
      without a call ([init_without_bedrock_client]).  The session's
      [Retry] is modelled by its configuration and urllib3's decision on
      a status ([is_retry]: POST is not among the default retryable
      methods); the retries urllib3 makes on connection errors are not
      modelled, since the HTTP world answers each call once;
    - float formatting: on a successful response with a non-zero cost,
      [print_results] prints [Cost: $t] where [t] reads back as the cost
      correctly rounded to 4 decimals, ties to even, with its sign
      ([print_results_cost], from [format_fixed_rounds]);
    - the entry points: [main] of [llm_handler.py] never raises, for any
      argv, environment or provider; [main] of [bedrock-fallback.py]
      never raises on a valid configuration, and raises before any call
      on a malformed one; [python event_payload.py] runs to its end and
      prints a JSON text that reads back as its payload
      ([payload_main_json]); [python llm_handler.py models] lists the
      registry without calling a provider ([handler_main_models]);
    - the scripts: [load_dotenv()] never overrides or reorders the
      environment and only appends what [.env] adds, and it raises
      exactly when [os.environ] refuses one of its assignments
      ([os.putenv]'s [ValueError] on a NUL byte or a name with [=],
      [OSError] on an empty name) ([load_dotenv_spec]);
      [python llm_handler.py] raises only that, at import and before any
      output; otherwise it returns for any arguments, environment or
      provider, and the [INFO] root level drops none of its lines
      ([handler_script_spec]); [python bedrock-fallback.py] takes its key
      from the environment or else from [.env] and reaches generation
      ([bedrock_script_runs]).  The root level assumes that
      [basicConfig] takes effect, as it does in a fresh interpreter
      whose earlier imports add no root handler.

    Fuel: the only recursion that is not structural is the JSON
    decoder's descent into nested arrays and objects; [json_decode] runs
    [scan_once] with [decode_fuel doc = 1 + 2 * len(doc)], and the
    lemma [json_decode_fuel_enough] proves that this never runs out: every
    value the scanner reads consumes at least one character
    ([scan_consumes]), so a suffix [s] of the document needs at most
    [2 * len(s) + 1] units ([scan_fuel_enough]).  Every other loop is a
    structural [Fixpoint] over a finite list or string.  Python's [int]
    does not overflow: [max_tokens] is a [Z]; its decimal rendering is
    bounded by [sys.int_max_str_digits] (4300), which is modelled.
    Floats are [SpecFloat.spec_float] values, passed through untouched
    except where [main] formats the cost.

    Not modelled: the reading and parsing of the [.env] file by
    python-dotenv (quotes, [export], [${VAR}] expansion; [load_dotenv]
    takes the parsed bindings), the backoff timing of [Retry], the
    [RecursionError] of [json.loads] on very deep nesting (the model
    has no recursion limit), and network I/O itself, which is the
    adapter's world and is quantified over.  [from_dict] and
    [get_example_payload] share a models list with the caller or the
    catalogue; nothing in the repository mutates a models list, so the
    sharing is not observable and lists are values. *)

From stdpp Require Export base list strings gmap.
From Stdlib Require Export DecimalString DecimalNat DecimalN.
From Stdlib Require Import ZArith Ascii.



(** ** Python exceptions as values *)

(** The exception classes the modelled code raises or catches. *)
Inductive exc_kind :=
  | ValueError
  | TypeError
  | KeyError
  | IndexError
  | AttributeError
  | JSONDecodeError
  | RequestException
  | OSError
  | Exception.

#[export] Instance exc_kind_eq_dec : EqDecision exc_kind.
Proof. solve_decision. Defined.

(** An exception object: its class and [str(e)]. *)
Record py_exc := PyExc { exc_type : exc_kind; exc_str : string }.

#[export] Instance py_exc_eq_dec : EqDecision py_exc.
Proof. solve_decision. Defined.

(** ** The state-and-exception monad of the handler code *)

(** The state threaded through a Python call: the world the provider
    adapter sees (network, quotas, clock) and the log lines emitted so
    far, oldest first.  An exception leaves the state as it was when it
    was raised, as Python does. *)
Record pystate (W L : Type) := PyState { py_world : W; py_log : list L }.
Arguments PyState {W L}.
Arguments py_world {W L}.
Arguments py_log {W L}.

Definition PyM (W L A : Type) : Type := pystate W L -> (py_exc + A) * pystate W L.

Section Monad.
Context {W L : Type}.

Definition pret {A} (a : A) : PyM W L A := fun s => (inr a, s).

Definition pbind {A B} (c : PyM W L A) (k : A -> PyM W L B) : PyM W L B :=
  fun s => match c s with
           | (inr a, s') => k a s'
           | (inl e, s') => (inl e, s')
           end.

(** [raise e] *)
Definition praise {A} (e : py_exc) : PyM W L A := fun s => (inl e, s).

(** [try: c except Exception as e: h(e)] *)
Definition ptry {A} (c : PyM W L A) (h : py_exc -> PyM W L A) : PyM W L A :=
  fun s => match c s with
           | (inl e, s') => h e s'
           | r => r
           end.

(** [logger.info(...)] / [logger.error(...)]: append one line. *)
Definition emit (l : L) : PyM W L unit :=
  fun s => (inr tt, PyState (py_world s) (py_log s ++ [l])).

(** A call into the outside world (the provider adapter). *)
Definition pcall {A} (f : W -> (py_exc + A) * W) : PyM W L A :=
  fun s => let '(r, w') := f (py_world s) in (r, PyState w' (py_log s)).

(** A pure Python computation that may raise. *)
Definition of_sum {A} (r : py_exc + A) : PyM W L A :=
  match r with inl e => praise e | inr a => pret a end.

(** Start a call from world [w] with an empty log. *)
Definition run {A} (c : PyM W L A) (w : W) : (py_exc + A) * pystate W L :=
  c (PyState w []).
End Monad.

Declare Scope py_scope.
Delimit Scope py_scope with py.
Notation "x <- c ;; k" := (pbind c (fun x => k))
  (at level 62, c at next level, right associativity) : py_scope.
Notation "c ;;; k" := (pbind c (fun _ => k))
  (at level 62, right associativity) : py_scope.

(** ** Monad equations, used by [pym_simp] *)

Create Rewrite HintDb pym.

Section MonadLaws.
Context {W L : Type}.

Lemma pbind_ret {A B} (a : A) (k : A -> PyM W L B) s :
  pbind (pret a) k s = k a s.
Proof. reflexivity. Qed.

Lemma pbind_raise {A B} e (k : A -> PyM W L B) s :
  pbind (praise e) k s = (inl e, s).
Proof. reflexivity. Qed.

Lemma pbind_assoc {A B C} (c : PyM W L A) (k1 : A -> PyM W L B)
      (k2 : B -> PyM W L C) s :
  pbind (pbind c k1) k2 s = pbind c (fun a => pbind (k1 a) k2) s.
Proof. unfold pbind. destruct (c s) as [[e|a] s']; reflexivity. Qed.

Lemma pbind_emit {B} (l : L) (k : unit -> PyM W L B) s :
  pbind (emit l) k s = k tt (PyState (py_world s) (py_log s ++ [l])).
Proof. reflexivity. Qed.

Lemma ptry_ret {A} (a : A) (h : py_exc -> PyM W L A) s :
  ptry (pret a) h s = (inr a, s).
Proof. reflexivity. Qed.

Lemma ptry_raise {A} e (h : py_exc -> PyM W L A) s :
  ptry (praise e) h s = h e s.
Proof. reflexivity. Qed.

(** Congruence of [pbind] for computations equal on every state. *)
Lemma pbind_ext {A B} (c1 c2 : PyM W L A) (k1 k2 : A -> PyM W L B) :
  (forall s, c1 s = c2 s) -> (forall a s, k1 a s = k2 a s) ->
  forall s, pbind c1 k1 s = pbind c2 k2 s.
Proof. intros Hc Hk s. unfold pbind. rewrite Hc. by destruct (c2 s) as [[e|a] s']. Qed.

(** The monad never loses log lines: every computation built from
    [emit], [pcall], [pret], [praise], [pbind] and [ptry] extends the
    log.  [log_mono c] states it for one computation. *)
Definition log_mono {A} (c : PyM W L A) : Prop :=
  forall s, exists ls, py_log (snd (c s)) = py_log s ++ ls.

Lemma log_mono_ret {A} (a : A) : log_mono (pret a).
Proof. intros s. exists []. by rewrite app_nil_r. Qed.

Lemma log_mono_raise {A} e : log_mono (A:=A) (praise e).
Proof. intros s. exists []. by rewrite app_nil_r. Qed.

Lemma log_mono_emit l : log_mono (emit l).
Proof. intros s. by exists [l]. Qed.

Lemma log_mono_pcall {A} (f : W -> (py_exc + A) * W) : log_mono (pcall f).
Proof.
  intros s. exists []. unfold pcall. destruct (f (py_world s)).
  by rewrite app_nil_r.
Qed.

Lemma log_mono_of_sum {A} (r : py_exc + A) : log_mono (of_sum r).
Proof. destruct r; [apply log_mono_raise | apply log_mono_ret]. Qed.

Lemma log_mono_bind {A B} (c : PyM W L A) (k : A -> PyM W L B) :
  log_mono c -> (forall a, log_mono (k a)) -> log_mono (pbind c k).
Proof.
  intros Hc Hk s. unfold pbind. destruct (Hc s) as [l1 E1].
  destruct (c s) as [[e|a] s'] eqn:Ec; simpl in *.
  - by exists l1.
  - destruct (Hk a s') as [l2 E2]. exists (l1 ++ l2).
    by rewrite E2, E1, app_assoc.
Qed.

Lemma log_mono_try {A} (c : PyM W L A) (h : py_exc -> PyM W L A) :
  log_mono c -> (forall e, log_mono (h e)) -> log_mono (ptry c h).
Proof.
  intros Hc Hh s. unfold ptry. destruct (Hc s) as [l1 E1].
  destruct (c s) as [[e|a] s'] eqn:Ec; simpl in *.
  - destruct (Hh e s') as [l2 E2]. exists (l1 ++ l2).
    by rewrite E2, E1, app_assoc.
  - by exists l1.
Qed.

(** A computation does not read the log: run after any log [l], it
    returns what it returns after the empty log, and appends the same
    lines to [l]. *)
Definition log_frame {A} (c : PyM W L A) : Prop :=
  forall w l, c (PyState w l) =
    let '(r, s') := c (PyState w []) in (r, PyState (py_world s') (l ++ py_log s')).

Lemma log_frame_ret {A} (a : A) : log_frame (pret a).
Proof. intros w l. simpl. by rewrite app_nil_r. Qed.

Lemma log_frame_raise {A} e : log_frame (A:=A) (praise e).
Proof. intros w l. simpl. by rewrite app_nil_r. Qed.

Lemma log_frame_emit x : log_frame (emit x).
Proof. intros w l. reflexivity. Qed.

Lemma log_frame_pcall {A} (f : W -> (py_exc + A) * W) : log_frame (pcall f).
Proof.
  intros w l. unfold pcall. simpl. destruct (f w). simpl. by rewrite app_nil_r.
Qed.

Lemma log_frame_of_sum {A} (r : py_exc + A) : log_frame (of_sum r).
Proof. destruct r; [apply log_frame_raise | apply log_frame_ret]. Qed.

Lemma log_frame_bind {A B} (c : PyM W L A) (k : A -> PyM W L B) :
  log_frame c -> (forall a, log_frame (k a)) -> log_frame (pbind c k).
Proof.
  intros Hc Hk w l. unfold pbind. rewrite Hc.
  destruct (c (PyState w [])) as [[e|a] [w' l']]; simpl; [done|].
  rewrite (Hk a w' (l ++ l')), (Hk a w' l').
  destruct (k a (PyState w' [])) as [r [w'' l'']]. simpl. by rewrite app_assoc.
Qed.

Lemma log_frame_try {A} (c : PyM W L A) (h : py_exc -> PyM W L A) :
  log_frame c -> (forall e, log_frame (h e)) -> log_frame (ptry c h).
Proof.
  intros Hc Hh w l. unfold ptry. rewrite Hc.
  destruct (c (PyState w [])) as [[e|a] [w' l']]; simpl; [|done].
  rewrite (Hh e w' (l ++ l')), (Hh e w' l').
  destruct (h e (PyState w' [])) as [r [w'' l'']]. simpl. by rewrite app_assoc.
Qed.
End MonadLaws.

(** Running a log-independent computation after some log: its result
    and world are those of its own [run]. *)
Lemma pbind_frame {W L A B} (c : PyM W L A) (k : A -> PyM W L B) w l r w' l' :
  log_frame c -> run c w = (r, PyState w' l') ->
  pbind c k (PyState w l) =
    match r with
    | inr a => k a (PyState w' (l ++ l'))
    | inl e => (inl e, PyState w' (l ++ l'))
    end.
Proof. intros Hc Hr. unfold pbind. rewrite Hc. unfold run in Hr. by rewrite Hr. Qed.

Lemma pbind_frame_of_sum {W L A B} (r : py_exc + A) (k : A -> PyM W L B) s :
  pbind (of_sum r) k s = match r with inr a => k a s | inl e => (inl e, s) end.
Proof. by destruct r. Qed.

Create HintDb logframe discriminated.
#[export] Hint Resolve log_frame_ret log_frame_raise log_frame_emit log_frame_pcall
  log_frame_of_sum : logframe.

(** Prove [log_frame] of a composite computation, following its binds,
    handlers and matches. *)
Ltac solve_log_frame :=
  repeat first
    [ progress (eauto with logframe)
    | eapply log_frame_bind
    | eapply log_frame_try
    | match goal with
      | |- log_frame (match ?x with _ => _ end) => destruct x
      | |- forall _, log_frame _ => intro
      end ].

(** Case on every [decide] of the goal. *)
Ltac case_decides :=
  repeat match goal with |- context [decide ?P] => destruct (decide P) end.

(** Prove a closed decidable proposition by evaluating its decision. *)
Ltac by_decide := apply (bool_decide_unpack _); vm_compute; exact I.

(** ** Python's [str(int)] and [repr(str)] *)

(** [str(n)] for a non-negative Python [int], in decimal. *)
Definition str_of_nat (n : nat) : string :=
  NilEmpty.string_of_uint (Nat.to_uint n).

(** The inverse reading, Python's [int(s)] restricted to plain digits. *)
Definition nat_of_str (s : string) : option nat :=
  Nat.of_uint <$> NilEmpty.uint_of_string s.

Lemma nat_of_str_of_nat n : nat_of_str (str_of_nat n) = Some n.
Proof.
  unfold nat_of_str, str_of_nat. rewrite NilEmpty.usu. simpl.
  by rewrite DecimalNat.Unsigned.of_to.
Qed.

Lemma str_of_nat_inj n m : str_of_nat n = str_of_nat m -> n = m.
Proof.
  intros H. apply (f_equal nat_of_str) in H.
  rewrite !nat_of_str_of_nat in H. congruence.
Qed.

(** Python's [repr(s)] of a string whose 8-bit characters are read as
    the Latin-1 code points U+0000..U+00FF: single quotes, or double
    quotes when the string has a single quote and no double quote; the
    quote in use and the backslash escaped; [\t], [\n], [\r]; other
    characters that are not printable (the C0 and C1 controls, DEL,
    U+00A0 and U+00AD) as [\xhh]. *)
Definition dquote : Ascii.ascii := Ascii.ascii_of_nat 34.

Definition char_in (c : Ascii.ascii) (s : string) : bool :=
  bool_decide (c ∈ String.list_ascii_of_string s).

Definition hex_digit (n : nat) : Ascii.ascii :=
  match String.get n "0123456789abcdef" with Some c => c | None => "0"%char end.

Definition repr_char (quote c : Ascii.ascii) : string :=
  let n := Ascii.nat_of_ascii c in
  if bool_decide (c = quote) || bool_decide (c = "\"%char) then String "\"%char (String c EmptyString)
  else if decide (n = 9) then "\t"
  else if decide (n = 10) then "\n"
  else if decide (n = 13) then "\r"
  else if decide (n < 32 \/ (127 <= n <= 160) \/ n = 173) then
    String "\"%char (String "x"%char (String (hex_digit (n / 16)) (String (hex_digit (n mod 16)) EmptyString)))
  else String c EmptyString.

Fixpoint repr_chars (quote : Ascii.ascii) (s : string) : string :=
  match s with
  | EmptyString => EmptyString
  | String c s' => repr_char quote c +:+ repr_chars quote s'
  end.

Definition py_repr_str (s : string) : string :=
  let quote := if char_in "'"%char s && negb (char_in dquote s) then dquote else "'"%char in
  String quote (repr_chars quote s +:+ String quote EmptyString).

(** [str(list_of_strings)]: ['a', 'b'] *)
Definition py_repr_list (l : list string) : string :=
  "[" +:+ String.concat ", " (map py_repr_str l) +:+ "]".

(** [str(z)] for a Python [int]. *)
Definition str_of_N (n : N) : string := NilEmpty.string_of_uint (N.to_uint n).

Definition str_of_Z (z : Z) : string :=
  if decide (z < 0)%Z then "-" +:+ str_of_N (Z.to_N (- z)) else str_of_N (Z.to_N z).

(** [needle in haystack] for strings. *)
Definition py_in (needle haystack : string) : bool :=
  bool_decide (is_Some (String.index 0 needle haystack)).

(** [str.lower()] on Latin-1 text: [A-Z] and [À-Þ] (but [×]) to their
    small letters; every other character is its own lower case. *)
Definition ascii_lower (c : Ascii.ascii) : Ascii.ascii :=
  let n := Ascii.nat_of_ascii c in
  if decide (65 <= n <= 90 \/ (192 <= n <= 222 /\ n <> 215)) then Ascii.ascii_of_nat (n + 32) else c.

Fixpoint str_lower (s : string) : string :=
  match s with
  | EmptyString => EmptyString
  | String c s' => String (ascii_lower c) (str_lower s')
  end.

(** ** Generic lemmas on strings and lists *)

(** stdpp makes [String.append] [simpl never]; this is its step. *)
Lemma string_app_cons x (a b : string) : String x a +:+ b = String x (a +:+ b).
Proof. reflexivity. Qed.

Lemma string_app_nil_l (b : string) : "" +:+ b = b.
Proof. reflexivity. Qed.

Create Rewrite HintDb pystr.
#[export] Hint Rewrite string_app_cons string_app_nil_l : pystr.

Lemma string_app_assoc (a b c : string) : (a +:+ b) +:+ c = a +:+ (b +:+ c).
Proof. induction a as [|x a IH]; autorewrite with pystr; [done | by rewrite IH]. Qed.

Lemma string_length_app (a b : string) :
  String.length (a +:+ b) = String.length a + String.length b.
Proof. induction a as [|x a IH]; autorewrite with pystr; simpl; lia. Qed.

Lemma string_app_inv_l (p a b : string) : p +:+ a = p +:+ b -> a = b.
Proof. apply String.app_inj. Qed.

Lemma string_app_inv_r (s a b : string) : a +:+ s = b +:+ s -> a = b.
Proof.
  intros H. assert (Hl : String.length a = String.length b).
  { apply (f_equal String.length) in H. rewrite !string_length_app in H. lia. }
  revert b H Hl. induction a as [|x a IH]; intros [|y b] H Hl; simpl in Hl;
    try done; try lia.
  rewrite !string_app_cons in H. injection H as -> H.
  f_equal. apply IH; [done | lia].
Qed.

Lemma string_app_nil_r (s : string) : s +:+ "" = s.
Proof. induction s as [|c s IH]; [done|]. by rewrite string_app_cons, IH. Qed.

(** [s[:n]] is [String.substring 0 n s]: its length, and the whole
    string when it is no longer than [n]. *)
Lemma substring_0_length (n : nat) (s : string) :
  String.length (String.substring 0 n s) = Nat.min n (String.length s).
Proof.
  revert n. induction s as [|c s IH]; intros [|n]; simpl; try done. by rewrite IH.
Qed.

Lemma substring_0_full (n : nat) (s : string) :
  String.length s <= n -> String.substring 0 n s = s.
Proof.
  revert n. induction s as [|c s IH]; intros [|n] Hl; simpl in *; try done; [lia|].
  f_equal. apply IH. lia.
Qed.

(** [String.prefix] is the prefix relation. *)
Lemma prefix_spec (p s : string) : String.prefix p s = true <-> exists b, s = p +:+ b.
Proof.
  revert s. induction p as [|c p IH]; intros [|d s]; simpl.
  - split; [by exists ""|done].
  - split; [by exists (String d s)|done].
  - split; [done|]. by intros [b ?].
  - destruct (Ascii.ascii_dec c d) as [->|Hne]; rewrite ?IH.
    + split; intros [b Hb]; exists b; [by rewrite Hb|]. rewrite string_app_cons in Hb. congruence.
    + split; [done|]. intros [b Hb]. rewrite string_app_cons in Hb. congruence.
Qed.

(** [needle in haystack] is substring containment, against the
    reference definition: the haystack splits around the needle. *)
Lemma py_in_spec (needle haystack : string) :
  py_in needle haystack = true <-> exists a b, haystack = a +:+ needle +:+ b.
Proof.
  unfold py_in. rewrite bool_decide_eq_true.
  induction haystack as [|c s IH].
  - simpl. split.
    + destruct needle; [|by intros []]. intros _. by exists "", "".
    + intros ([|x a] & b & H); [|done]. destruct needle; [by eexists|done].
  - change (String.index 0 needle (String c s)) with
      (if String.prefix needle (String c s) then Some 0
       else match String.index 0 needle s with Some n => Some (S n) | None => None end).
    destruct (String.prefix needle (String c s)) eqn:Hp.
    + split; [|by eexists]. intros _. apply prefix_spec in Hp as [b Hb]. by exists "", b.
    + split.
      * intros H. destruct (String.index 0 needle s) eqn:E; [|by destruct H].
        destruct (proj1 IH (ltac:(by eexists))) as (a & b & ->).
        exists (String c a), b. by rewrite string_app_cons.
      * intros (a & b & H). destruct a as [|x a].
        -- exfalso. assert (String.prefix needle (String c s) = true) by
             (apply prefix_spec; by exists b). congruence.
        -- rewrite string_app_cons in H. injection H as -> Hs.
           destruct (proj2 IH (ex_intro _ a (ex_intro _ b Hs))) as [n ->]. by eexists.
Qed.

(** ** Output of a sub-computation

    [relog f c] runs [c] and records each line [l] it writes as the
    lines [f l]: a relabelling when [f] is a singleton, a filter (the
    logging level) when [f] may drop lines. *)
Definition relog {W L1 L2 A} (f : L1 -> list L2) (c : PyM W L1 A) : PyM W L2 A :=
  fun s => let '(r, s') := c (PyState (py_world s) []) in
           (r, PyState (py_world s') (py_log s ++ flat_map f (py_log s'))).

Lemma log_frame_relog {W L1 L2 A} (f : L1 -> list L2) (c : PyM W L1 A) : log_frame (relog f c).
Proof. intros w l. unfold relog. simpl. by destruct (c _). Qed.
#[export] Hint Resolve log_frame_relog : logframe.

Lemma run_relog {W L1 L2 A} (f : L1 -> list L2) (c : PyM W L1 A) w :
  run (relog f c) w =
    let '(r, s') := run c w in (r, PyState (py_world s') (flat_map f (py_log s'))).
Proof. unfold run, relog. simpl. by destruct (c _). Qed.

Lemma log_mono_relog {W L1 L2 A} (f : L1 -> list L2) (c : PyM W L1 A) : log_mono (relog f c).
Proof. intros s. unfold relog. destruct (c _) as [r s']. by eexists. Qed.

Create HintDb logmono discriminated.
#[export] Hint Resolve log_mono_ret log_mono_raise log_mono_emit log_mono_pcall
  log_mono_of_sum log_mono_relog : logmono.

(** Prove [log_mono] of a composite computation, as [solve_log_frame]
    does for [log_frame]. *)
Ltac solve_log_mono :=
  repeat first
    [ progress (eauto with logmono)
    | eapply log_mono_bind
    | eapply log_mono_try
    | match goal with
      | |- log_mono (match ?x with _ => _ end) => destruct x
      | |- log_mono (if ?x then _ else _) => destruct x
      | |- forall _, log_mono _ => intro
      end ].

(** The lines a [try] body writes before its first call stay in the
    log, whether the rest of the body raises or not. *)
Lemma ptry_emit_prefix {W L A} (l : L) (k : unit -> PyM W L A) (h : py_exc -> PyM W L A) s :
  log_mono (k tt) -> (forall e, log_mono (h e)) ->
  exists ls, py_log (snd (ptry (pbind (emit l) k) h s)) = py_log s ++ l :: ls.
Proof.
  intros Hk Hh. unfold ptry. rewrite pbind_emit. destruct (Hk (PyState (py_world s) (py_log s ++ [l]))) as [l1 E1].
  destruct (k tt _) as [[e|a] s'] eqn:Ek; simpl in *.
  - destruct (Hh e s') as [l2 E2]. exists (l1 ++ l2). rewrite E2, E1. by rewrite <- !app_assoc.
  - exists l1. rewrite E1. by rewrite <- app_assoc.
Qed.

(** ** Python's [int(s)] on a string

    CPython 3.12: surrounding whitespace (the Latin-1 characters for
    which [str.isspace] holds), an optional sign, decimal digits with
    single underscores between them; more than 4300 digits raise the
    conversion limit's [ValueError]; anything else raises [ValueError]
    with the [repr] of the argument cut at 200 characters. *)
Definition py_isspace (c : Ascii.ascii) : bool :=
  let n := Ascii.nat_of_ascii c in
  bool_decide ((9 <= n <= 13) \/ (28 <= n <= 32) \/ n = 133 \/ n = 160).

Definition is_digit (c : Ascii.ascii) : bool :=
  bool_decide (48 <= Ascii.nat_of_ascii c <= 57).

Fixpoint drop_space (s : string) : string :=
  match s with
  | String c s' => if py_isspace c then drop_space s' else s
  | EmptyString => EmptyString
  end.

(** The digits of a numeral without its underscores, and what follows. *)
Fixpoint collect_digits (s : string) : string * string :=
  match s with
  | String c s' =>
      if is_digit c then let '(d, r) := collect_digits s' in (String c d, r)
      else if bool_decide (c = "_"%char) then
        match s' with
        | String c2 _ => if is_digit c2 then collect_digits s' else (EmptyString, s)
        | EmptyString => (EmptyString, s)
        end
      else (EmptyString, s)
  | EmptyString => (EmptyString, EmptyString)
  end.

Definition int_max_str_digits : nat := 4300.

Definition py_int (s : string) : py_exc + Z :=
  let invalid := inl (PyExc ValueError ("invalid literal for int() with base 10: "
                                          +:+ String.substring 0 200 (py_repr_str s))) in
  let t := drop_space s in
  let '(neg, t1) := match t with
                    | String "-" t' => (true, t')
                    | String "+" t' => (false, t')
                    | _ => (false, t)
                    end in
  match t1 with
  | String c _ =>
      if is_digit c then
        let '(ds, rest) := collect_digits t1 in
        if decide (int_max_str_digits < String.length ds) then
          inl (PyExc ValueError ("Exceeds the limit (4300 digits) for integer string conversion: value has "
                                 +:+ str_of_nat (String.length ds)
                                 +:+ " digits; use sys.set_int_max_str_digits() to increase the limit"))
        else
          match drop_space rest, NilEmpty.uint_of_string ds with
          | EmptyString, Some u => let n := Z.of_N (N.of_uint u) in inr (if neg then (- n)%Z else n)
          | _, _ => invalid
          end
      else invalid
  | EmptyString => invalid
  end.

(** [str.upper()] on Latin-1 text: [a-z] and [à-þ] (but [÷]) to their
    capitals, [ß] to ["SS"]; [µ] and [ÿ], whose capitals (U+039C,
    U+0178) lie outside Latin-1, are kept. *)
Definition upper_char (c : Ascii.ascii) : string :=
  let n := Ascii.nat_of_ascii c in
  if decide (97 <= n <= 122 \/ (224 <= n <= 254 /\ n <> 247)) then
    String (Ascii.ascii_of_nat (n - 32)) EmptyString
  else if decide (n = 223) then "SS"
  else String c EmptyString.

Fixpoint str_upper (s : string) : string :=
  match s with
  | EmptyString => EmptyString
  | String c s' => upper_char c +:+ str_upper s'
  end.

Definition newline : string := String (Ascii.ascii_of_nat 10) EmptyString.

(** [for x in xs: body(x)] *)
Fixpoint pfor {W L A} (xs : list A) (body : A -> PyM W L unit) : PyM W L unit :=
  match xs with
  | [] => pret tt
  | x :: xs' => pbind (body x) (fun _ => pfor xs' body)
  end.

Lemma log_mono_pfor {W L A} (xs : list A) (body : A -> PyM W L unit) :
  (forall x, log_mono (body x)) -> log_mono (pfor xs body).
Proof.
  intros Hb. induction xs as [|x xs IH]; cbn [pfor]; [apply log_mono_ret|].
  apply log_mono_bind; [apply Hb | intros; apply IH].
Qed.
#[export] Hint Resolve log_mono_pfor : logmono.

(** A line already in the log stays there. *)
Lemma log_mono_keeps {W L A} (c : PyM W L A) s x :
  log_mono c -> x ∈ py_log s -> x ∈ py_log (snd (c s)).
Proof. intros Hc Hx. destruct (Hc s) as [ls ->]. set_solver. Qed.

(** A loop whose body only writes a line. *)
Lemma pfor_emit {W L A} (xs : list A) (f : A -> L) (s : pystate W L) :
  pfor xs (fun x => emit (f x)) s = (inr tt, PyState (py_world s) (py_log s ++ map f xs)).
Proof.
  revert s. induction xs as [|x xs IH]; intros [w l]; cbn [pfor map].
  - by rewrite app_nil_r.
  - rewrite pbind_emit, IH. simpl. by rewrite <- app_assoc.
Qed.

Lemma pbind_pfor_emit {W L A B} (xs : list A) (f : A -> L) (k : unit -> PyM W L B) s :
  pbind (pfor xs (fun x => emit (f x))) k s =
    k tt (PyState (py_world s) (py_log s ++ map f xs)).
Proof. unfold pbind at 1. by rewrite pfor_emit. Qed.
#[export] Hint Rewrite @pbind_pfor_emit : pym.

(** Run the straight-line part of a computation: the monad laws, the
    lines written, beta-reduction, until nothing changes. *)
Ltac pym_run :=
  repeat progress (rewrite ?pbind_assoc, ?pbind_emit, ?pbind_ret, ?pbind_pfor_emit, ?pfor_emit;
                   cbn beta).

(** [s[:n]] is a prefix of [s]. *)
Lemma substring_0_prefix (n : nat) (s : string) :
  exists rest, s = String.substring 0 n s +:+ rest.
Proof.
  revert n. induction s as [|c s IH]; intros [|n]; simpl.
  - by exists "".
  - by exists "".
  - by exists (String c s).
  - destruct (IH n) as [rest Hr]. exists rest. rewrite string_app_cons. by f_equal.
Qed.

(** ** [int(str(n)) = n] *)

Lemma collect_digits_uint (u : Decimal.uint) :
  collect_digits (NilEmpty.string_of_uint u) = (NilEmpty.string_of_uint u, EmptyString).
Proof.
  induction u as [|u IH|u IH|u IH|u IH|u IH|u IH|u IH|u IH|u IH|u IH]; [reflexivity|..];
    cbn [NilEmpty.string_of_uint collect_digits]; rewrite IH; reflexivity.
Qed.

Lemma N_to_uint_not_nil (n : N) : N.to_uint n <> Decimal.Nil.
Proof.
  intros H. pose proof (DecimalN.Unsigned.of_to n) as E. rewrite H in E.
  simpl in E. subst n. discriminate H.
Qed.

(** [str(n)] starts with a digit. *)
Lemma str_of_N_digit (n : N) :
  exists c rest, str_of_N n = String c rest /\ is_digit c = true /\ py_isspace c = false /\
                 c <> "-"%char /\ c <> "+"%char.
Proof.
  unfold str_of_N. pose proof (N_to_uint_not_nil n).
  destruct (N.to_uint n); [done|..];
    (do 2 eexists; split; [reflexivity|]; repeat split; (reflexivity || discriminate)).
Qed.

Lemma sign_split_digit (c : Ascii.ascii) (rest : string) :
  c <> "-"%char -> c <> "+"%char ->
  match String c rest with
  | String "-" t' => (true, t') | String "+" t' => (false, t') | _ => (false, String c rest)
  end = (false, String c rest).
Proof. destruct c as [[] [] [] [] [] [] [] []]; intros; (reflexivity || congruence). Qed.

Lemma py_int_str_of_N (neg : bool) (n : N) :
  String.length (str_of_N n) <= int_max_str_digits ->
  py_int ((if neg then "-" else "") +:+ str_of_N n) = inr (if neg then (- Z.of_N n)%Z else Z.of_N n).
Proof.
  intros Hl. destruct (str_of_N_digit n) as (c & rest & Hs & Hd & Hsp & Hm & Hp).
  assert (Hc : collect_digits (str_of_N n) = (str_of_N n, EmptyString)) by apply collect_digits_uint.
  assert (Hu : NilEmpty.uint_of_string (str_of_N n) = Some (N.to_uint n)) by apply NilEmpty.usu.
  unfold py_int. destruct neg.
  - rewrite string_app_cons, string_app_nil_l. cbn [drop_space].
    replace (py_isspace "-"%char) with false by reflexivity. cbv iota.
    rewrite Hc, decide_False by lia. cbn [drop_space].
    rewrite Hu, DecimalN.Unsigned.of_to, Hs, Hd. reflexivity.
  - rewrite string_app_nil_l, Hs. cbn [drop_space]. rewrite Hsp.
    rewrite (sign_split_digit c rest Hm Hp), <- Hs, Hc, decide_False by lia. cbn [drop_space].
    rewrite Hu, DecimalN.Unsigned.of_to, Hs, Hd. reflexivity.
Qed.

(** Python's [int(str(n)) == n], for [n] of at most 4300 digits. *)
Lemma py_int_str_of_Z (n : Z) :
  String.length (str_of_N (Z.to_N (Z.abs n))) <= int_max_str_digits -> py_int (str_of_Z n) = inr n.
Proof.
  intros Hl. unfold str_of_Z. case_decide.
  - replace (Z.abs n) with (- n)%Z in Hl by lia.
    rewrite (py_int_str_of_N true _ Hl). f_equal. lia.
  - replace (Z.abs n) with n in Hl by lia.
    rewrite <- (string_app_nil_l (str_of_N _)).
    rewrite (py_int_str_of_N false _ Hl). f_equal. lia.
Qed.
