(* ===== verification/PyDict.v ===== *)
(** * Python dictionaries with string keys

    Every dict of the repository ([AVAILABLE_MODELS], [MODEL_NAMES],
    [EXAMPLE_PAYLOADS], the payload dicts of [to_dict], [os.environ])
    is keyed by strings and is read in insertion order somewhere (in an
    error message, in a listing).  A dict is therefore an association
    list, oldest key first.  This file gives the dict operations the code
    uses, the well-formedness invariant (no key twice), and the
    refinement lemma that the association list agrees with stdpp's
    [gmap] on lookups, so that map reasoning ([simplify_map_eq]) is
    available to clients. *)

From S2P Require Import Prelude.

Definition dict (V : Type) : Type := list (string * V).

Section Dict.
Context {V : Type}.
Implicit Types (d : dict V) (k : string) (v : V).

(** [d.get(k)]: the value of the first (and, in a well-formed dict,
    only) entry with key [k]. *)
Fixpoint dict_lookup k d : option V :=
  match d with
  | [] => None
  | (k', v) :: d' => if decide (k = k') then Some v else dict_lookup k d'
  end.

(** [k in d] *)
Definition dict_contains k d : bool := bool_decide (is_Some (dict_lookup k d)).

(** [d[k]]: raises [KeyError(k)], whose [str] is [repr(k)]. *)
Definition dict_getitem k d : py_exc + V :=
  match dict_lookup k d with
  | Some v => inr v
  | None => inl (PyExc KeyError (py_repr_str k))
  end.

(** [d.get(k, default)] *)
Definition dict_get k (default : V) d : V :=
  match dict_lookup k d with Some v => v | None => default end.

(** [list(d.keys())], in insertion order *)
Definition dict_keys d : list string := map fst d.

(** [d[k] = v]: an existing key keeps its position, a new key goes last. *)
Fixpoint dict_setitem k v d : dict V :=
  match d with
  | [] => [(k, v)]
  | (k', v') :: d' =>
      if decide (k = k') then (k', v) :: d' else (k', v') :: dict_setitem k v d'
  end.

(** Well-formedness: no key appears twice. *)
Definition dict_wf d : Prop := NoDup (dict_keys d).

(** The abstract view of a dict. *)
Definition to_gmap d : gmap string V := list_to_map d.

(** ** Lemmas *)

Lemma dict_lookup_gmap k d : dict_lookup k d = to_gmap d !! k.
Proof.
  unfold to_gmap. induction d as [|[k' v'] d IH]; simpl.
  - by rewrite lookup_empty.
  - case_decide as Hk.
    + subst. by rewrite lookup_insert_eq.
    + rewrite lookup_insert_ne by congruence. exact IH.
Qed.

Lemma dict_lookup_In k v d : dict_lookup k d = Some v -> In (k, v) d.
Proof.
  induction d as [|[k' v'] d IH]; simpl; [done|].
  case_decide; [intros [= ->]; subst; by left | intros; right; auto].
Qed.

Lemma dict_lookup_None k d : dict_lookup k d = None <-> k ∉ dict_keys d.
Proof.
  induction d as [|[k' v'] d IH]; simpl.
  - split; [intros _; apply not_elem_of_nil | done].
  - rewrite not_elem_of_cons. case_decide; [naive_solver|].
    rewrite IH. naive_solver.
Qed.

Lemma dict_lookup_Some_keys k v d : dict_lookup k d = Some v -> k ∈ dict_keys d.
Proof.
  intros H. destruct (decide (k ∈ dict_keys d)) as [|Hn]; [done|].
  apply dict_lookup_None in Hn. congruence.
Qed.

Lemma dict_contains_spec k d : dict_contains k d = true <-> k ∈ dict_keys d.
Proof.
  unfold dict_contains. rewrite bool_decide_eq_true.
  destruct (dict_lookup k d) eqn:E.
  - split; [intros _; by eapply dict_lookup_Some_keys | by eexists].
  - apply dict_lookup_None in E. split; [intros [? ?]; done | done].
Qed.

Lemma dict_getitem_Some k d v : dict_lookup k d = Some v -> dict_getitem k d = inr v.
Proof. unfold dict_getitem. by intros ->. Qed.

Lemma dict_getitem_None k d :
  dict_lookup k d = None -> dict_getitem k d = inl (PyExc KeyError (py_repr_str k)).
Proof. unfold dict_getitem. by intros ->. Qed.

(** The guarded subscript [d[k] if k in d else <raise e>] is a lookup. *)
Lemma dict_contains_getitem k d (e : py_exc + V) :
  (if dict_contains k d then dict_getitem k d else e) =
    match dict_lookup k d with Some v => inr v | None => e end.
Proof.
  unfold dict_contains, dict_getitem.
  destruct (dict_lookup k d); simpl; done.
Qed.

Lemma dict_lookup_setitem_eq k v d : dict_lookup k (dict_setitem k v d) = Some v.
Proof.
  induction d as [|[k' v'] d IH]; simpl; [by rewrite decide_True|].
  case_decide; simpl; [by rewrite decide_True | by rewrite decide_False].
Qed.

Lemma dict_lookup_setitem_ne k k2 v d :
  k <> k2 -> dict_lookup k2 (dict_setitem k v d) = dict_lookup k2 d.
Proof.
  intros Hne. induction d as [|[k' v'] d IH]; simpl.
  - by rewrite decide_False.
  - case_decide; simpl; [subst; by repeat case_decide | by rewrite IH].
Qed.

(** Writing back the value a key already has changes nothing. *)
Lemma dict_setitem_lookup_id k v d : dict_lookup k d = Some v -> dict_setitem k v d = d.
Proof.
  induction d as [|[k' v'] d IH]; simpl; [done|].
  case_decide as Hk; [intros [= ->]; by subst | intros Hl; by rewrite IH].
Qed.

(** [d[k] = v] refines [<[k:=v]>] on the map view. *)
Lemma dict_setitem_gmap k v d : to_gmap (dict_setitem k v d) = <[k:=v]> (to_gmap d).
Proof.
  apply map_eq. intros k2. rewrite <- !dict_lookup_gmap.
  destruct (decide (k = k2)) as [<-|Hne].
  - by rewrite dict_lookup_setitem_eq, lookup_insert_eq.
  - rewrite dict_lookup_setitem_ne, lookup_insert_ne by done.
    apply dict_lookup_gmap.
Qed.

(** Setting an existing key keeps the key order; a new key goes last. *)
Lemma dict_keys_setitem_in k v d :
  k ∈ dict_keys d -> dict_keys (dict_setitem k v d) = dict_keys d.
Proof.
  unfold dict_keys. induction d as [|[k' v'] d IH]; intros Hin; [set_solver|].
  cbn [dict_setitem]. case_decide as Hk; [done|]. cbn [map fst].
  rewrite IH; [done | set_solver].
Qed.

Lemma dict_keys_setitem_notin k v d :
  k ∉ dict_keys d -> dict_keys (dict_setitem k v d) = dict_keys d ++ [k].
Proof.
  unfold dict_keys. induction d as [|[k' v'] d IH]; intros Hin; [done|].
  cbn [dict_setitem]. case_decide as Hk; [set_solver|]. cbn [map fst].
  rewrite IH; [done | set_solver].
Qed.

(** [d[k] = v] for a new key appends the entry. *)
Lemma dict_setitem_new k v d : k ∉ dict_keys d -> dict_setitem k v d = d ++ [(k, v)].
Proof.
  unfold dict_keys. induction d as [|[k' v'] d IH]; intros Hk; [done|]. cbn [dict_setitem].
  rewrite decide_False by set_solver. rewrite IH by set_solver. done.
Qed.

Lemma dict_setitem_wf k v d : dict_wf d -> dict_wf (dict_setitem k v d).
Proof.
  unfold dict_wf. intros Hwf. destruct (decide (k ∈ dict_keys d)) as [Hin|Hin].
  { by rewrite dict_keys_setitem_in. }
  rewrite dict_keys_setitem_notin by done. apply NoDup_app. split; [done|]. split; [|apply NoDup_singleton].
  set_solver.
Qed.
End Dict.

#[export] Hint Resolve dict_setitem_wf : core.

(** ** Equality of dicts

    Python's [==] on dicts ignores insertion order: two dicts are equal
    when they give every key the same value.  Everything that reads a
    dict by key respects this equivalence; what lists its keys (the
    [Unknown model] message, [list_available_models]) does not. *)

Definition dict_equiv {V} (d1 d2 : dict V) : Prop :=
  forall k, dict_lookup k d1 = dict_lookup k d2.

Section DictEquiv.
Context {V : Type}.
Implicit Types (d : dict V) (k : string) (v : V).

#[export] Instance dict_equiv_equivalence : Equivalence (@dict_equiv V).
Proof.
  split; unfold dict_equiv; [done | by intros ?? H k | intros ??? H1 H2 k; by rewrite H1].
Qed.

#[export] Instance dict_lookup_proper k : Proper (dict_equiv ==> eq) (@dict_lookup V k).
Proof. intros d1 d2 H. apply H. Qed.

#[export] Instance dict_contains_proper k : Proper (dict_equiv ==> eq) (@dict_contains V k).
Proof. intros d1 d2 H. unfold dict_contains. by rewrite (H k). Qed.

#[export] Instance dict_getitem_proper k : Proper (dict_equiv ==> eq) (@dict_getitem V k).
Proof. intros d1 d2 H. unfold dict_getitem. by rewrite (H k). Qed.

#[export] Instance dict_get_proper k v : Proper (dict_equiv ==> eq) (@dict_get V k v).
Proof. intros d1 d2 H. unfold dict_get. by rewrite (H k). Qed.

#[export] Instance dict_setitem_proper k v : Proper (dict_equiv ==> dict_equiv) (@dict_setitem V k v).
Proof.
  intros d1 d2 H k2. destruct (decide (k = k2)) as [<-|Hne].
  - by rewrite !dict_lookup_setitem_eq.
  - rewrite !dict_lookup_setitem_ne by done. apply H.
Qed.

(** Dict equality is equality of the map views. *)
Lemma dict_equiv_gmap d1 d2 : dict_equiv d1 d2 <-> to_gmap d1 = to_gmap d2.
Proof.
  unfold dict_equiv. setoid_rewrite dict_lookup_gmap. split; [apply map_eq | by intros ->].
Qed.

(** Setting a key to the value it has changes nothing: [d[k] = d[k]]. *)
Lemma dict_setitem_same_equiv k v d :
  dict_lookup k d = Some v -> dict_equiv (dict_setitem k v d) d.
Proof. intros H. by rewrite dict_setitem_lookup_id. Qed.
End DictEquiv.
