(* ===== verification/FloatFormat.v ===== *)
(** * Fixed-point formatting of floats: [format(x, '.4f')]

    [main] of [src/llm_handler.py] prints the cost of a successful call
    as [f"Cost: ${response.cost:.4f}"].  CPython formats a float with
    [p] decimals ([PyOS_double_to_string] with mode 3 of [_Py_dg_dtoa])
    from its exact binary value [m * 2^e]: the value times [10^p] is
    rounded to the nearest integer, ties to even, and printed with the
    last [p] digits after the point; the sign is kept, [-0.0] included;
    the infinities are [inf] and [-inf] and every NaN is [nan].

    [read_fixed] reads such a numeral back; [rounds_to] states that a
    text is the correct rounding of a float, and [format_fixed_rounds]
    that [format_fixed] prints it ([format_fixed_spec] adds zeros,
    infinities and NaN).  [EntryPoints] applies it to the cost line of
    [print_results]. *)

From Stdlib Require Import Ascii SpecFloat ZArith.
From S2P Require Import Prelude.

Module FloatFormat.

(** ** The formatter *)

(** [n / d] rounded to the nearest integer, ties to the even one
    ([d > 0]). *)
Definition round_half_even (n d : Z) : Z :=
  let q := (n / d)%Z in
  let r := (n mod d)%Z in
  if decide (2 * r < d)%Z then q
  else if decide (d < 2 * r)%Z then (q + 1)%Z
  else if Z.even q then q else (q + 1)%Z.

(** [m * 2^e * 10^p] rounded to an integer: the digits of [format]
    before the point is placed. *)
Definition scaled_digits (p : nat) (m : positive) (e : Z) : N :=
  Z.to_N (round_half_even (Z.pos m * 10 ^ Z.of_nat p * 2 ^ Z.max 0 e) (2 ^ Z.max 0 (- e))).

Definition digit_char (d : N) : Ascii.ascii := Ascii.ascii_of_N (48 + d).

(** The last [p] decimal digits of [n], zeros included. *)
Fixpoint frac_digits (p : nat) (n : N) : string :=
  match p with
  | O => EmptyString
  | S p' => frac_digits p' (n / 10) +:+ String (digit_char (n mod 10)) EmptyString
  end.

(** [q / 10^p] with [p] decimals: no point when [p = 0]. *)
Definition fixed_digits (p : nat) (q : N) : string :=
  if decide (p = 0) then str_of_N q
  else str_of_N (q / 10 ^ N.of_nat p) +:+ "." +:+ frac_digits p q.

Definition sign_str (neg : bool) : string := if neg then "-" else "".

(** [format(x, '.pf')] *)
Definition format_fixed (p : nat) (x : spec_float) : string :=
  match x with
  | S754_zero neg => sign_str neg +:+ fixed_digits p 0
  | S754_infinity neg => sign_str neg +:+ "inf"
  | S754_nan => "nan"
  | S754_finite neg m e => sign_str neg +:+ fixed_digits p (scaled_digits p m e)
  end.

(** ** Reading a fixed-point numeral back *)

Fixpoint digits_val (acc : N) (s : string) : option N :=
  match s with
  | EmptyString => Some acc
  | String c s' =>
      if is_digit c then digits_val (10 * acc + (Ascii.N_of_ascii c - 48)) s' else None
  end.

Fixpoint split_point (s : string) : string * option string :=
  match s with
  | EmptyString => (EmptyString, None)
  | String "."%char s' => (EmptyString, Some s')
  | String c s' => let '(a, b) := split_point s' in (String c a, b)
  end.

Definition strip_minus (s : string) : bool * string :=
  match s with String "-"%char t => (true, t) | _ => (false, s) end.

(** A sign, a non-empty run of digits and, when [p > 0], a point and
    exactly [p] digits: the sign and the numeral's value times [10^p]. *)
Definition read_fixed (p : nat) (s : string) : option (bool * N) :=
  let '(neg, body) := strip_minus s in
  match split_point body with
  | (EmptyString, _) => None
  | (ip, None) => if decide (p = 0) then a ← digits_val 0 ip; Some (neg, a) else None
  | (ip, Some fp) =>
      if decide (p <> 0 /\ String.length fp = p) then
        a ← digits_val 0 ip; b ← digits_val 0 fp; Some (neg, a * 10 ^ N.of_nat p + b)%N
      else None
  end.

(** ** Lemmas *)

(** [round_half_even] is within half of [d] of [n], and even on a
    tie. *)
Lemma round_half_even_spec n d :
  (0 < d)%Z ->
  (2 * Z.abs (d * round_half_even n d - n) <= d)%Z /\
  ((2 * Z.abs (d * round_half_even n d - n))%Z = d -> Z.even (round_half_even n d) = true).
Proof.
  intros Hd. pose proof (Z.div_mod n d ltac:(lia)) as Hn. pose proof (Z.mod_pos_bound n d Hd).
  unfold round_half_even. set (q := (n / d)%Z) in *. set (r := (n mod d)%Z) in *.
  case_decide; [split; [lia | lia]|]. case_decide; [split; [lia | lia]|].
  destruct (Z.even q) eqn:Ev; (split; [lia|]); [done|].
  intros _. by rewrite Z.even_add, Ev.
Qed.

Lemma round_half_even_nonneg n d : (0 <= n)%Z -> (0 < d)%Z -> (0 <= round_half_even n d)%Z.
Proof.
  intros Hn Hd. pose proof (Z.div_pos n d Hn Hd).
  unfold round_half_even. repeat case_match; case_decides; lia.
Qed.

Lemma digit_char_val d :
  (d < 10)%N -> is_digit (digit_char d) = true /\ (Ascii.N_of_ascii (digit_char d) - 48 = d)%N.
Proof.
  intros Hd. assert (d = 0 \/ d = 1 \/ d = 2 \/ d = 3 \/ d = 4 \/ d = 5 \/ d = 6 \/ d = 7 \/
                     d = 8 \/ d = 9)%N as Hc by lia.
  repeat destruct Hc as [->|Hc]; [..|subst d]; split; reflexivity.
Qed.

Lemma digits_val_app acc s t : digits_val acc (s +:+ t) = digits_val acc s ≫= fun a => digits_val a t.
Proof.
  revert acc. induction s as [|c s IH]; intros acc; [by rewrite string_app_nil_l|].
  rewrite string_app_cons. cbn [digits_val]. destruct (is_digit c); [apply IH | done].
Qed.

Lemma frac_digits_length p : forall n, String.length (frac_digits p n) = p.
Proof.
  induction p as [|p IH]; intros n; [done|]. cbn [frac_digits].
  rewrite string_length_app, IH. simpl. lia.
Qed.

Lemma digits_val_frac p : forall acc n,
  digits_val acc (frac_digits p n) = Some (acc * 10 ^ N.of_nat p + n mod 10 ^ N.of_nat p)%N.
Proof.
  induction p as [|p IH]; intros acc n; [simpl; f_equal; rewrite N.mod_1_r; lia|].
  cbn [frac_digits]. rewrite digits_val_app, IH. simpl.
  destruct (digit_char_val (n mod 10) ltac:(apply N.mod_lt; lia)) as [-> ->].
  f_equal. rewrite Nat2N.inj_succ, N.pow_succ_r', N.Div0.mod_mul_r by (try apply N.pow_nonzero; lia).
  lia.
Qed.

Lemma digits_val_uint_acc (u : Decimal.uint) : forall acc,
  digits_val (N.pos acc) (NilEmpty.string_of_uint u) = Some (N.pos (Pos.of_uint_acc u acc)).
Proof.
  induction u as [|u IH|u IH|u IH|u IH|u IH|u IH|u IH|u IH|u IH|u IH]; intros acc; [done|..];
    cbn [NilEmpty.string_of_uint digits_val Pos.of_uint_acc]; rewrite <- IH; cbn; f_equal; lia.
Qed.

Lemma digits_val_str_of_N n : digits_val 0 (str_of_N n) = Some n.
Proof.
  unfold str_of_N. rewrite <- (DecimalN.Unsigned.of_to n) at 2.
  induction (N.to_uint n) as [|u IH|u IH|u IH|u IH|u IH|u IH|u IH|u IH|u IH|u IH]; [done|..];
    cbn [NilEmpty.string_of_uint digits_val]; [exact IH|..]; apply digits_val_uint_acc.
Qed.

Lemma split_point_uint (u : Decimal.uint) t :
  split_point (NilEmpty.string_of_uint u +:+ String "."%char t) = (NilEmpty.string_of_uint u, Some t).
Proof.
  induction u as [|u IH|u IH|u IH|u IH|u IH|u IH|u IH|u IH|u IH|u IH]; [done|..];
    cbn [NilEmpty.string_of_uint]; rewrite string_app_cons; cbn [split_point]; by rewrite IH.
Qed.

Lemma split_point_uint_end (u : Decimal.uint) :
  split_point (NilEmpty.string_of_uint u) = (NilEmpty.string_of_uint u, None).
Proof.
  induction u as [|u IH|u IH|u IH|u IH|u IH|u IH|u IH|u IH|u IH|u IH]; [done|..];
    cbn [NilEmpty.string_of_uint split_point]; by rewrite IH.
Qed.

Lemma strip_minus_sign neg c r :
  c <> "-"%char -> strip_minus (sign_str neg +:+ String c r) = (neg, String c r).
Proof.
  intros Hc. destruct neg; cbn [sign_str]; [by rewrite string_app_cons, string_app_nil_l|].
  rewrite string_app_nil_l. destruct c as [[] [] [] [] [] [] [] []]; (reflexivity || congruence).
Qed.

(** The text of [fixed_digits], after a sign, reads back as its
    value. *)
Lemma read_fixed_digits neg p q : read_fixed p (sign_str neg +:+ fixed_digits p q) = Some (neg, q).
Proof.
  unfold read_fixed, fixed_digits. case_decide as Hp.
  - destruct (str_of_N_digit q) as (c & rest & Hs & _ & _ & Hm & _).
    rewrite Hs, (strip_minus_sign _ _ _ Hm), <- Hs.
    unfold str_of_N at 1. rewrite split_point_uint_end. fold (str_of_N q).
    rewrite Hs. cbn iota. by rewrite <- Hs, digits_val_str_of_N.
  - set (a := (q / 10 ^ N.of_nat p)%N).
    destruct (str_of_N_digit a) as (c & rest & Hs & _ & _ & Hm & _).
    change ("." +:+ frac_digits p q) with (String "." (frac_digits p q)).
    rewrite Hs, (string_app_cons c rest), (strip_minus_sign _ _ _ Hm), <- string_app_cons, <- Hs.
    unfold str_of_N at 1. rewrite split_point_uint. fold (str_of_N a). rewrite Hs. cbn iota.
    rewrite decide_True by (split; [done | apply frac_digits_length]).
    rewrite <- Hs, digits_val_str_of_N. cbn [mbind option_bind].
    rewrite digits_val_frac, N.mul_0_l, N.add_0_l. cbn [mbind option_bind].
    do 2 f_equal. rewrite N.mul_comm. symmetry. apply N.div_mod, N.pow_nonzero. lia.
Qed.

Lemma read_fixed_word neg p w :
  w = "inf" \/ w = "nan" -> neg = false \/ w = "inf" -> read_fixed p (sign_str neg +:+ w) = None.
Proof.
  intros Hw Hn. destruct Hw as [-> | ->]; destruct neg;
    try (destruct Hn as [Hn|Hn]; discriminate); destruct p; reflexivity.
Qed.

(** ** Properties *)

(** [rounds_to p neg m e t]: the text [t] is a numeral with [p]
    decimals whose digits [q] are [±m * 2^e] correctly rounded to [p]
    decimals, [|q / 10^p - m * 2^e| <= 1/2 * 10^-p] (in integers:
    [2 * |2^k * q - m * 10^p * 2^j| <= 2^k] with [k = max 0 (-e)],
    [j = max 0 e]), a tie going to the even [q], with the float's sign. *)
Definition rounds_to (p : nat) (neg : bool) (m : positive) (e : Z) (t : string) : Prop :=
  exists q, read_fixed p t = Some (neg, q) /\
    let k := Z.max 0 (- e) in
    let n := (Z.pos m * 10 ^ Z.of_nat p * 2 ^ Z.max 0 e)%Z in
    (2 * Z.abs (2 ^ k * Z.of_N q - n) <= 2 ^ k)%Z /\
    ((2 * Z.abs (2 ^ k * Z.of_N q - n))%Z = (2 ^ k)%Z -> Z.even (Z.of_N q) = true).

(** [format(x, '.pf')] on a finite float prints its correct rounding. *)
Lemma format_fixed_rounds p neg m e :
  rounds_to p neg m e (format_fixed p (S754_finite neg m e)).
Proof.
  exists (scaled_digits p m e). split; [apply read_fixed_digits|]. cbv zeta.
  assert (Hk : (0 < 2 ^ Z.max 0 (- e))%Z) by (apply Z.pow_pos_nonneg; lia).
  assert (Hn : (0 <= Z.pos m * 10 ^ Z.of_nat p * 2 ^ Z.max 0 e)%Z)
    by (apply Z.mul_nonneg_nonneg; [apply Z.mul_nonneg_nonneg|]; [lia|apply Z.pow_nonneg; lia ..]).
  unfold scaled_digits. rewrite Z2N.id by (by apply round_half_even_nonneg).
  by apply round_half_even_spec.
Qed.

(** The other floats: a zero prints as a numeral of zero digits with
    its sign, [-0.0] included; [inf], [-inf] and [nan] are not
    numerals. *)
Lemma format_fixed_spec p x :
  match x with
  | S754_zero neg => read_fixed p (format_fixed p x) = Some (neg, 0%N)
  | S754_finite neg m e => rounds_to p neg m e (format_fixed p x)
  | _ => read_fixed p (format_fixed p x) = None
  end.
Proof.
  destruct x as [neg|neg| |neg m e]; cbn [format_fixed];
    [apply read_fixed_digits | apply read_fixed_word; auto | apply (read_fixed_word false); auto|].
  apply format_fixed_rounds.
Qed.

(** The formatter agrees with CPython 3.11 on floats whose exact values
    were read off [float.as_integer_ratio()]: [0.03125] and [0.09375]
    (ties to even), [123.456789], [1e22], [5e-324], [2.5], [0.0015],
    [-1e-05] and [-0.0]. *)
Lemma format_fixed_python :
  map (format_fixed 4)
    [S754_finite false 1 (-5); S754_finite false 3 (-5);
     S754_finite false 8687499202136843 (-46); S754_finite false 2384185791015625 22;
     S754_finite false 1 (-1074); S754_finite false 5 (-1); S754_finite false 3458764513820541 (-61);
     S754_finite true 5902958103587057 (-69); S754_zero true; S754_infinity true; S754_nan] =
  ["0.0312"; "0.0938"; "123.4568"; "10000000000000000000000.0000"; "0.0000"; "2.5000"; "0.0015";
   "-0.0000"; "-0.0000"; "-inf"; "nan"].
Proof. vm_compute. reflexivity. Qed.

End FloatFormat.
