(* ===== verification/AvailableModels.v ===== *)
(** * The model registry ([src/available_models.py])

    The module keeps two module-level dicts: [AVAILABLE_MODELS] maps a
    caller-facing model key to the identifier LiteLLM expects, and
    [MODEL_NAMES] maps the same keys to display names.  The record
    [models_module] is that module's global state; the handler reads it
    through [get_model_id] and [get_model_name], so every theorem about
    the handler holds for any contents of the two dicts (a test that
    patches them included), and [available_models] is the literal
    configuration of the source. *)

From S2P Require Import Prelude PyDict.

Module AvailableModels.

(** The globals of [available_models.py]. *)
Record models_module := ModelsModule {
  AVAILABLE_MODELS : dict string;
  MODEL_NAMES : dict string
}.

(** The two literal dicts of the source, in their insertion order. *)
Definition available_models : models_module := {|
  AVAILABLE_MODELS := [
    ("claude-3-5-sonnet", "claude-3-5-sonnet-20241022");
    ("claude-3-haiku", "claude-3-haiku-20240307");
    ("gpt-4o", "gpt-4o");
    ("gpt-4o-mini", "gpt-4o-mini");
    ("gpt-4-turbo", "gpt-4-turbo");
    ("claude-3-5-sonnet-bedrock", "bedrock/us.anthropic.claude-3-5-sonnet-20241022-v2:0");
    ("claude-3-haiku-bedrock", "bedrock/anthropic.claude-3-haiku-20240307-v1:0");
    ("cohere-command-r-plus", "cohere/command-r-plus");
    ("gemini-1-5-pro", "gemini/gemini-1.5-pro")];
  MODEL_NAMES := [
    ("claude-3-5-sonnet", "Claude 3.5 Sonnet (Direct)");
    ("claude-3-haiku", "Claude 3 Haiku (Direct)");
    ("gpt-4o", "GPT-4o");
    ("gpt-4o-mini", "GPT-4o Mini");
    ("gpt-4-turbo", "GPT-4 Turbo");
    ("claude-3-5-sonnet-bedrock", "Claude 3.5 Sonnet (Bedrock)");
    ("claude-3-haiku-bedrock", "Claude 3 Haiku (Bedrock)");
    ("cohere-command-r-plus", "Cohere Command R+");
    ("gemini-1-5-pro", "Gemini 1.5 Pro")]
|}.

(** [f"Unknown model: {model_key}. Available: {list(AVAILABLE_MODELS.keys())}"] *)
Definition unknown_model_msg (m : models_module) (model_key : string) : string :=
  "Unknown model: " +:+ model_key +:+ ". Available: "
    +:+ py_repr_list (dict_keys (AVAILABLE_MODELS m)).

(** [get_model_id]: the membership test, then the subscript. *)
Definition get_model_id (m : models_module) (model_key : string) : py_exc + string :=
  if dict_contains model_key (AVAILABLE_MODELS m) then
    dict_getitem model_key (AVAILABLE_MODELS m)
  else inl (PyExc ValueError (unknown_model_msg m model_key)).

(** [get_model_name]: [MODEL_NAMES.get(model_key, model_key)] *)
Definition get_model_name (m : models_module) (model_key : string) : string :=
  dict_get model_key model_key (MODEL_NAMES m).

(** [list_available_models]: the lines it prints. *)
Definition list_available_models (m : models_module) : list string :=
  "Available Models:" ::
    map (fun '(key, _) => "  " +:+ key +:+ ": " +:+ get_model_name m key)
        (AVAILABLE_MODELS m).

(** A model key is registered when [AVAILABLE_MODELS] has it. *)
Definition registered (m : models_module) (model_key : string) : Prop :=
  model_key ∈ dict_keys (AVAILABLE_MODELS m).

#[export] Instance registered_dec m k : Decision (registered m k).
Proof. unfold registered. apply _. Defined.

(** Two registries with equal dicts ([==] in Python, insertion order
    ignored). *)
Definition models_equiv (m1 m2 : models_module) : Prop :=
  dict_equiv (AVAILABLE_MODELS m1) (AVAILABLE_MODELS m2) /\
  dict_equiv (MODEL_NAMES m1) (MODEL_NAMES m2).

(** ** Lemmas *)

Lemma get_model_id_lookup m k id :
  dict_lookup k (AVAILABLE_MODELS m) = Some id -> get_model_id m k = inr id.
Proof.
  intros H. unfold get_model_id.
  assert (Hc : dict_contains k (AVAILABLE_MODELS m) = true).
  { apply dict_contains_spec. by eapply dict_lookup_Some_keys. }
  rewrite Hc. by apply dict_getitem_Some.
Qed.

Lemma get_model_id_unregistered m k :
  ~ registered m k -> get_model_id m k = inl (PyExc ValueError (unknown_model_msg m k)).
Proof.
  intros H. unfold get_model_id.
  destruct (dict_contains k (AVAILABLE_MODELS m)) eqn:Hc; [|done].
  apply dict_contains_spec in Hc. contradiction.
Qed.

Lemma get_model_id_None m k :
  dict_lookup k (AVAILABLE_MODELS m) = None ->
  get_model_id m k = inl (PyExc ValueError (unknown_model_msg m k)).
Proof. intros H. unfold get_model_id. rewrite dict_contains_getitem. by rewrite H. Qed.

Lemma registered_lookup m k : registered m k -> exists id, dict_lookup k (AVAILABLE_MODELS m) = Some id.
Proof.
  unfold registered. intros Hk. destruct (dict_lookup k _) as [id|] eqn:E; [by exists id|].
  by apply dict_lookup_None in E.
Qed.

#[export] Instance models_equiv_equivalence : Equivalence models_equiv.
Proof.
  split; unfold models_equiv.
  - done.
  - intros ?? [??]; by split.
  - intros ??? [H1 H2] [H3 H4]; split; etransitivity; eauto.
Qed.

#[export] Instance registered_proper : Proper (models_equiv ==> eq ==> iff) registered.
Proof.
  intros m1 m2 [Ha _] k ? <-. unfold registered.
  rewrite <- !dict_contains_spec. by rewrite Ha.
Qed.

#[export] Instance get_model_name_proper : Proper (models_equiv ==> eq ==> eq) get_model_name.
Proof. intros m1 m2 [_ Hn] k ? <-. unfold get_model_name. by rewrite Hn. Qed.

(** On a registered key, [get_model_id] reads the registry by key only;
    on an unknown key its message lists the keys in order, so the
    equivalence does not extend to the error. *)
Lemma get_model_id_equiv m1 m2 k :
  models_equiv m1 m2 -> registered m1 k -> get_model_id m1 k = get_model_id m2 k.
Proof.
  intros [Ha _] Hk. destruct (registered_lookup _ _ Hk) as [id Hid].
  rewrite !(get_model_id_lookup _ _ id); [done| |done]. by rewrite <- Ha.
Qed.

(** ** Properties *)

(** [get_model_name] never fails: it is the display name registered
    in [MODEL_NAMES] when there is one, and the key itself otherwise. *)
Theorem get_model_name_spec m k :
  (forall name, dict_lookup k (MODEL_NAMES m) = Some name -> get_model_name m k = name) /\
  (k ∉ dict_keys (MODEL_NAMES m) -> get_model_name m k = k).
Proof.
  unfold get_model_name, dict_get. split.
  - by intros name ->.
  - intros Hk. apply dict_lookup_None in Hk. by rewrite Hk.
Qed.

(** Witness of [get_model_name_spec]: a registered display name and a
    key without one. *)
Lemma get_model_name_spec_witness :
  dict_lookup "gpt-4o" (MODEL_NAMES available_models) = Some "GPT-4o" /\
  get_model_name available_models "gpt-4o" = "GPT-4o" /\
  "gpt-5" ∉ dict_keys (MODEL_NAMES available_models) /\
  get_model_name available_models "gpt-5" = "gpt-5".
Proof.
  assert (H1 : dict_lookup "gpt-4o" (MODEL_NAMES available_models) = Some "GPT-4o")
    by reflexivity.
  assert (H2 : "gpt-5" ∉ dict_keys (MODEL_NAMES available_models)) by by_decide.
  split; [exact H1 | split; [| split; [exact H2 |]]].
  - exact (proj1 (get_model_name_spec available_models "gpt-4o") "GPT-4o" H1).
  - exact (proj2 (get_model_name_spec available_models "gpt-5") H2).
Defined.

(** the source configuration is well formed: neither dict repeats a
    key, and [MODEL_NAMES] names exactly the keys of [AVAILABLE_MODELS],
    in the same order, so every registered model has a display name. *)
Theorem available_models_wf :
  dict_wf (AVAILABLE_MODELS available_models) /\
  dict_wf (MODEL_NAMES available_models) /\
  dict_keys (MODEL_NAMES available_models) = dict_keys (AVAILABLE_MODELS available_models).
Proof. unfold dict_wf. split; [|split]; [by_decide | by_decide | reflexivity]. Qed.

End AvailableModels.
