(* ===== verification/EventPayload.v ===== *)
(** * The request payload ([src/event_payload.py])

    [EventPayload] is a dataclass with five fields and two defaults
    ([max_tokens = 4000], [temperature = 0.7]).  A dataclass checks no
    types and no ranges: [cls( **data)] stores whatever values [data]
    holds.  The file therefore has two levels:
    - [EventPayload], the typed record the type hints describe and the
      handler consumes;
    - [payload_obj], the object [cls( **data)] really builds, whose fields
      are arbitrary Python values ([pyval]); [typed_view] reads it back as
      an [EventPayload] when every field has its annotated type.
    The strategy catalogue [EXAMPLE_PAYLOADS] and [get_example_payload]
    are modelled on the typed level, as the source builds them. *)

From Stdlib Require Import SpecFloat ZArith.
From S2P Require Import Prelude PyDict AvailableModels.
Import AvailableModels.

#[export] Instance spec_float_eq_dec : EqDecision spec_float.
Proof. solve_decision. Defined.

Module EventPayload.

(** ** Python values that cross the dict boundary *)

Inductive pyval :=
  | PyNone
  | PyBool (b : bool)
  | PyStr (s : string)
  | PyInt (z : Z)
  | PyFloat (f : spec_float)
  | PyList (l : list pyval)
  | PyDict (d : list (string * pyval)).

(** The binary64 value of the literal [0.7]. *)
Definition float_0_7 : spec_float := S754_finite false 6305039478318694 (-53).

(** ** The typed payload *)

Record EventPayload := MkEventPayload {
  prompt : string;
  models : list string;
  max_tokens : Z;
  temperature : spec_float;
  request_id : option string
}.

(** [EventPayload(prompt=..., models=...)] with the field defaults. *)
Definition mk_payload (p : string) (ms : list string) : EventPayload :=
  MkEventPayload p ms 4000 float_0_7 None.

(** [primary_model]: [self.models[0]], which raises [IndexError] on an
    empty list. *)
Definition primary_model (p : EventPayload) : py_exc + string :=
  match models p with
  | m :: _ => inr m
  | [] => inl (PyExc IndexError "list index out of range")
  end.

(** [fallback_models]: [self.models[1:] if len(self.models) > 1 else []] *)
Definition fallback_models (p : EventPayload) : list string :=
  if decide (1 < length (models p)) then drop 1 (models p) else [].

(** ** The dataclass object and the dict conversion *)

(** The object [cls( **data)] builds: the fields hold any Python value. *)
Record payload_obj := MkPayloadObj {
  obj_prompt : pyval;
  obj_models : pyval;
  obj_max_tokens : pyval;
  obj_temperature : pyval;
  obj_request_id : pyval
}.

Definition pyval_of_opt_str (o : option string) : pyval :=
  match o with Some s => PyStr s | None => PyNone end.

(** The object a typed payload is. *)
Definition obj_of (p : EventPayload) : payload_obj :=
  MkPayloadObj (PyStr (prompt p)) (PyList (map PyStr (models p)))
    (PyInt (max_tokens p)) (PyFloat (temperature p))
    (pyval_of_opt_str (request_id p)).

(** [to_dict] *)
Definition to_dict (p : EventPayload) : dict pyval :=
  [("prompt", PyStr (prompt p));
   ("models", PyList (map PyStr (models p)));
   ("max_tokens", PyInt (max_tokens p));
   ("temperature", PyFloat (temperature p));
   ("request_id", pyval_of_opt_str (request_id p))].

Definition init_params : list string :=
  ["prompt"; "models"; "max_tokens"; "temperature"; "request_id"].

Definition init_error (msg : string) : py_exc :=
  PyExc TypeError ("EventPayload.__init__() " +:+ msg).

(** A name as CPython's argument-binding errors quote it: between
    single quotes, unescaped. *)
Definition quoted (k : string) : string := "'" +:+ k +:+ "'".

(** The keyword-argument binding of [cls( **data)]: the keywords are
    bound in order and the first one that is not a parameter fails:
    ['self'], already bound to the new object, as a repeated argument,
    any other as unknown; then missing required arguments are reported
    together. *)
Definition from_dict (data : dict pyval) : py_exc + payload_obj :=
  match list_find (fun k => k ∉ init_params) (dict_keys data) with
  | Some (_, k) =>
      inl (init_error (if decide (k = "self") then "got multiple values for argument 'self'"
                       else "got an unexpected keyword argument " +:+ quoted k))
  | None =>
      match dict_lookup "prompt" data, dict_lookup "models" data with
      | Some p, Some ms =>
          inr (MkPayloadObj p ms
                 (dict_get "max_tokens" (PyInt 4000) data)
                 (dict_get "temperature" (PyFloat float_0_7) data)
                 (dict_get "request_id" PyNone data))
      | None, Some _ =>
          inl (init_error "missing 1 required positional argument: 'prompt'")
      | Some _, None =>
          inl (init_error "missing 1 required positional argument: 'models'")
      | None, None =>
          inl (init_error "missing 2 required positional arguments: 'prompt' and 'models'")
      end
  end.

Definition str_of_pyval (v : pyval) : option string :=
  match v with PyStr s => Some s | _ => None end.

Definition opt_str_of_pyval (v : pyval) : option (option string) :=
  match v with PyStr s => Some (Some s) | PyNone => Some None | _ => None end.

Fixpoint strs_of_pyvals (l : list pyval) : option (list string) :=
  match l with
  | [] => Some []
  | PyStr s :: l' => cons s <$> strs_of_pyvals l'
  | _ :: _ => None
  end.

(** The typed reading of an object, when every field has the type its
    annotation names. *)
Definition typed_view (o : payload_obj) : option EventPayload :=
  match obj_prompt o, obj_models o, obj_max_tokens o, obj_temperature o,
        opt_str_of_pyval (obj_request_id o) with
  | PyStr p, PyList ms, PyInt n, PyFloat t, Some rid =>
      (fun ms' => MkEventPayload p ms' n t rid) <$> strs_of_pyvals ms
  | _, _, _, _, _ => None
  end.

(** ** The strategy catalogue *)

Definition EXAMPLE_PAYLOADS : dict EventPayload := [
  ("1p_to_3p", mk_payload "What is cloud computing"
     ["claude-3-haiku-bedrock"; "claude-3-5-sonnet"]);
  ("quality_first", mk_payload "Your prompt here"
     ["claude-3-5-sonnet"; "gpt-4o"; "claude-3-5-sonnet-bedrock"; "gpt-4o-mini"]);
  ("speed_first", mk_payload "Your prompt here"
     ["claude-3-haiku"; "gpt-4o-mini"; "claude-3-haiku-bedrock"; "claude-3-5-sonnet"]);
  ("cost_first", mk_payload "Your prompt here"
     ["gpt-4o-mini"; "claude-3-haiku"; "claude-3-haiku-bedrock"; "gpt-4o"]);
  ("anthropic_only", mk_payload "Your prompt here"
     ["claude-3-5-sonnet"; "claude-3-haiku"; "claude-3-5-sonnet-bedrock";
      "claude-3-haiku-bedrock"]);
  ("openai_only", mk_payload "Your prompt here"
     ["gpt-4o"; "gpt-4o-mini"; "gpt-4-turbo"])
].

(** [create_payload(prompt, models, **kwargs )]: a keyword of [kwargs]
    naming one of its own parameters is a [TypeError] of the call to
    [create_payload], before its body runs. *)
Definition create_payload (p : string) (ms : list string) (kwargs : dict pyval)
  : py_exc + payload_obj :=
  match list_find (fun k => k = "prompt" \/ k = "models") (dict_keys kwargs) with
  | Some (_, k) =>
      inl (PyExc TypeError ("create_payload() got multiple values for argument " +:+ quoted k))
  | None => from_dict (("prompt", PyStr p) :: ("models", PyList (map PyStr ms)) :: kwargs)
  end.

(** [get_example_payload]: a fresh payload with the strategy's models,
    max_tokens and temperature and the caller's prompt. *)
Definition get_example_payload (strategy p : string) : py_exc + EventPayload :=
  if dict_contains strategy EXAMPLE_PAYLOADS then
    match dict_getitem strategy EXAMPLE_PAYLOADS with
    | inr ex => inr (MkEventPayload p (models ex) (max_tokens ex) (temperature ex) None)
    | inl e => inl e
    end
  else inl (PyExc ValueError ("Unknown strategy: " +:+ strategy +:+ ". Available: "
                                +:+ py_repr_list (dict_keys EXAMPLE_PAYLOADS))).

(** ** Lemmas *)

Lemma strs_of_pyvals_map (ms : list string) : strs_of_pyvals (map PyStr ms) = Some ms.
Proof. induction ms as [|m ms IH]; simpl; [done | by rewrite IH]. Qed.

Lemma opt_str_of_pyval_of (o : option string) :
  opt_str_of_pyval (pyval_of_opt_str o) = Some o.
Proof. by destruct o. Qed.

Lemma typed_view_obj_of p : typed_view (obj_of p) = Some p.
Proof.
  destruct p as [pr ms n t rid]. unfold typed_view, obj_of; simpl.
  rewrite opt_str_of_pyval_of, strs_of_pyvals_map. done.
Qed.

(** The catalogue, checked entry by entry. *)
Lemma example_payloads_all_registered :
  Forall (fun e => models e.2 <> [] /\
            Forall (AvailableModels.registered AvailableModels.available_models) (models e.2))
         EXAMPLE_PAYLOADS.
Proof. by_decide. Qed.

(** A payload of [get_example_payload] has its strategy's models. *)
Lemma get_example_payload_models strategy pr p :
  get_example_payload strategy pr = inr p ->
  exists ex, dict_lookup strategy EXAMPLE_PAYLOADS = Some ex /\ models p = models ex.
Proof.
  unfold get_example_payload, dict_contains, dict_getitem.
  destruct (dict_lookup strategy EXAMPLE_PAYLOADS) as [ex|]; intros [= <-]. by exists ex.
Qed.

(** ** Properties *)

(** C38: [primary_model] is [models[0]] and [fallback_models] is
    [models[1:]]: on a non-empty list they split it into its head and
    its tail (an empty tail for a single model); on an empty list
    [primary_model] raises [IndexError] and [fallback_models] is empty. *)
Theorem primary_fallback_split p :
  fallback_models p = drop 1 (models p) /\
  match models p with
  | [] => primary_model p = inl (PyExc IndexError "list index out of range")
  | m :: rest => primary_model p = inr m /\ fallback_models p = rest
  end.
Proof.
  unfold fallback_models, primary_model.
  destruct (models p) as [|m [|m2 rest]]; simpl; repeat case_decide; simpl;
    try lia; auto.
Qed.

(** round trip: [from_dict(p.to_dict())] succeeds and builds the
    object of [p], whose typed reading is [p] again, for every payload
    (every prompt, model list, token budget, temperature and request
    id). *)
Theorem to_dict_from_dict p :
  from_dict (to_dict p) = inr (obj_of p) /\ typed_view (obj_of p) = Some p.
Proof. split; [reflexivity | apply typed_view_obj_of]. Qed.

(** C30: every strategy of [EXAMPLE_PAYLOADS] names a non-empty list of
    models, each registered in the source's [AVAILABLE_MODELS], so
    [get_model_id] succeeds on all of them. *)
Theorem example_payloads_registered s ex :
  dict_lookup s EXAMPLE_PAYLOADS = Some ex ->
  models ex <> [] /\ Forall (AvailableModels.registered AvailableModels.available_models) (models ex).
Proof.
  intros H%dict_lookup_In. pose proof example_payloads_all_registered as Hall.
  rewrite Forall_forall in Hall. apply (Hall (s, ex)). by apply list_elem_of_In.
Qed.

(** Witness of [example_payloads_registered] on ["quality_first"]. *)
Lemma example_payloads_registered_witness :
  dict_lookup "quality_first" EXAMPLE_PAYLOADS =
    Some (mk_payload "Your prompt here"
            ["claude-3-5-sonnet"; "gpt-4o"; "claude-3-5-sonnet-bedrock"; "gpt-4o-mini"]) /\
  models (mk_payload "Your prompt here"
            ["claude-3-5-sonnet"; "gpt-4o"; "claude-3-5-sonnet-bedrock"; "gpt-4o-mini"]) <> [] /\
  Forall (registered available_models)
    (models (mk_payload "Your prompt here"
               ["claude-3-5-sonnet"; "gpt-4o"; "claude-3-5-sonnet-bedrock"; "gpt-4o-mini"])).
Proof.
  assert (H : dict_lookup "quality_first" EXAMPLE_PAYLOADS =
    Some (mk_payload "Your prompt here"
            ["claude-3-5-sonnet"; "gpt-4o"; "claude-3-5-sonnet-bedrock"; "gpt-4o-mini"]))
    by reflexivity.
  split; [exact H | exact (example_payloads_registered "quality_first" _ H)].
Defined.

(** [get_example_payload] returns a payload with the caller's prompt,
    the strategy's models, token budget and temperature and no request
    id, and raises [ValueError] listing the strategies when the strategy
    is unknown. *)
Lemma get_example_payload_spec strategy pr :
  get_example_payload strategy pr =
    match dict_lookup strategy EXAMPLE_PAYLOADS with
    | Some ex => inr (MkEventPayload pr (models ex) (max_tokens ex) (temperature ex) None)
    | None => inl (PyExc ValueError ("Unknown strategy: " +:+ strategy +:+ ". Available: "
                                       +:+ py_repr_list (dict_keys EXAMPLE_PAYLOADS)))
    end.
Proof.
  unfold get_example_payload, dict_contains, dict_getitem.
  by destruct (dict_lookup strategy EXAMPLE_PAYLOADS).
Qed.

(** C27: the keyword binding of [from_dict]: it raises nothing but
    [TypeError], and it succeeds exactly when every key of [data] is a
    parameter of [EventPayload.__init__] and both required parameters,
    [prompt] and [models], are given. *)
Theorem from_dict_spec data :
  (forall e, from_dict data = inl e -> exc_type e = TypeError) /\
  ((exists o, from_dict data = inr o) <->
     Forall (fun k => k ∈ init_params) (dict_keys data) /\
     "prompt" ∈ dict_keys data /\ "models" ∈ dict_keys data).
Proof.
  unfold from_dict. destruct (list_find _ (dict_keys data)) as [[i k]|] eqn:F.
  - apply list_find_Some in F as (Hi & Hk & _).
    split; [by intros e [= <-]|]. split; [by intros [o ?]|].
    intros [Hall _]. exfalso. rewrite Forall_lookup in Hall. by apply Hk, (Hall i).
  - apply list_find_None in F.
    assert (Hall : Forall (fun k => k ∈ init_params) (dict_keys data)).
    { eapply Forall_impl; [exact F|]. intros k Hk. by apply dec_stable. }
    destruct (dict_lookup "prompt" data) eqn:Hp, (dict_lookup "models" data) eqn:Hm;
      (split; [by intros e [= <-]|]); try rewrite dict_lookup_None in Hp; try rewrite dict_lookup_None in Hm.
    all: split; [intros [o Ho]; try done | intros (_ & Hp' & Hm'); try done].
    all: eauto using dict_lookup_Some_keys.
Qed.

(** C28: [create_payload(prompt, models, **kwargs)] raises [TypeError]
    when [kwargs] names [prompt] or [models] again, and without keyword
    arguments it builds the payload with the dataclass defaults
    ([max_tokens=4000], [temperature=0.7], [request_id=None]). *)
Theorem create_payload_spec pr ms kwargs :
  (("prompt" ∈ dict_keys kwargs \/ "models" ∈ dict_keys kwargs) ->
     exists msg, create_payload pr ms kwargs = inl (PyExc TypeError msg)) /\
  create_payload pr ms [] = inr (obj_of (mk_payload pr ms)).
Proof.
  split; [|reflexivity]. unfold create_payload. intros Hk.
  destruct (list_find _ (dict_keys kwargs)) as [[i k]|] eqn:F; [by eexists|].
  apply list_find_None in F. rewrite Forall_forall in F.
  destruct Hk as [Hk|Hk]; exfalso; apply (F _ Hk); auto.
Qed.

(** Witness of [from_dict_spec]: an unknown keyword raises
    [TypeError]; a complete dict is accepted. *)
Lemma from_dict_spec_witness :
  (forall e, from_dict [("prompt", PyStr "X"); ("model", PyList [])] = inl e ->
             exc_type e = TypeError) /\
  Forall (fun k => k ∈ init_params) (dict_keys [("prompt", PyStr "X"); ("models", PyList [])]) /\
  exists o, from_dict [("prompt", PyStr "X"); ("models", PyList [])] = inr o.
Proof.
  assert (H : Forall (fun k => k ∈ init_params)
                (dict_keys [("prompt", PyStr "X"); ("models", PyList [])])) by by_decide.
  split; [exact (proj1 (from_dict_spec _)) | split; [exact H |]].
  apply (proj2 (from_dict_spec _)). split; [exact H | split; by_decide].
Defined.

(** Witness of [create_payload_spec]: [create_payload("X", [], models=[])]. *)
Lemma create_payload_spec_witness :
  ("prompt" ∈ dict_keys [("models", PyList [])] \/ "models" ∈ dict_keys [("models", PyList [])]) /\
  exists msg, create_payload "X" [] [("models", PyList [])] = inl (PyExc TypeError msg).
Proof.
  assert (H : "prompt" ∈ dict_keys [("models", PyList [])] \/
              "models" ∈ dict_keys [("models", PyList [])]) by (right; by_decide).
  split; [exact H | exact (proj1 (create_payload_spec "X" [] _) H)].
Defined.

End EventPayload.
