(* ===== verification/JsonText.v ===== *)
(** * JSON text of a payload ([to_json], [from_json] in [src/event_payload.py])

    [to_json] is [json.dumps(self.to_dict(), indent=2)] and [from_json]
    is [cls.from_dict(json.loads(json_str))].  This file models the two
    halves of CPython 3.11's [json] package that these calls reach:
    - the encoder [_make_iterencode] of [json/encoder.py] with
      [indent=2], the separators [","] and [": "], [ensure_ascii]
      escaping ([encode_basestring_ascii]), [allow_nan], and
      [int.__repr__] with its 4300-digit limit;
    - the C scanner of [Modules/_json.c] ([scan_once_unicode],
      [scanstring_unicode], [_parse_array_unicode],
      [_parse_object_unicode], [_match_number_unicode]) under
      [JSONDecoder.decode], with its error messages and positions.
    The decoder is a [Fixpoint] on fuel; [decode_fuel] is enough for
    every document (theorem [json_decode_fuel_enough]).

    Strings are 8-bit and read as Latin-1, as everywhere in the
    development; a [\uXXXX] escape above U+00FF names a character the
    model cannot hold, and the decoder stops with [JWide] there.
    [repr(float)] and [float(str)] are CPython's correctly rounded
    conversions, which this file takes as parameters: the round trip
    is proved for a temperature whose [repr] is a JSON number literal
    that [float] reads back, which CPython guarantees for every finite
    float. *)

From Stdlib Require Import SpecFloat ZArith Ascii.
From S2P Require Import Prelude PyDict EventPayload.
Import EventPayload.

Module JsonText.

Definition bslash : ascii := "\"%char.
Definition char_code (c : ascii) : nat := nat_of_ascii c.

(** ** The encoder *)

(** [f] on every element in order, the first exception ending the loop
    (a generator joined by [''.join]). *)
Fixpoint sum_map {E A B} (f : A -> E + B) (l : list A) : E + list B :=
  match l with
  | [] => inr []
  | x :: l' =>
      match f x with
      | inl e => inl e
      | inr y => match sum_map f l' with inl e => inl e | inr ys => inr (y :: ys) end
      end
  end.

(** [ESCAPE_ASCII] of [json/encoder.py] and [ascii_escape_unichar] of
    [_json.c]: the printable ASCII characters but ["] and [\] stand for
    themselves; ["], [\], backspace, form feed, [\n], [\r] and [\t] get
    their two-character escapes; every other character [\u00hh]. *)
Definition escape_char (c : ascii) : string :=
  let n := char_code c in
  if decide (n = 34 \/ n = 92) then String bslash (String c EmptyString)
  else if decide (n = 8) then "\b"
  else if decide (n = 12) then "\f"
  else if decide (n = 10) then "\n"
  else if decide (n = 13) then "\r"
  else if decide (n = 9) then "\t"
  else if decide (32 <= n <= 126) then String c EmptyString
  else "\u00" +:+ String (hex_digit (n / 16)) (String (hex_digit (n mod 16)) EmptyString).

Fixpoint escape_chars (s : string) : string :=
  match s with
  | EmptyString => EmptyString
  | String c s' => escape_char c +:+ escape_chars s'
  end.

(** [encode_basestring_ascii(s)] *)
Definition encode_basestring_ascii (s : string) : string :=
  String dquote (escape_chars s +:+ String dquote EmptyString).

(** [int.__repr__], which refuses more than [sys.get_int_max_str_digits()]
    (4300) digits. *)
Definition int_repr (z : Z) : py_exc + string :=
  if decide (int_max_str_digits < String.length (str_of_N (Z.to_N (Z.abs z)))) then
    inl (PyExc ValueError "Exceeds the limit (4300 digits) for integer string conversion; use sys.set_int_max_str_digits() to increase the limit")
  else inr (str_of_Z z).

(** The newline and indentation before an item at depth [lvl]:
    ['\n' + ' ' * (2 * lvl)]. *)
Fixpoint spaces (n : nat) : string :=
  match n with O => EmptyString | S k => String " " (spaces k) end.

Definition newline_indent (lvl : nat) : string := newline +:+ spaces (2 * lvl).

(** [''.join] of items with the item separator [',' + newline_indent]
    between them, inside the brackets. *)
Definition enclose (op cl : string) (lvl : nat) (items : list string) : string :=
  op +:+ newline_indent (S lvl) +:+ String.concat ("," +:+ newline_indent (S lvl)) items
     +:+ newline_indent lvl +:+ cl.

Section Encoder.
(** [float.__repr__] of a finite float or a zero. *)
Variable float_repr : spec_float -> string.

(** [_floatstr] with [allow_nan=True] *)
Definition floatstr (f : spec_float) : string :=
  match f with
  | S754_nan => "NaN"
  | S754_infinity false => "Infinity"
  | S754_infinity true => "-Infinity"
  | _ => float_repr f
  end.

(** [_iterencode] at depth [lvl], joined: [None], [True], [False], a
    string, an int, a float, and lists and dicts item by item, the
    first exception raised ending the encoding. *)
Fixpoint iterencode (lvl : nat) (v : pyval) : py_exc + string :=
  match v with
  | PyNone => inr "null"
  | PyBool true => inr "true"
  | PyBool false => inr "false"
  | PyStr s => inr (encode_basestring_ascii s)
  | PyInt z => int_repr z
  | PyFloat f => inr (floatstr f)
  | PyList [] => inr "[]"
  | PyList l =>
      match sum_map (iterencode (S lvl)) l with
      | inl e => inl e
      | inr items => inr (enclose "[" "]" lvl items)
      end
  | PyDict [] => inr "{}"
  | PyDict d =>
      match sum_map (fun '(k, x) =>
                       match iterencode (S lvl) x with
                       | inl e => inl e
                       | inr s => inr (encode_basestring_ascii k +:+ ": " +:+ s)
                       end) d with
      | inl e => inl e
      | inr items => inr (enclose "{" "}" lvl items)
      end
  end.

(** [json.dumps(obj, indent=2)] *)
Definition dumps (v : pyval) : py_exc + string := iterencode 0 v.

(** [to_json] *)
Definition to_json (p : EventPayload) : py_exc + string := dumps (PyDict (to_dict p)).
End Encoder.

(** ** The decoder *)

(** The outcome of a scanner step: a value and the rest of the
    document; a [JSONDecodeError] with its message, at the position of
    the suffix [here]; another exception ([int] of too many digits); a
    [\uXXXX] escape above U+00FF ([JWide]); no fuel left ([JFuel]). *)
Inductive jres (A : Type) :=
  | JOk (a : A) (rest : string)
  | JErr (msg : string) (here : string)
  | JExc (e : py_exc)
  | JWide
  | JFuel.
Arguments JOk {A}. Arguments JErr {A}. Arguments JExc {A}.
Arguments JWide {A}. Arguments JFuel {A}.

Definition jbind {A B} (r : jres A) (k : A -> string -> jres B) : jres B :=
  match r with
  | JOk a rest => k a rest
  | JErr msg here => JErr msg here
  | JExc e => JExc e
  | JWide => JWide
  | JFuel => JFuel
  end.

Definition jmap {A B} (f : A -> B) (r : jres A) : jres B :=
  jbind r (fun a rest => JOk (f a) rest).

(** [IS_WHITESPACE]: space, tab, newline, carriage return. *)
Definition is_ws (c : ascii) : bool :=
  bool_decide (char_code c = 32 \/ char_code c = 9 \/ char_code c = 10 \/ char_code c = 13).

Fixpoint skip_ws (s : string) : string :=
  match s with
  | String c s' => if is_ws c then skip_ws s' else s
  | EmptyString => EmptyString
  end.


(** The value of a hexadecimal digit, either case. *)
Definition hex_val (c : ascii) : option nat :=
  let n := char_code c in
  if decide (48 <= n <= 57) then Some (n - 48)
  else if decide (97 <= n <= 102) then Some (n - 87)
  else if decide (65 <= n <= 70) then Some (n - 55)
  else None.

Definition hex4 (a b c d : ascii) : option nat :=
  match hex_val a, hex_val b, hex_val c, hex_val d with
  | Some x, Some y, Some z, Some w => Some (((x * 16 + y) * 16 + z) * 16 + w)
  | _, _, _, _ => None
  end.

(** The character of a two-character escape [\e] other than [\u]. *)
Definition simple_escape (e : ascii) : option ascii :=
  match char_code e with
  | 34 => Some dquote
  | 92 => Some bslash
  | 47 => Some "/"%char
  | 98 => Some (ascii_of_nat 8)
  | 102 => Some (ascii_of_nat 12)
  | 110 => Some (ascii_of_nat 10)
  | 114 => Some (ascii_of_nat 13)
  | 116 => Some (ascii_of_nat 9)
  | _ => None
  end.

Definition jcons (c : ascii) (r : jres string) : jres string :=
  jmap (String c) r.

(** [scanstring_unicode] with [strict=True], after the opening quote;
    [begin] is the document from that quote on. *)
Fixpoint scan_str (begin s : string) : jres string :=
  match s with
  | EmptyString => JErr "Unterminated string starting at" begin
  | String c r =>
      if decide (c = dquote) then JOk EmptyString r
      else if decide (c = bslash) then
        match r with
        | EmptyString => JErr "Unterminated string starting at" begin
        | String e r' =>
            if decide (char_code e = 117) then
              match r' with
              | String h1 (String h2 (String h3 (String h4 r''))) =>
                  match r'' with
                  | EmptyString => JErr "Invalid \uXXXX escape" r
                  | String _ _ =>
                      match hex4 h1 h2 h3 h4 with
                      | None => JErr "Invalid \uXXXX escape" r
                      | Some n =>
                          if decide (n <= 255) then jcons (ascii_of_nat n) (scan_str begin r'')
                          else JWide
                      end
                  end
              | _ => JErr "Invalid \uXXXX escape" r
              end
            else
              match simple_escape e with
              | Some c' => jcons c' (scan_str begin r')
              | None => JErr "Invalid \escape" s
              end
        end
      else if decide (char_code c <= 31) then JErr "Invalid control character at" s
      else jcons c (scan_str begin r)
  end.

(** [s] without the prefix [p], when it has it. *)
Fixpoint strip_prefix (p s : string) : option string :=
  match p, s with
  | EmptyString, _ => Some s
  | String a p', String b s' => if decide (a = b) then strip_prefix p' s' else None
  | String _ _, EmptyString => None
  end.

(** The digits at the head of [s] and what follows them. *)
Fixpoint span_digits (s : string) : string * string :=
  match s with
  | String c r =>
      if is_digit c then let '(ds, r') := span_digits r in (String c ds, r') else (EmptyString, s)
  | EmptyString => (EmptyString, EmptyString)
  end.

(** [0 | [1-9][0-9]*] *)
Definition span_int (s : string) : option (string * string) :=
  match s with
  | String c r =>
      if decide (char_code c = 48) then Some (String c EmptyString, r)
      else if is_digit c then let '(ds, r') := span_digits r in Some (String c ds, r')
      else None
  | EmptyString => None
  end.

(** [(\.[0-9]+)?]: a point is read only when a digit follows it. *)
Definition span_frac (s : string) : string * string :=
  match s with
  | String c (String d r) =>
      if bool_decide (char_code c = 46) && is_digit d then
        let '(ds, r') := span_digits r in (String c (String d ds), r')
      else (EmptyString, s)
  | _ => (EmptyString, s)
  end.

(** [([eE][-+]?[0-9]+)?]: the exponent is read only when a digit ends
    it, otherwise the scanner backtracks to the [e]. *)
Definition span_exp (s : string) : string * string :=
  match s with
  | String e r =>
      if decide (char_code e = 101 \/ char_code e = 69) then
        let '(sg, r1) :=
          match r with
          | String c r' => if decide (char_code c = 43 \/ char_code c = 45)
                           then (String c EmptyString, r') else (EmptyString, r)
          | EmptyString => (EmptyString, r)
          end in
        match span_digits r1 with
        | (String d ds, r2) => (String e (sg +:+ String d ds), r2)
        | (EmptyString, _) => (EmptyString, s)
        end
      else (EmptyString, s)
  | EmptyString => (EmptyString, EmptyString)
  end.

(** The number after its sign [sg]: the integer part, the fraction,
    the exponent; its text, whether it is a float (it has a fraction or
    an exponent), and the rest. *)
Definition number_rest (sg s1 : string) : option (string * bool * string) :=
  match span_int s1 with
  | None => None
  | Some (ip, s2) =>
      let '(fp, s3) := span_frac s2 in
      let '(ep, s4) := span_exp s3 in
      Some (sg +:+ ip +:+ fp +:+ ep,
            negb (bool_decide (fp = EmptyString /\ ep = EmptyString)), s4)
  end.

(** The number at the head of [s], an optional minus sign first. *)
Definition number_span (s : string) : option (string * bool * string) :=
  match s with
  | String c r =>
      if decide (char_code c = 45) then number_rest (String c EmptyString) r
      else number_rest EmptyString s
  | EmptyString => number_rest EmptyString s
  end.

Section Decoder.
(** [float(numstr)] on the text of a JSON number. *)
Variable float_of_string : string -> spec_float.

(** [_match_number_unicode]: a float through [float], an integer
    through [int], which refuses more than 4300 digits; no number is
    [StopIteration] at the start. *)
Definition match_number (s : string) : jres pyval :=
  match number_span s with
  | None => JErr "Expecting value" s
  | Some (numstr, true, rest) => JOk (PyFloat (float_of_string numstr)) rest
  | Some (numstr, false, rest) =>
      match py_int numstr with
      | inl e => JExc e
      | inr z => JOk (PyInt z) rest
      end
  end.

(** The named constants [null], [true], [false], [NaN], [Infinity] and
    [-Infinity], then a number. *)
Definition scan_constant (s : string) : jres pyval :=
  match strip_prefix "null" s with Some r => JOk PyNone r | None =>
  match strip_prefix "true" s with Some r => JOk (PyBool true) r | None =>
  match strip_prefix "false" s with Some r => JOk (PyBool false) r | None =>
  match strip_prefix "NaN" s with Some r => JOk (PyFloat S754_nan) r | None =>
  match strip_prefix "Infinity" s with Some r => JOk (PyFloat (S754_infinity false)) r | None =>
  match strip_prefix "-Infinity" s with Some r => JOk (PyFloat (S754_infinity true)) r | None =>
  match_number s end end end end end end.

(** [scan_once_unicode], [_parse_array_unicode] (from its first item)
    and [_parse_object_unicode] (from its first key), each call
    spending one unit of fuel. *)
Fixpoint scan_once (fuel : nat) (s : string) {struct fuel} : jres pyval :=
  match fuel with
  | O => JFuel
  | S f =>
      match s with
      | EmptyString => JErr "Expecting value" s
      | String c r =>
          if decide (c = dquote) then jmap PyStr (scan_str s r)
          else if decide (char_code c = 123) then
            match skip_ws r with
            | String d r' => if decide (char_code d = 125) then JOk (PyDict []) r'
                             else jmap PyDict (object_items f (String d r') [])
            | EmptyString => jmap PyDict (object_items f EmptyString [])
            end
          else if decide (char_code c = 91) then
            match skip_ws r with
            | String d r' => if decide (char_code d = 93) then JOk (PyList []) r'
                             else jmap PyList (array_items f (String d r') [])
            | EmptyString => jmap PyList (array_items f EmptyString [])
            end
          else scan_constant s
      end
  end
with array_items (fuel : nat) (s : string) (acc : list pyval) {struct fuel} : jres (list pyval) :=
  match fuel with
  | O => JFuel
  | S f =>
      jbind (scan_once f s) (fun v r =>
        match skip_ws r with
        | String d r' =>
            if decide (char_code d = 93) then JOk (acc ++ [v]) r'
            else if decide (char_code d = 44) then array_items f (skip_ws r') (acc ++ [v])
            else JErr "Expecting ',' delimiter" (String d r')
        | EmptyString => JErr "Expecting ',' delimiter" EmptyString
        end)
  end
with object_items (fuel : nat) (s : string) (acc : dict pyval) {struct fuel} : jres (dict pyval) :=
  match fuel with
  | O => JFuel
  | S f =>
      match s with
      | String c r =>
          if decide (c = dquote) then
            jbind (scan_str s r) (fun key r1 =>
              match skip_ws r1 with
              | String d r2 =>
                  if decide (char_code d = 58) then
                    jbind (scan_once f (skip_ws r2)) (fun v r3 =>
                      let acc' := dict_setitem key v acc in
                      match skip_ws r3 with
                      | String e r4 =>
                          if decide (char_code e = 125) then JOk acc' r4
                          else if decide (char_code e = 44) then object_items f (skip_ws r4) acc'
                          else JErr "Expecting ',' delimiter" (String e r4)
                      | EmptyString => JErr "Expecting ',' delimiter" EmptyString
                      end)
                  else JErr "Expecting ':' delimiter" (String d r2)
              | EmptyString => JErr "Expecting ':' delimiter" EmptyString
              end)
          else JErr "Expecting property name enclosed in double quotes" s
      | EmptyString => JErr "Expecting property name enclosed in double quotes" s
      end
  end.

(** Enough fuel for a document: two units per character and one. *)
Definition decode_fuel (doc : string) : nat := S (2 * String.length doc).

(** [JSONDecoder.decode]: skip whitespace, scan one value, skip
    whitespace, and refuse anything left ([Extra data]). *)
Definition json_decode (doc : string) : jres pyval :=
  jbind (scan_once (decode_fuel doc) (skip_ws doc)) (fun v r =>
    match skip_ws r with
    | EmptyString => JOk v EmptyString
    | r' => JErr "Extra data" r'
    end).
End Decoder.

(** [str(JSONDecodeError(msg, doc, pos))]:
    [msg: line L column C (char pos)] where [L] counts the newlines
    before [pos] and [C] is the distance from the last of them. *)
Definition json_error (doc msg : string) (here : string) : py_exc :=
  let pos := String.length doc - String.length here in
  let before := String.list_ascii_of_string (String.substring 0 pos doc) in
  let lineno := S (length (filter (fun c => bool_decide (char_code c = 10)) before)) in
  let colno := match list_find (fun c => char_code c = 10) (rev before) with
               | Some (i, _) => S i
               | None => S pos
               end in
  PyExc JSONDecodeError (msg +:+ ": line " +:+ str_of_nat lineno +:+ " column "
                             +:+ str_of_nat colno +:+ " (char " +:+ str_of_nat pos +:+ ")").

(** [json.loads(doc)]: [None] when the document holds a character
    outside Latin-1 (or, which [json_decode_fuel_enough] excludes, the
    fuel ran out). *)
Definition json_loads (float_of_string : string -> spec_float) (doc : string)
  : option (py_exc + pyval) :=
  match json_decode float_of_string doc with
  | JOk v _ => Some (inr v)
  | JErr msg here => Some (inl (json_error doc msg here))
  | JExc e => Some (inl e)
  | JWide | JFuel => None
  end.

(** [type(v).__name__] *)
Definition py_type_name (v : pyval) : string :=
  match v with
  | PyNone => "NoneType" | PyBool _ => "bool" | PyStr _ => "str" | PyInt _ => "int"
  | PyFloat _ => "float" | PyList _ => "list" | PyDict _ => "dict"
  end.

(** [from_json]: [cls( **json.loads(json_str))]; the [**] unpacking of a
    value that is not a mapping raises [TypeError] (the class is named
    by its module, [event_payload], as the handler imports it). *)
Definition from_json (float_of_string : string -> spec_float) (json_str : string)
  : option (py_exc + payload_obj) :=
  match json_loads float_of_string json_str with
  | None => None
  | Some (inl e) => Some (inl e)
  | Some (inr (PyDict d)) => Some (from_dict d)
  | Some (inr v) =>
      Some (inl (PyExc TypeError ("event_payload.EventPayload() argument after ** must be a mapping, not "
                                    +:+ py_type_name v)))
  end.

(** What may follow a number without extending it: nothing, or a
    character that is not a digit, a point or an exponent mark. *)
Definition stops (r : string) : Prop :=
  match r with
  | String c _ => is_digit c = false /\ char_code c <> 46 /\ char_code c <> 101 /\ char_code c <> 69
  | EmptyString => True
  end.

(** ** What the round trip needs *)

Fixpoint all_of {A} (P : A -> Prop) (l : list A) : Prop :=
  match l with [] => True | x :: l' => P x /\ all_of P l' end.

Section Faithful.
Variable float_repr : spec_float -> string.
Variable float_of_string : string -> spec_float.

(** What CPython guarantees of [repr] on a finite float (or a zero): a
    JSON number literal with a fraction or an exponent, which [float]
    reads back as the same float.  The special values are written as
    the names [NaN], [Infinity], [-Infinity]. *)
Definition float_ok (f : spec_float) : Prop :=
  match f with
  | S754_nan | S754_infinity _ => True
  | _ => number_span (float_repr f) = Some (float_repr f, true, EmptyString) /\
         float_of_string (float_repr f) = f
  end.

(** The values whose JSON text reads back as themselves: floats as
    above, and dicts without a repeated key ([loads] keeps the last
    value of a repeated key). *)
Fixpoint json_ok (v : pyval) : Prop :=
  match v with
  | PyFloat f => float_ok f
  | PyList l => all_of json_ok l
  | PyDict d => NoDup (map fst d) /\ all_of (fun '(_, x) => json_ok x) d
  | _ => True
  end.

(** The text [t] is read back as [v] before any continuation that
    cannot extend a number, and it starts with a character that is
    neither whitespace nor a closing bracket. *)
Definition reads_back (t : string) (v : pyval) : Prop :=
  (exists c t', t = String c t' /\ is_ws c = false /\ char_code c <> 93) /\
  forall r, stops r -> exists n, scan_once float_of_string n (t +:+ r) = JOk v r.
End Faithful.

(** The information order on scanner outcomes: running out of fuel is
    below every outcome. *)
Definition jle {A} (x y : jres A) : Prop := x = JFuel \/ x = y.

(** What may follow digits without extending them. *)
Definition stopd (r : string) : Prop :=
  match r with String c _ => is_digit c = false | EmptyString => True end.

(** ** Lemmas: whitespace and strings *)

Lemma skip_ws_app (w s : string) :
  Forall (fun c => is_ws c = true) (String.list_ascii_of_string w) -> skip_ws (w +:+ s) = skip_ws s.
Proof.
  induction w as [|c w IH]; simpl; [done|]. intros [Hc Hw]%Forall_cons. rewrite Hc. auto.
Qed.

Lemma skip_ws_newline_indent (lvl : nat) (s : string) :
  skip_ws (newline_indent lvl +:+ s) = skip_ws s.
Proof.
  unfold newline_indent. rewrite string_app_assoc, (skip_ws_app newline) by by constructor.
  apply skip_ws_app. induction (2 * lvl) as [|k IH]; simpl; [done|].
  by constructor.
Qed.

(** One escaped character is read back as itself. *)
Lemma scan_str_escape_char (b : string) (c x : ascii) (r : string) :
  scan_str b (escape_char c +:+ String x r) = jcons c (scan_str b (String x r)).
Proof. destruct c as [[] [] [] [] [] [] [] []]; reflexivity. Qed.

(** [scanstring] inverts [encode_basestring_ascii]. *)
Lemma scan_str_escape (b s r : string) :
  scan_str b (escape_chars s +:+ String dquote r) = JOk s r.
Proof.
  induction s as [|c s IH]; [reflexivity|]. cbn [escape_chars].
  rewrite string_app_assoc. destruct (escape_chars s +:+ String dquote r) as [|x r'] eqn:E.
  { destruct (escape_chars s); discriminate. }
  by rewrite scan_str_escape_char, IH.
Qed.

(** ** Lemmas: the number scanner reads a maximal literal *)

Lemma stops_stopd r : stops r -> stopd r.
Proof. destruct r; simpl; tauto. Qed.

Lemma span_digits_app s ds y r :
  span_digits s = (ds, y) -> (y = EmptyString -> stopd r) -> span_digits (s +:+ r) = (ds, y +:+ r).
Proof.
  revert ds. induction s as [|c s IH]; intros ds; rewrite ?string_app_nil_l, ?string_app_cons; simpl.
  - intros [= <- <-] H. rewrite string_app_nil_l. destruct r as [|c r]; [done|].
    specialize (H eq_refl). cbn [stopd] in H. simpl. by rewrite H.
  - destruct (is_digit c) eqn:Hc.
    + destruct (span_digits s) as [ds' y'] eqn:Es. intros [= <- <-] H.
      rewrite (IH ds' eq_refl H). by rewrite ?string_app_cons.
    + intros [= <- <-] _. by rewrite ?string_app_cons.
Qed.

Lemma span_exp_app s ep r :
  span_exp s = (ep, EmptyString) -> stops r -> span_exp (s +:+ r) = (ep, r).
Proof.
  destruct s as [|e s'].
  - intros [= <-] Hr. rewrite string_app_nil_l. destruct r as [|c r]; [done|].
    destruct Hr as (_ & _ & H1 & H2). cbn. rewrite decide_False by lia. done.
  - rewrite string_app_cons. cbn [span_exp]. case_decide as He; [|by intros [= _ ?]].
    intros H Hr. destruct s' as [|c s'']; [discriminate H|]. rewrite string_app_cons.
    case_decide as Hs.
    + destruct (span_digits s'') as [[|d ds] r2] eqn:Ed; [discriminate H|].
      injection H as <- ->. rewrite (span_digits_app _ _ _ _ Ed) by (intros _; by apply stops_stopd).
      by rewrite ?string_app_nil_l.
    + destruct (span_digits (String c s'')) as [[|d ds] r2] eqn:Ed; [discriminate H|].
      injection H as <- ->. rewrite <- string_app_cons.
      rewrite (span_digits_app _ _ _ _ Ed) by (intros _; by apply stops_stopd).
      by rewrite ?string_app_nil_l.
Qed.

Lemma span_exp_single c : snd (span_exp (String c EmptyString)) <> EmptyString.
Proof. cbn. case_decide; discriminate. Qed.

Lemma span_frac_app s fp y ep r :
  span_frac s = (fp, y) -> span_exp y = (ep, EmptyString) -> stops r ->
  span_frac (s +:+ r) = (fp, y +:+ r).
Proof.
  destruct s as [|c [|d s'']].
  - intros [= <- <-] _ Hr. rewrite !string_app_nil_l. destruct r as [|c [|d r]]; [done..|].
    destruct Hr as (_ & H46 & _). cbn. by rewrite bool_decide_eq_false_2.
  - intros [= <- <-] He. pose proof (span_exp_single c) as Hs. rewrite He in Hs. done.
  - rewrite !string_app_cons. cbn [span_frac].
    destruct (bool_decide (char_code c = 46) && is_digit d) eqn:Hb.
    + destruct (span_digits s'') as [ds y'] eqn:Es. intros [= <- <-] _ Hr.
      rewrite (span_digits_app _ _ _ _ Es) by (intros _; by apply stops_stopd).
      by rewrite ?string_app_cons.
    + intros [= <- <-] _ _. by rewrite ?string_app_cons.
Qed.

Lemma span_int_app s ip y r :
  span_int s = Some (ip, y) -> (y = EmptyString -> stopd r) -> span_int (s +:+ r) = Some (ip, y +:+ r).
Proof.
  destruct s as [|c s']; [done|]. rewrite string_app_cons. cbn [span_int].
  case_decide as Hz; [by intros [= <- <-]|]. destruct (is_digit c); [|done].
  destruct (span_digits s') as [ds y'] eqn:Es. intros [= <- <-] H.
  by rewrite (span_digits_app _ _ _ _ Es H).
Qed.

Lemma number_rest_app sg s1 n b r :
  number_rest sg s1 = Some (n, b, EmptyString) -> stops r -> number_rest sg (s1 +:+ r) = Some (n, b, r).
Proof.
  unfold number_rest. destruct (span_int s1) as [[ip s2]|] eqn:Ei; [|done].
  destruct (span_frac s2) as [fp s3] eqn:Ef. destruct (span_exp s3) as [ep s4] eqn:Ee.
  intros [= <- <- ->] Hr.
  rewrite (span_int_app _ _ _ _ Ei) by (intros _; by apply stops_stopd).
  by rewrite (span_frac_app _ _ _ _ _ Ef Ee Hr), (span_exp_app _ _ _ Ee Hr).
Qed.

(** A whole number literal followed by a character that cannot extend
    it is read as the same literal. *)
Lemma number_span_app s n b r :
  number_span s = Some (n, b, EmptyString) -> stops r -> number_span (s +:+ r) = Some (n, b, r).
Proof.
  destruct s as [|c s']; [done|]. rewrite string_app_cons. unfold number_span.
  case_decide; [apply number_rest_app|]. rewrite <- string_app_cons. apply number_rest_app.
Qed.

(** ** Lemmas: fuel *)

Lemma jle_refl {A} (x : jres A) : jle x x.
Proof. by right. Qed.

Lemma jle_jbind {A B} (x y : jres A) (k k' : A -> string -> jres B) :
  jle x y -> (forall a r, jle (k a r) (k' a r)) -> jle (jbind x k) (jbind y k').
Proof. intros [->| <-] Hk; [by left|]. destruct x; simpl; auto using jle_refl. Qed.

Lemma jle_jmap {A B} (f : A -> B) (x y : jres A) : jle x y -> jle (jmap f x) (jmap f y).
Proof. intros H. apply jle_jbind; [done | intros; apply jle_refl]. Qed.

Lemma jle_eq {A} (x y : jres A) : jle x y -> x <> JFuel -> y = x.
Proof. by intros [->| ->]. Qed.

Lemma jbind_not_fuel {A B} (x : jres A) (k : A -> string -> jres B) :
  x <> JFuel -> (forall a r, x = JOk a r -> k a r <> JFuel) -> jbind x k <> JFuel.
Proof. destruct x; simpl; auto; congruence. Qed.

#[local] Hint Resolve jle_refl jle_jbind jle_jmap : core.

(** ** Lemmas: every step consumes input *)

Lemma jbind_ok {A B} (x : jres A) (k : A -> string -> jres B) b r :
  jbind x k = JOk b r -> exists a r', x = JOk a r' /\ k a r' = JOk b r.
Proof. destruct x; simpl; try discriminate. eauto. Qed.

Lemma jmap_ok {A B} (f : A -> B) (x : jres A) b r :
  jmap f x = JOk b r -> exists a, x = JOk a r /\ b = f a.
Proof. unfold jmap. intros (a & r' & -> & [= <- <-])%jbind_ok. eauto. Qed.

Ltac jinv :=
  repeat match goal with
  | H : jbind _ _ = JOk _ _ |- _ => apply jbind_ok in H as (? & ? & ? & ?)
  | H : jmap _ _ = JOk _ _ |- _ => apply jmap_ok in H as (? & ? & ?)
  | H : jcons _ _ = JOk _ _ |- _ => apply jmap_ok in H as (? & ? & ?)
  | H : JOk _ _ = JOk _ _ |- _ => injection H as <- <-
  end.

Lemma skip_ws_length s : String.length (skip_ws s) <= String.length s.
Proof. induction s as [|c s IH]; simpl; [lia|]. destruct (is_ws c); simpl; lia. Qed.

Lemma scan_str_consumes b s x r : scan_str b s = JOk x r -> String.length r < String.length s.
Proof.
  remember (String.length s) as n eqn:Hn. revert s x r Hn.
  induction n as [n IH] using lt_wf_ind. intros [|c r0] x r Hn; [done|]. cbn [scan_str].
  cbn [String.length] in Hn.
  assert (Hrec : forall s' y, scan_str b s' = JOk y r -> String.length s' < n -> String.length r < n).
  { intros s' y Hs' Hl. pose proof (IH _ Hl s' y r eq_refl Hs'). lia. }
  intros H. repeat case_decide; try discriminate.
  - injection H as _ <-. lia.
  - destruct r0 as [|e r1]; [done|]. case_decide.
    + destruct r1 as [|h1 [|h2 [|h3 [|h4 r2]]]]; try discriminate.
      destruct r2 as [|x0 r3]; [discriminate|]. destruct (hex4 h1 h2 h3 h4); [|discriminate].
      case_decide; [|discriminate]. jinv. eapply Hrec; [eassumption|]. cbn [String.length] in *. lia.
    + destruct (simple_escape e); [|discriminate]. jinv.
      eapply Hrec; [eassumption|]. cbn [String.length] in *. lia.
  - jinv. eapply Hrec; [eassumption|]. lia.
Qed.

Lemma strip_prefix_length p s r :
  strip_prefix p s = Some r -> String.length r + String.length p = String.length s.
Proof.
  revert s. induction p as [|a p IH]; intros [|b s]; cbn [strip_prefix];
    try discriminate; [intros [= <-]; cbn; lia .. |].
  case_decide; [|discriminate]. intros Hs%IH. cbn [String.length]. lia.
Qed.

Lemma span_digits_length s ds y : span_digits s = (ds, y) -> String.length y <= String.length s.
Proof.
  revert ds y. induction s as [|c s IH]; intros ds y; cbn [span_digits]; [intros [= _ <-]; done|].
  destruct (is_digit c); [|intros [= _ <-]; done].
  destruct (span_digits s) as [ds' y'] eqn:E. intros [= _ <-]. specialize (IH _ _ eq_refl).
  cbn [String.length]. lia.
Qed.

Lemma span_int_length s ip y : span_int s = Some (ip, y) -> String.length y < String.length s.
Proof.
  destruct s as [|c s]; cbn [span_int]; [done|]. cbn [String.length].
  case_decide; [intros [= _ <-]; lia|]. destruct (is_digit c); [|done].
  destruct (span_digits s) as [ds y'] eqn:E. intros [= _ <-]. apply span_digits_length in E. lia.
Qed.

Lemma span_frac_length s fp y : span_frac s = (fp, y) -> String.length y <= String.length s.
Proof.
  destruct s as [|c [|d s]]; cbn [span_frac]; try (intros [= _ <-]; done).
  destruct (_ && _); [|intros [= _ <-]; done].
  destruct (span_digits s) as [ds y'] eqn:E. intros [= _ <-]. apply span_digits_length in E.
  cbn [String.length]. lia.
Qed.

Lemma span_exp_length s ep y : span_exp s = (ep, y) -> String.length y <= String.length s.
Proof.
  destruct s as [|e r]; cbn [span_exp]; [intros [= _ <-]; done|]. case_decide; [|intros [= _ <-]; done].
  assert (Hsg : forall sg r1, (sg, r1) = match r with
                  | String c r' => if decide (char_code c = 43 \/ char_code c = 45)
                                   then (String c EmptyString, r') else (EmptyString, r)
                  | EmptyString => (EmptyString, r) end -> String.length r1 <= String.length r).
  { intros sg r1. destruct r as [|c r']; [intros [= _ ->]; done|].
    case_decide; intros [= _ ->]; cbn [String.length]; lia. }
  destruct (match r with String c r' => _ | EmptyString => _ end) as [sg r1] eqn:Es.
  specialize (Hsg sg r1 eq_refl).
  destruct (span_digits r1) as [[|d ds] r2] eqn:Ed; intros [= _ <-]; [done|].
  apply span_digits_length in Ed. cbn [String.length]. lia.
Qed.

Lemma number_span_length s n b y : number_span s = Some (n, b, y) -> String.length y < String.length s.
Proof.
  assert (Hr : forall sg s1, number_rest sg s1 = Some (n, b, y) -> String.length y < String.length s1).
  { intros sg s1. unfold number_rest.
    destruct (span_int s1) as [[ip s2]|] eqn:Ei; [|done].
    destruct (span_frac s2) as [fp s3] eqn:Ef. destruct (span_exp s3) as [ep s4] eqn:Ee.
    intros [= _ _ <-]. apply span_int_length in Ei. apply span_frac_length in Ef.
    apply span_exp_length in Ee. lia. }
  destruct s as [|c s]; unfold number_span; [apply Hr|].
  case_decide; intros Hn%Hr; cbn [String.length] in *; lia.
Qed.

Lemma jmap_not_fuel {A B} (f : A -> B) (x : jres A) : x <> JFuel -> jmap f x <> JFuel.
Proof. destruct x; simpl; congruence. Qed.

Lemma scan_str_not_fuel b s : scan_str b s <> JFuel.
Proof.
  remember (String.length s) as n eqn:Hn. revert s Hn.
  induction n as [n IH] using lt_wf_ind. intros [|c r0] Hn; cbn [scan_str]; [discriminate|].
  cbn [String.length] in Hn. repeat case_decide; try discriminate.
  - destruct r0 as [|e r1]; [discriminate|]. case_decide.
    + destruct r1 as [|h1 [|h2 [|h3 [|h4 r2]]]]; try discriminate.
      destruct r2 as [|x0 r3]; [discriminate|]. destruct (hex4 h1 h2 h3 h4); [|discriminate].
      case_decide; [|discriminate]. apply jmap_not_fuel. eapply IH; [|reflexivity].
      cbn [String.length] in *. lia.
    + destruct (simple_escape e); [|discriminate]. apply jmap_not_fuel.
      eapply IH; [|reflexivity]. cbn [String.length] in *. lia.
  - apply jmap_not_fuel. eapply IH; [|reflexivity]. lia.
Qed.

Section Fuel.
Variable fs : string -> spec_float.

(** More fuel never changes an outcome that was reached. *)
Lemma scan_fuel_mono n : forall m, n <= m ->
  (forall s, jle (scan_once fs n s) (scan_once fs m s)) /\
  (forall s acc, jle (array_items fs n s acc) (array_items fs m s acc)) /\
  (forall s acc, jle (object_items fs n s acc) (object_items fs m s acc)).
Proof.
  induction n as [|n IH]; intros m Hm; [repeat split; intros; by left|].
  destruct m as [|m]; [lia|]. destruct (IH m ltac:(lia)) as (H1 & H2 & H3).
  split; [|split].
  - intros [|c r]; [done|]. simpl.
    repeat (case_decide || match goal with |- context [skip_ws r] => destruct (skip_ws r) end);
      first [apply jle_jmap; first [apply H2 | apply H3] | apply jle_refl].
  - intros s acc. simpl. apply jle_jbind; [apply H1|]. intros v r.
    destruct (skip_ws r); repeat case_decide; first [apply H2 | apply jle_refl].
  - intros [|c r] acc; [done|]. simpl. case_decide; [|apply jle_refl].
    apply jle_jbind; [apply jle_refl|]. intros key r1. destruct (skip_ws r1); [apply jle_refl|].
    case_decide; [|apply jle_refl].
    apply jle_jbind; [apply H1|]. intros v r3. destruct (skip_ws r3); repeat case_decide;
      first [apply H3 | apply jle_refl].
Qed.

Lemma match_number_consumes s v r : match_number fs s = JOk v r -> String.length r < String.length s.
Proof.
  unfold match_number. destruct (number_span s) as [[[n []] y]|] eqn:E; try discriminate.
  - intros [= _ <-]. by eapply number_span_length.
  - destruct (py_int n); [discriminate|]. intros [= _ <-]. by eapply number_span_length.
Qed.

Lemma scan_constant_consumes s v r : scan_constant fs s = JOk v r -> String.length r < String.length s.
Proof.
  unfold scan_constant.
  repeat match goal with
  | |- context [strip_prefix ?p s] =>
      let E := fresh "E" in
      destruct (strip_prefix p s) as [r1|] eqn:E;
      [intros [= _ <-]; apply strip_prefix_length in E; cbn [String.length] in E; lia|]
  end.
  apply match_number_consumes.
Qed.

Lemma scan_constant_not_fuel s : scan_constant fs s <> JFuel.
Proof.
  unfold scan_constant.
  repeat match goal with
  | |- context [strip_prefix ?p s] => destruct (strip_prefix p s); [discriminate|]
  end.
  unfold match_number. destruct (number_span s) as [[[? []] ?]|]; try discriminate.
  destruct (py_int _); discriminate.
Qed.

(** The scanner consumes at least one character whenever it succeeds. *)
Lemma scan_consumes n :
  (forall s v r, scan_once fs n s = JOk v r -> String.length r < String.length s) /\
  (forall s acc vs r, array_items fs n s acc = JOk vs r -> String.length r < String.length s) /\
  (forall s acc d r, object_items fs n s acc = JOk d r -> String.length r < String.length s).
Proof.
  induction n as [|n (IH1 & IH2 & IH3)]; [repeat split; discriminate|]. split; [|split].
  - intros [|c r0] v r; simpl; [discriminate|].
    case_decide; [intros (? & Hs & _)%jmap_ok; apply scan_str_consumes in Hs; lia|].
    case_decide; [|case_decide; [|intros Hs%scan_constant_consumes; cbn [String.length] in Hs; lia]];
      destruct (skip_ws r0) as [|d r'] eqn:Ew; pose proof (skip_ws_length r0) as Hw; rewrite Ew in Hw;
      cbn [String.length] in Hw;
      try (intros (? & Hs & _)%jmap_ok; first [apply IH2 in Hs | apply IH3 in Hs];
           cbn [String.length] in Hs; lia);
      (case_decide; [intros [= _ <-]; lia|]);
      intros (? & Hs & _)%jmap_ok; first [apply IH2 in Hs | apply IH3 in Hs]; cbn [String.length] in Hs; lia.
  - intros s acc vs r. simpl. intros (v & r1 & Hv%IH1 & Hk)%jbind_ok.
    destruct (skip_ws r1) as [|d r'] eqn:Ew; [discriminate|].
    pose proof (skip_ws_length r1) as Hw; rewrite Ew in Hw; cbn [String.length] in Hw.
    repeat case_decide; try discriminate.
    + injection Hk as _ <-. lia.
    + apply IH2 in Hk. pose proof (skip_ws_length r'). lia.
  - intros [|c r0] acc d r; simpl; [discriminate|]. case_decide; [|discriminate].
    intros (key & r1 & Hkey%scan_str_consumes & Hk)%jbind_ok.
    destruct (skip_ws r1) as [|d1 r2] eqn:Ew1; [discriminate|].
    pose proof (skip_ws_length r1) as Hw1; rewrite Ew1 in Hw1; cbn [String.length] in *.
    case_decide; [|discriminate].
    apply jbind_ok in Hk as (v & r3 & Hv%IH1 & Hk). pose proof (skip_ws_length r2).
    destruct (skip_ws r3) as [|e r4] eqn:Ew3; [discriminate|].
    pose proof (skip_ws_length r3) as Hw3; rewrite Ew3 in Hw3; cbn [String.length] in Hw3.
    repeat case_decide; try discriminate.
    + injection Hk as _ <-. lia.
    + apply IH3 in Hk. pose proof (skip_ws_length r4). lia.
Qed.

(** Two units of fuel per character are enough. *)
Lemma scan_fuel_enough n :
  (forall s, 2 * String.length s < n -> scan_once fs n s <> JFuel) /\
  (forall s acc, 2 * String.length s + 1 < n -> array_items fs n s acc <> JFuel) /\
  (forall s acc, 2 * String.length s + 1 < n -> object_items fs n s acc <> JFuel).
Proof.
  induction n as [|n (IH1 & IH2 & IH3)]; [repeat split; intros; lia|].
  destruct (scan_consumes n) as (C1 & C2 & C3). split; [|split].
  - intros [|c r0] Hl; simpl; [discriminate|]. cbn [String.length] in Hl.
    case_decide; [apply jmap_not_fuel, scan_str_not_fuel|].
    case_decide; [|case_decide; [|apply scan_constant_not_fuel]];
      destruct (skip_ws r0) as [|d r'] eqn:Ew; pose proof (skip_ws_length r0) as Hw; rewrite Ew in Hw;
      cbn [String.length] in Hw; try case_decide; try discriminate;
      apply jmap_not_fuel; first [apply IH2 | apply IH3]; cbn [String.length]; lia.
  - intros s acc Hl. simpl. apply jbind_not_fuel; [apply IH1; lia|].
    intros v r Hv%C1. destruct (skip_ws r) as [|d r'] eqn:Ew; [discriminate|].
    pose proof (skip_ws_length r) as Hw; rewrite Ew in Hw; cbn [String.length] in Hw.
    pose proof (skip_ws_length r'). repeat case_decide; try discriminate. apply IH2. lia.
  - intros [|c r0] acc Hl; simpl; [discriminate|]. case_decide; [|discriminate].
    cbn [String.length] in Hl. apply jbind_not_fuel; [apply scan_str_not_fuel|].
    intros key r1 Hkey%scan_str_consumes. destruct (skip_ws r1) as [|d1 r2] eqn:Ew1; [discriminate|].
    pose proof (skip_ws_length r1) as Hw1; rewrite Ew1 in Hw1; cbn [String.length] in Hw1.
    case_decide; [|discriminate]. pose proof (skip_ws_length r2).
    apply jbind_not_fuel; [apply IH1; lia|]. intros v r3 Hv%C1.
    destruct (skip_ws r3) as [|e r4] eqn:Ew3; [discriminate|].
    pose proof (skip_ws_length r3) as Hw3; rewrite Ew3 in Hw3; cbn [String.length] in Hw3.
    pose proof (skip_ws_length r4). repeat case_decide; try discriminate. apply IH3. lia.
Qed.

End Fuel.

(** ** Lemmas: literals of the encoder *)

(** Induction on Python values through the items of lists and dicts. *)
Lemma pyval_ind' (P : pyval -> Prop) :
  P PyNone -> (forall b, P (PyBool b)) -> (forall s, P (PyStr s)) -> (forall z, P (PyInt z)) ->
  (forall f, P (PyFloat f)) -> (forall l, Forall P l -> P (PyList l)) ->
  (forall d, Forall (fun kx => P kx.2) d -> P (PyDict d)) -> forall v, P v.
Proof.
  intros HN HB HS HI HF HL HD. fix IH 1. intros [| | | | |l|d].
  1-5: auto.
  - apply HL. induction l as [|x l IHl]; constructor; [apply IH | exact IHl].
  - apply HD. induction d as [|[k x] d IHd]; constructor; [apply IH | exact IHd].
Qed.

Lemma all_of_Forall {A} (P : A -> Prop) l : all_of P l <-> Forall P l.
Proof. induction l; simpl; rewrite ?Forall_cons; naive_solver. Qed.

Lemma strip_prefix_app p r : strip_prefix p (p +:+ r) = Some r.
Proof. induction p as [|a p IH]; [done|]. rewrite string_app_cons. cbn. by rewrite decide_True. Qed.

Lemma strip_prefix_mismatch a p c s :
  char_code a <> char_code c -> strip_prefix (String a p) (String c s) = None.
Proof. intros H. cbn. rewrite decide_False; [done|]. by intros ->. Qed.

Lemma span_digits_uint (u : Decimal.uint) :
  span_digits (NilEmpty.string_of_uint u) = (NilEmpty.string_of_uint u, EmptyString).
Proof.
  induction u as [|u IH|u IH|u IH|u IH|u IH|u IH|u IH|u IH|u IH|u IH]; [reflexivity|..];
    cbn [NilEmpty.string_of_uint span_digits]; rewrite IH; reflexivity.
Qed.

(** [N.to_uint] has no leading zero: it is [0] or starts with [1-9]. *)
Lemma N_to_uint_norm (n : N) :
  N.to_uint n = Decimal.D0 Decimal.Nil \/ forall u, N.to_uint n <> Decimal.D0 u.
Proof.
  pose proof (DecimalN.Unsigned.to_of (N.to_uint n)) as E.
  rewrite DecimalN.Unsigned.of_to in E. unfold Decimal.unorm in E.
  destruct (Decimal.nzhead (N.to_uint n)) eqn:Ez; [by left| |by right; intros w; rewrite E ..].
  exfalso. by eapply DecimalFacts.nzhead_nonzero.
Qed.

Lemma span_int_str_of_N (n : N) : span_int (str_of_N n) = Some (str_of_N n, EmptyString).
Proof.
  unfold str_of_N. pose proof (N_to_uint_not_nil n) as Hnil.
  destruct (N_to_uint_norm n) as [E|E]; [by rewrite E|].
  destruct (N.to_uint n) as [|u|u|u|u|u|u|u|u|u|u]; [done|by destruct (E u)|..];
    cbn -[span_digits]; by rewrite span_digits_uint.
Qed.

(** [str(z)] is a whole integer literal. *)
Lemma number_span_str_of_Z (z : Z) :
  number_span (str_of_Z z) = Some (str_of_Z z, false, EmptyString).
Proof.
  unfold str_of_Z. case_decide.
  - rewrite string_app_cons, string_app_nil_l. unfold number_span. rewrite decide_True by reflexivity.
    unfold number_rest. rewrite span_int_str_of_N. cbn -[str_of_N].
    rewrite !string_app_nil_l, string_app_nil_r, bool_decide_eq_true_2 by done.
    by rewrite string_app_cons, string_app_nil_l.
  - destruct (str_of_N_digit (Z.to_N z)) as (c & rest & Hs & Hd & _ & Hm & _).
    unfold number_span. rewrite Hs, decide_False.
    + unfold number_rest. rewrite <- Hs, span_int_str_of_N. cbn -[str_of_N].
      by rewrite !string_app_nil_l, string_app_nil_r, bool_decide_eq_true_2.
    + intros Hc. apply Hm. rewrite <- (ascii_nat_embedding c). unfold char_code in Hc. by rewrite Hc.
Qed.

Lemma sum_map_Forall2 {E A B} (f : A -> E + B) l ys :
  sum_map f l = inr ys -> Forall2 (fun x y => f x = inr y) l ys.
Proof.
  revert ys. induction l as [|x l IH]; intros ys; cbn [sum_map]; [intros [= <-]; constructor|].
  destruct (f x) eqn:Ef; [discriminate|]. destruct (sum_map f l); [discriminate|].
  intros [= <-]. constructor; auto.
Qed.

Lemma span_int_head c t ip y : span_int (String c t) = Some (ip, y) -> 48 <= char_code c <= 57.
Proof.
  cbn [span_int]. case_decide; [lia|]. unfold is_digit. case_bool_decide; [done|discriminate].
Qed.

(** A number starts with a digit, or with a minus sign and a digit. *)
Lemma number_head s nm b y : number_span s = Some (nm, b, y) ->
  exists c t, s = String c t /\ (48 <= char_code c <= 57 \/
    (char_code c = 45 /\ exists d t', t = String d t' /\ 48 <= char_code d <= 57)).
Proof.
  destruct s as [|c t]; [done|]. unfold number_span, number_rest.
  case_decide.
  - destruct t as [|d t']; [done|].
    destruct (span_int (String d t')) as [[ip s2]|] eqn:Ei; [|done]. intros _.
    apply span_int_head in Ei. eauto 10.
  - destruct (span_int (String c t)) as [[ip s2]|] eqn:Ei; [|done]. intros _.
    apply span_int_head in Ei. eauto.
Qed.

Section RoundTrip.
Variable fr : spec_float -> string.
Variable fs : string -> spec_float.

(** Outcomes reached with some fuel stay with more. *)
Lemma scan_once_more n m s x : scan_once fs n s = x -> x <> JFuel -> n <= m -> scan_once fs m s = x.
Proof. intros <- Hx Hm. apply jle_eq; [apply (proj1 (scan_fuel_mono fs n m Hm)) | done]. Qed.

Lemma array_items_more n m s acc x :
  array_items fs n s acc = x -> x <> JFuel -> n <= m -> array_items fs m s acc = x.
Proof. intros <- Hx Hm. apply jle_eq; [apply (proj1 (proj2 (scan_fuel_mono fs n m Hm))) | done]. Qed.

Lemma object_items_more n m s acc x :
  object_items fs n s acc = x -> x <> JFuel -> n <= m -> object_items fs m s acc = x.
Proof. intros <- Hx Hm. apply jle_eq; [apply (proj2 (proj2 (scan_fuel_mono fs n m Hm))) | done]. Qed.

(** Arithmetic on character codes, the codes of literal characters
    computed. *)
Ltac code_lia :=
  unfold char_code in *;
  repeat match goal with
  | |- context [nat_of_ascii ?a] =>
      lazymatch a with
      | Ascii _ _ _ _ _ _ _ _ => idtac
      | dquote => idtac
      | bslash => idtac
      | ascii_of_nat _ => idtac
      end;
      let k := eval vm_compute in (nat_of_ascii a) in change (nat_of_ascii a) with k
  end; lia.

(** A number is scanned by [_match_number_unicode]: it is no string,
    container or named constant. *)
Lemma scan_once_number n s nm b y :
  number_span s = Some (nm, b, y) -> scan_once fs (S n) s = match_number fs s.
Proof.
  intros Hs. destruct (number_head _ _ _ _ Hs) as (c & t & -> & Hc). simpl.
  assert (Hq : c <> dquote) by (intros ->; destruct Hc as [H|[H _]]; vm_compute in H; lia).
  assert (Hb : char_code c <> 123 /\ char_code c <> 91) by (destruct Hc as [|[? _]]; lia).
  rewrite decide_False by done. rewrite !decide_False by lia.
  unfold scan_constant. destruct Hc as [Hc|(Hc & d & t' & -> & Hd)].
  - rewrite !strip_prefix_mismatch by code_lia. done.
  - rewrite !strip_prefix_mismatch by code_lia.
    replace c with "-"%char by (rewrite <- (ascii_nat_embedding c); unfold char_code in Hc; by rewrite Hc).
    cbn [strip_prefix]. rewrite decide_True by done.
    rewrite decide_False; [done|]. intros <-. vm_compute in Hd. lia.
Qed.

(** The leaves: named constants, strings, integers and floats. *)
Ltac reads_const :=
  split; [do 2 eexists; split; [reflexivity | split; [reflexivity | code_lia]] |];
  intros r _; exists 1; rewrite ?string_app_cons, string_app_nil_l; reflexivity.

Lemma reads_null : reads_back fs "null" PyNone. Proof. reads_const. Qed.
Lemma reads_true : reads_back fs "true" (PyBool true). Proof. reads_const. Qed.
Lemma reads_false : reads_back fs "false" (PyBool false). Proof. reads_const. Qed.
Lemma reads_nan : reads_back fs "NaN" (PyFloat S754_nan). Proof. reads_const. Qed.
Lemma reads_inf : reads_back fs "Infinity" (PyFloat (S754_infinity false)). Proof. reads_const. Qed.
Lemma reads_minf : reads_back fs "-Infinity" (PyFloat (S754_infinity true)). Proof. reads_const. Qed.

Lemma reads_str s : reads_back fs (encode_basestring_ascii s) (PyStr s).
Proof.
  split; [do 2 eexists; split; [reflexivity | split; [reflexivity | code_lia]] |].
  intros r _. exists 1. unfold encode_basestring_ascii. rewrite string_app_cons. simpl.
  rewrite string_app_assoc, string_app_cons, string_app_nil_l.
  by rewrite scan_str_escape.
Qed.

Lemma number_head_ok t nm b y : number_span t = Some (nm, b, y) ->
  exists c t', t = String c t' /\ is_ws c = false /\ char_code c <> 93.
Proof.
  intros (c & t' & -> & Hc)%number_head. exists c, t'. split; [done|].
  unfold is_ws. rewrite bool_decide_eq_false_2; [split; [done|]|]; destruct Hc as [|[? _]]; lia.
Qed.

Lemma reads_number t b v :
  number_span t = Some (t, b, EmptyString) ->
  (forall r, stops r -> match_number fs (t +:+ r) = JOk v r) -> reads_back fs t v.
Proof.
  intros Hn Hm. split; [by eapply number_head_ok|]. intros r Hr. exists 1.
  rewrite (scan_once_number 0 _ _ _ _ (number_span_app _ _ _ _ Hn Hr)). by apply Hm.
Qed.

Lemma reads_int z t : int_repr z = inr t -> reads_back fs t (PyInt z).
Proof.
  unfold int_repr. case_decide as Hl; [discriminate|]. intros [= <-].
  apply (reads_number _ false); [apply number_span_str_of_Z|]. intros r Hr.
  unfold match_number. rewrite (number_span_app _ _ _ _ (number_span_str_of_Z z) Hr).
  rewrite py_int_str_of_Z by lia. done.
Qed.

Lemma reads_float f : float_ok fr fs f -> reads_back fs (floatstr fr f) (PyFloat f).
Proof.
  destruct f as [b|[]| |b m e]; cbn [floatstr float_ok];
    try (intros _; first [apply reads_nan | apply reads_inf | apply reads_minf]);
    intros [Hn Hf]; (apply (reads_number _ true); [exact Hn|]);
    intros r Hr; unfold match_number; by rewrite (number_span_app _ _ _ _ Hn Hr), Hf.
Qed.

(** The unfolding equations of the scanner, for rewriting. *)
Lemma array_items_S n s acc :
  array_items fs (S n) s acc =
  jbind (scan_once fs n s) (fun v r =>
    match skip_ws r with
    | String d r' =>
        if decide (char_code d = 93) then JOk (acc ++ [v]) r'
        else if decide (char_code d = 44) then array_items fs n (skip_ws r') (acc ++ [v])
        else JErr "Expecting ',' delimiter" (String d r')
    | EmptyString => JErr "Expecting ',' delimiter" EmptyString
    end).
Proof. reflexivity. Qed.

Lemma object_items_S n c r acc :
  object_items fs (S n) (String c r) acc =
  if decide (c = dquote) then
    jbind (scan_str (String c r) r) (fun key r1 =>
      match skip_ws r1 with
      | String d r2 =>
          if decide (char_code d = 58) then
            jbind (scan_once fs n (skip_ws r2)) (fun v r3 =>
              let acc' := dict_setitem key v acc in
              match skip_ws r3 with
              | String e r4 =>
                  if decide (char_code e = 125) then JOk acc' r4
                  else if decide (char_code e = 44) then object_items fs n (skip_ws r4) acc'
                  else JErr "Expecting ',' delimiter" (String e r4)
              | EmptyString => JErr "Expecting ',' delimiter" EmptyString
              end)
          else JErr "Expecting ':' delimiter" (String d r2)
      | EmptyString => JErr "Expecting ':' delimiter" EmptyString
      end)
  else JErr "Expecting property name enclosed in double quotes" (String c r).
Proof. reflexivity. Qed.

Lemma scan_once_bracket n r :
  scan_once fs (S n) (String "[" r) =
  match skip_ws r with
  | String d r' => if decide (char_code d = 93) then JOk (PyList []) r'
                   else jmap PyList (array_items fs n (String d r') [])
  | EmptyString => jmap PyList (array_items fs n EmptyString [])
  end.
Proof. reflexivity. Qed.

Lemma scan_once_brace n r :
  scan_once fs (S n) (String "{" r) =
  match skip_ws r with
  | String d r' => if decide (char_code d = 125) then JOk (PyDict []) r'
                   else jmap PyDict (object_items fs n (String d r') [])
  | EmptyString => jmap PyDict (object_items fs n EmptyString [])
  end.
Proof. reflexivity. Qed.

Lemma stops_newline_indent lvl r : stops (newline_indent lvl +:+ r).
Proof.
  unfold newline_indent, newline. rewrite string_app_assoc, string_app_cons, string_app_nil_l.
  cbn [stops]. split; [reflexivity | code_lia].
Qed.

Lemma stops_comma r : stops ("," +:+ r).
Proof. rewrite string_app_cons, string_app_nil_l. cbn [stops]. split; [reflexivity | code_lia]. Qed.

Lemma skip_ws_head c t r : is_ws c = false -> skip_ws (String c t +:+ r) = String c t +:+ r.
Proof. intros H. rewrite string_app_cons. cbn [skip_ws]. by rewrite H. Qed.

Lemma concat_cons2 sep x y ys :
  String.concat sep (x :: y :: ys) = x +:+ sep +:+ String.concat sep (y :: ys).
Proof. reflexivity. Qed.

Lemma concat_cons_app sep t ts : exists y, String.concat sep (t :: ts) = t +:+ y.
Proof. destruct ts as [|t2 ts]; [exists ""; by rewrite string_app_nil_r | by eexists]. Qed.

(** The items of a list, read back one by one up to the closing bracket. *)
Lemma array_items_reads lvl ts vs acc r :
  Forall2 (reads_back fs) ts vs -> ts <> [] ->
  exists n, array_items fs n (String.concat ("," +:+ newline_indent (S lvl)) ts
                              +:+ (newline_indent lvl +:+ "]" +:+ r)) acc = JOk (acc ++ vs) r.
Proof.
  intros HF. revert acc. induction HF as [|t v ts vs [Hhead Hscan] HF IH]; intros acc Hne; [done|].
  destruct ts as [|t2 ts'].
  - inversion HF; subst. cbn [String.concat].
    destruct (Hscan (newline_indent lvl +:+ "]" +:+ r)) as [n1 Hn1]; [apply stops_newline_indent|].
    exists (S n1). rewrite array_items_S, Hn1. cbn [jbind].
    rewrite skip_ws_newline_indent, skip_ws_head by reflexivity.
    rewrite string_app_cons, string_app_nil_l. cbv iota.
    rewrite decide_True by code_lia. done.
  - inversion HF as [|? ? ? ? [[c2 [t2' [Ht2 [Hws2 _]]]] _] _]; subst.
    set (sep := "," +:+ newline_indent (S lvl)).
    set (tail := newline_indent lvl +:+ "]" +:+ r).
    change (String.concat sep (t :: String c2 t2' :: ts'))
      with (t +:+ sep +:+ String.concat sep (String c2 t2' :: ts')).
    destruct (Hscan (sep +:+ String.concat sep (String c2 t2' :: ts') +:+ tail)) as [n1 Hn1].
    { unfold sep. rewrite string_app_assoc. apply stops_comma. }
    destruct (IH (acc ++ [v]) ltac:(done)) as [n2 Hn2].
    exists (S (max n1 n2)). rewrite array_items_S, !string_app_assoc.
    rewrite (scan_once_more n1 _ _ _ Hn1) by (discriminate || lia). cbn [jbind].
    unfold sep. rewrite string_app_assoc, skip_ws_head by reflexivity.
    rewrite string_app_cons, string_app_nil_l. cbv iota.
    rewrite decide_False by code_lia. rewrite decide_True by code_lia.
    rewrite skip_ws_newline_indent.
    destruct (concat_cons_app sep (String c2 t2') ts') as [w Hy]. unfold sep in Hy.
    rewrite Hy, string_app_assoc, skip_ws_head by done. rewrite <- string_app_assoc, <- Hy.
    rewrite (array_items_more n2 _ _ _ _ Hn2) by (discriminate || lia).
    by rewrite <- app_assoc.
Qed.

Lemma skip_ws_cons c s : is_ws c = false -> skip_ws (String c s) = String c s.
Proof. intros H. cbn. by rewrite H. Qed.

Lemma encode_app k x :
  encode_basestring_ascii k +:+ x = String dquote (escape_chars k +:+ String dquote x).
Proof.
  unfold encode_basestring_ascii. by rewrite string_app_cons, string_app_assoc, string_app_cons,
    string_app_nil_l.
Qed.

Lemma skip_ws_entry sep k t rest z :
  skip_ws (String.concat sep ((encode_basestring_ascii k +:+ ": " +:+ t) :: rest) +:+ z) =
  String.concat sep ((encode_basestring_ascii k +:+ ": " +:+ t) :: rest) +:+ z.
Proof.
  destruct (concat_cons_app sep (encode_basestring_ascii k +:+ ": " +:+ t) rest) as [w ->].
  rewrite !string_app_assoc, encode_app. by apply skip_ws_cons.
Qed.

(** One entry [key: value] of a dict, up to what follows it. *)
Lemma object_entry n k t x R acc :
  scan_once fs n (t +:+ R) = JOk x R -> (exists c t', t = String c t' /\ is_ws c = false) ->
  k ∉ dict_keys acc ->
  object_items fs (S n) (encode_basestring_ascii k +:+ ": " +:+ t +:+ R) acc =
  match skip_ws R with
  | String e r4 =>
      if decide (char_code e = 125) then JOk (acc ++ [(k, x)]) r4
      else if decide (char_code e = 44) then object_items fs n (skip_ws r4) (acc ++ [(k, x)])
      else JErr "Expecting ',' delimiter" (String e r4)
  | EmptyString => JErr "Expecting ',' delimiter" EmptyString
  end.
Proof.
  intros Hx (c & t' & -> & Hc) Hk. rewrite encode_app, object_items_S.
  rewrite decide_True by done. rewrite scan_str_escape. cbn [jbind].
  rewrite !string_app_cons, string_app_nil_l, skip_ws_cons by reflexivity. cbv iota.
  rewrite decide_True by code_lia. cbn [skip_ws]. replace (is_ws " "%char) with true by reflexivity.
  rewrite Hc, <- string_app_cons, Hx. cbn [jbind]. by rewrite dict_setitem_new.
Qed.

(** The entries of a dict, read back one by one up to the closing brace. *)
Lemma object_items_reads lvl (d : list (string * pyval)) ts acc r :
  Forall2 (fun kx t => reads_back fs t kx.2) d ts -> d <> [] ->
  NoDup (dict_keys acc ++ map fst d) ->
  exists n, object_items fs n (String.concat ("," +:+ newline_indent (S lvl))
      (zip_with (fun kx t => encode_basestring_ascii kx.1 +:+ ": " +:+ t) d ts)
      +:+ (newline_indent lvl +:+ "}" +:+ r)) acc = JOk (acc ++ d) r.
Proof.
  intros HF. revert acc. induction HF as [|[k x] t d ts [Hhead Hscan] HF IH]; intros acc Hne Hnd; [done|].
  apply NoDup_app in Hnd as Hnd'. destruct Hnd' as (_ & Hdis & _).
  assert (Hk : k ∉ dict_keys acc) by (intros Hin; apply (Hdis k Hin); left).
  destruct Hhead as (c & t' & Ht & Hc & _).
  destruct d as [|[k2 x2] d'].
  - inversion HF; subst. cbn [zip_with String.concat fst snd].
    destruct (Hscan (newline_indent lvl +:+ "}" +:+ r)) as [n1 Hn1]; [apply stops_newline_indent|].
    exists (S n1). rewrite !string_app_assoc, (object_entry n1 k _ x) by eauto.
    rewrite skip_ws_newline_indent, skip_ws_head by reflexivity.
    rewrite string_app_cons, string_app_nil_l. cbv iota. rewrite decide_True by code_lia. done.
  - inversion HF as [|? t2 ? ts' _ _]; subst. cbn [zip_with fst snd] in *.
    destruct (Hscan ("," +:+ newline_indent (S lvl) +:+
                     String.concat ("," +:+ newline_indent (S lvl))
                       ((encode_basestring_ascii k2 +:+ ": " +:+ t2) ::
                        zip_with (fun kx t0 => encode_basestring_ascii kx.1 +:+ ": " +:+ t0) d' ts')
                     +:+ newline_indent lvl +:+ "}" +:+ r)) as [n1 Hn1]; [apply stops_comma|].
    destruct (IH (acc ++ [(k, x)]) ltac:(done)) as [n2 Hn2].
    { unfold dict_keys in *. rewrite map_app, <- app_assoc. exact Hnd. }
    exists (S (max n1 n2)). rewrite concat_cons2, !string_app_assoc.
    rewrite (object_entry (max n1 n2) k _ x).
    2: { apply (scan_once_more n1); [rewrite ?string_app_assoc in Hn1; exact Hn1 | discriminate | lia]. }
    2: { eauto. }
    2: { done. }
    rewrite skip_ws_head by reflexivity. rewrite string_app_cons, string_app_nil_l. cbv iota.
    rewrite decide_False by code_lia. rewrite decide_True by code_lia.
    rewrite skip_ws_newline_indent, skip_ws_entry.
    rewrite ?string_app_assoc in Hn2.
    rewrite (object_items_more n2 _ _ _ _ Hn2) by (discriminate || lia).
    by rewrite <- app_assoc.
Qed.

Lemma Forall2_reads {A} (P : A -> Prop) (Q : A -> string -> Prop) (R : string -> A -> Prop) l ts :
  Forall P l -> Forall2 Q l ts -> (forall a t, P a -> Q a t -> R t a) -> Forall2 R ts l.
Proof. intros HP HQ HPQ. induction HQ; inversion HP; subst; constructor; eauto. Qed.

(** The text of non-empty items starts like the first of them. *)
Lemma concat_reads_head sep ts vs z :
  Forall2 (reads_back fs) ts vs -> ts <> [] ->
  exists c w, String.concat sep ts +:+ z = String c w /\ is_ws c = false /\ char_code c <> 93.
Proof.
  intros HF Hne. destruct HF as [|t v ts vs [(c & t' & -> & Hc & Hb) _] _]; [done|].
  destruct (concat_cons_app sep (String c t') ts) as [w ->].
  rewrite !string_app_assoc, string_app_cons. eauto.
Qed.

Lemma concat_entries_head sep (d : list (string * pyval)) (ts : list string) z :
  d <> [] -> length d = length ts ->
  exists w, String.concat sep (zip_with (fun kx t => encode_basestring_ascii kx.1 +:+ ": " +:+ t) d ts)
              +:+ z = String dquote w.
Proof.
  destruct d as [|kx d], ts as [|t ts]; try done. intros _ _. cbn [zip_with].
  destruct (concat_cons_app sep (encode_basestring_ascii kx.1 +:+ ": " +:+ t)
              (zip_with (fun kx t => encode_basestring_ascii kx.1 +:+ ": " +:+ t) d ts)) as [w ->].
  rewrite !string_app_assoc, encode_app. eauto.
Qed.

(** The items of a dict, as [sum_map] of its loop produces them. *)
Lemma dict_items lvl d items :
  Forall2 (fun kx it => (fun '(k, x) => match iterencode fr (S lvl) x with
                                          | inl e => inl e
                                          | inr s => inr (encode_basestring_ascii k +:+ ": " +:+ s)
                                          end) kx = inr it) d items ->
  exists ts, Forall2 (fun kx t => iterencode fr (S lvl) kx.2 = inr t) d ts /\
             items = zip_with (fun kx t => encode_basestring_ascii kx.1 +:+ ": " +:+ t) d ts.
Proof.
  induction 1 as [|[k x] it d items Hit _ (ts & Hts & ->)]; [by exists []|].
  destruct (iterencode fr (S lvl) x) as [e|t] eqn:E; [discriminate|]. injection Hit as <-.
  exists (t :: ts). split; [by constructor | reflexivity].
Qed.

(** Every JSON text of the encoder is read back as the value it encodes. *)
Lemma iterencode_reads_back v : forall lvl t,
  json_ok fr fs v -> iterencode fr lvl v = inr t -> reads_back fs t v.
Proof.
  induction v as [|b|s|z|f|l IHl|d IHd] using pyval_ind'; intros lvl t Hok He.
  - injection He as <-. apply reads_null.
  - destruct b; injection He as <-; [apply reads_true | apply reads_false].
  - injection He as <-. apply reads_str.
  - by apply reads_int.
  - injection He as <-. by apply reads_float.
  - destruct l as [|x l'].
    { injection He as <-. split; [do 2 eexists; split; [reflexivity | split; [reflexivity | code_lia]]|].
      intros r _. exists 1. rewrite !string_app_cons, string_app_nil_l. reflexivity. }
    change (match sum_map (iterencode fr (S lvl)) (x :: l') with
            | inl e => inl e | inr items => inr (enclose "[" "]" lvl items) end = inr t) in He.
    destruct (sum_map _ _) as [e|items] eqn:Es; [discriminate|]. injection He as <-.
    apply sum_map_Forall2 in Es.
    assert (HR : Forall2 (reads_back fs) items (x :: l')).
    { refine (Forall2_reads (fun a => (forall lvl t, json_ok fr fs a -> iterencode fr lvl a = inr t ->
                                         reads_back fs t a) /\ json_ok fr fs a) _ _ _ _ _ Es _).
      - apply Forall_and. split; [exact IHl | by apply all_of_Forall].
      - intros a t' [Ha Hoka] Hea. eauto. }
    assert (Hne : items <> []) by (inversion HR; done).
    split; [do 2 eexists; split; [reflexivity | split; [reflexivity | code_lia]]|].
    intros r _. destruct (array_items_reads lvl items (x :: l') [] r HR Hne) as [n Hn].
    exists (S n). unfold enclose. rewrite !string_app_assoc, string_app_cons, string_app_nil_l.
    rewrite scan_once_bracket, skip_ws_newline_indent.
    destruct (concat_reads_head ("," +:+ newline_indent (S lvl)) items (x :: l')
                (newline_indent lvl +:+ "]" +:+ r) HR Hne) as (c & w & Hcw & Hws & Hb).
    rewrite Hcw, skip_ws_cons by done. rewrite decide_False by done. rewrite <- Hcw, Hn. done.
  - destruct d as [|[k x] d'].
    { injection He as <-. split; [do 2 eexists; split; [reflexivity | split; [reflexivity | code_lia]]|].
      intros r _. exists 1. rewrite !string_app_cons, string_app_nil_l. reflexivity. }
    destruct Hok as [Hnd Hok].
    change (match sum_map (fun '(k, x) => match iterencode fr (S lvl) x with
                                           | inl e => inl e
                                           | inr s => inr (encode_basestring_ascii k +:+ ": " +:+ s)
                                           end) ((k, x) :: d') with
            | inl e => inl e | inr items => inr (enclose "{" "}" lvl items) end = inr t) in He.
    destruct (sum_map _ _) as [e|items] eqn:Es; [discriminate|]. injection He as <-.
    apply sum_map_Forall2, dict_items in Es as (ts & Hts & ->).
    assert (Hok' : Forall (fun kx => json_ok fr fs kx.2) ((k, x) :: d')).
    { apply all_of_Forall in Hok. eapply Forall_impl; [exact Hok|]. by intros [? ?]. }
    assert (HR : Forall2 (fun kx t => reads_back fs t kx.2) ((k, x) :: d') ts).
    { apply Forall2_flip.
      refine (Forall2_reads (fun a => (forall lvl t, json_ok fr fs a.2 -> iterencode fr lvl a.2 = inr t ->
                                        reads_back fs t a.2) /\ json_ok fr fs a.2) _ _ _ _ _ Hts _).
      - apply Forall_and. by split.
      - intros a t' [Ha Hoka] Hea. by eapply Ha. }
    split; [do 2 eexists; split; [reflexivity | split; [reflexivity | code_lia]]|].
    intros r _. destruct (object_items_reads lvl ((k, x) :: d') ts [] r HR ltac:(done) Hnd) as [n Hn].
    exists (S n). unfold enclose. rewrite !string_app_assoc, string_app_cons, string_app_nil_l.
    rewrite scan_once_brace, skip_ws_newline_indent.
    destruct (concat_entries_head ("," +:+ newline_indent (S lvl)) ((k, x) :: d') ts
                (newline_indent lvl +:+ "}" +:+ r) ltac:(done) (Forall2_length _ _ _ HR)) as [w Hw].
    rewrite Hw, skip_ws_cons by reflexivity. rewrite decide_False by code_lia. rewrite <- Hw, Hn. done.
Qed.

(** A text read back as [v] is what [json.loads] returns for it. *)
Lemma reads_back_loads t v : reads_back fs t v -> json_loads fs t = Some (inr v).
Proof.
  intros [(c & t' & Ht & Hws & _) Hscan]. destruct (Hscan EmptyString I) as [n Hn].
  rewrite string_app_nil_r in Hn. unfold json_loads, json_decode.
  assert (Hs : skip_ws t = t) by (subst; by apply skip_ws_cons). rewrite Hs.
  assert (Hd : scan_once fs (decode_fuel t) t <> JFuel).
  { apply (proj1 (scan_fuel_enough fs _)). unfold decode_fuel. lia. }
  assert (He : scan_once fs (decode_fuel t) t = JOk v EmptyString).
  { rewrite <- (scan_once_more (decode_fuel t) (max n (decode_fuel t)) t _ eq_refl Hd) by lia.
    apply (scan_once_more n); [done | discriminate | lia]. }
  by rewrite He.
Qed.

(** The steps of the encoder on a payload's values. *)
Lemma iterencode_dict lvl kx d :
  iterencode fr lvl (PyDict (kx :: d)) =
  match sum_map (fun '(k, x) => match iterencode fr (S lvl) x with
                                | inl e => inl e
                                | inr s => inr (encode_basestring_ascii k +:+ ": " +:+ s)
                                end) (kx :: d) with
  | inl e => inl e
  | inr items => inr (enclose "{" "}" lvl items)
  end.
Proof. reflexivity. Qed.

Lemma sum_map_strs lvl ms :
  sum_map (iterencode fr lvl) (map PyStr ms) = inr (map encode_basestring_ascii ms).
Proof. induction ms as [|m ms IH]; [done|]. cbn [map sum_map]. by rewrite IH. Qed.

(** The JSON text of a list of strings never fails. *)
Lemma iterencode_strs lvl ms : exists t, iterencode fr lvl (PyList (map PyStr ms)) = inr t.
Proof.
  destruct ms as [|m ms]; [by eexists|].
  change (iterencode fr lvl (PyList (map PyStr (m :: ms)))) with
    (match sum_map (iterencode fr (S lvl)) (map PyStr (m :: ms)) with
     | inl e => inl e | inr items => inr (enclose "[" "]" lvl items) end).
  rewrite sum_map_strs. by eexists.
Qed.

Lemma iterencode_opt_str lvl o : exists t, iterencode fr lvl (pyval_of_opt_str o) = inr t.
Proof. destruct o; by eexists. Qed.

(** [to_json] fails exactly with the [ValueError] of [int.__repr__] on
    [max_tokens]. *)
Lemma to_json_int p : exists js,
  to_json fr p = match int_repr (max_tokens p) with inl e => inl e | inr _ => inr js end.
Proof.
  destruct (iterencode_strs 1 (models p)) as [tm Hm].
  destruct (iterencode_opt_str 1 (request_id p)) as [tr Hr].
  unfold to_json, dumps, to_dict. rewrite iterencode_dict. cbn [sum_map].
  rewrite Hm, Hr. change (iterencode fr 1 (PyInt (max_tokens p))) with (int_repr (max_tokens p)).
  destruct (int_repr (max_tokens p)); [by exists "" | by eexists].
Qed.

(** The payload's dict is one the round trip covers when its
    temperature is. *)
Lemma to_dict_json_ok p : float_ok fr fs (temperature p) -> json_ok fr fs (PyDict (to_dict p)).
Proof.
  intros Hf. split; [by_decide|]. cbn [all_of to_dict json_ok]. repeat split; try done.
  - apply all_of_Forall, Forall_forall. intros x (m & -> & _)%list_elem_of_fmap. done.
  - by destruct (request_id p).
Qed.

End RoundTrip.

(** ** Properties *)

(** [json.loads] terminates on every document: with [decode_fuel]
    (two units per character and one) the decoder never runs out of
    fuel, so [json_loads] has no outcome only for a document whose
    strings hold a character outside Latin-1. *)
Theorem json_decode_fuel_enough fs doc :
  json_decode fs doc <> JFuel /\ (json_loads fs doc = None -> json_decode fs doc = JWide).
Proof.
  assert (H : json_decode fs doc <> JFuel).
  { unfold json_decode. apply jbind_not_fuel.
    - apply (proj1 (scan_fuel_enough fs _)). pose proof (skip_ws_length doc). unfold decode_fuel. lia.
    - intros v r _. destruct (skip_ws r); discriminate. }
  split; [done|]. unfold json_loads. destruct (json_decode fs doc); congruence.
Qed.

(** C10: round trip of the JSON layer: for every Python value whose dicts
    have no repeated key and whose floats are printed by a [repr] that
    [float] reads back, [json.loads(json.dumps(v, indent=2))] is [v]
    again, at every depth of nesting. *)
Theorem json_dumps_loads fr fs v js :
  json_ok fr fs v -> dumps fr v = inr js -> json_loads fs js = Some (inr v).
Proof. intros Hok He. exact (reads_back_loads fs js v (iterencode_reads_back fr fs v 0 js Hok He)). Qed.

(** C11: round trip of the payload ([fromJSON(toJSON(request)) ==
    request], spec section 3): when [max_tokens] has at most 4300 digits
    and the temperature's [repr] reads back, [to_json] succeeds and
    [from_json] of its text builds the object of [p], whose typed
    reading is [p]. *)
Theorem from_json_to_json fr fs p :
  float_ok fr fs (temperature p) ->
  String.length (str_of_N (Z.to_N (Z.abs (max_tokens p)))) <= int_max_str_digits ->
  exists js, to_json fr p = inr js /\ from_json fs js = Some (inr (obj_of p)) /\
             typed_view (obj_of p) = Some p.
Proof.
  intros Hf Hl. destruct (to_json_int fr p) as [js Hjs].
  unfold int_repr in Hjs. rewrite decide_False in Hjs by lia.
  exists js. split; [done|]. split; [|apply typed_view_obj_of]. unfold from_json.
  rewrite (reads_back_loads fs js _ (iterencode_reads_back fr fs _ 0 js (to_dict_json_ok fr fs p Hf) Hjs)).
  reflexivity.
Qed.

(** C24: [to_json] raises the [ValueError] of [int.__repr__] when
    [max_tokens] has more than 4300 digits, so no JSON text exists for
    such a payload (the spec asks a lossless round trip for every valid
    request and bounds no field). *)
Theorem to_json_int_limit fr p :
  int_max_str_digits < String.length (str_of_N (Z.to_N (Z.abs (max_tokens p)))) ->
  to_json fr p = inl (PyExc ValueError "Exceeds the limit (4300 digits) for integer string conversion; use sys.set_int_max_str_digits() to increase the limit").
Proof.
  intros Hl. destruct (to_json_int fr p) as [js Hjs].
  unfold int_repr in Hjs. by rewrite decide_True in Hjs by lia.
Qed.

(** ** Witnesses

    A [repr] and a [float] that agree with CPython on the one float of
    the examples, the literal [0.7]. *)
Module Example.
Definition repr_07 (f : spec_float) : string := if decide (f = float_0_7) then "0.7" else "nan".
Definition float_07 (s : string) : spec_float := if decide (s = "0.7") then float_0_7 else S754_nan.

Definition sample : pyval :=
  PyDict [("models", PyList [PyStr "a"; PyStr "b"]); ("n", PyInt (-12));
          ("t", PyFloat float_0_7); ("x", PyNone); ("nested", PyDict [("e", PyList [])])].

Definition hi_payload : EventPayload :=
  MkEventPayload ("caf" +:+ String (Ascii.ascii_of_nat 233) "?") ["claude-3-haiku"; "gpt-4o"] 4000
    float_0_7 (Some "r-1").

Definition huge_payload : EventPayload := MkEventPayload "hi" ["gpt-4o"] (10 ^ 4300)%Z float_0_7 None.
End Example.
Import Example.

(** Witness of [json_dumps_loads]: a nested dict with a list, a negative
    int, the float 0.7, [None] and an empty list. *)
Lemma json_dumps_loads_witness :
  exists js, json_ok repr_07 float_07 sample /\ dumps repr_07 sample = inr js /\
             json_loads float_07 js = Some (inr sample).
Proof.
  assert (Hok : json_ok repr_07 float_07 sample).
  { cbn. repeat split; try by_decide; vm_compute; reflexivity. }
  eexists. split; [exact Hok|].
  assert (Hd : dumps repr_07 sample = inr _) by (cbv; reflexivity).
  split; [exact Hd | exact (json_dumps_loads repr_07 float_07 sample _ Hok Hd)].
Defined.

(** Witness of [from_json_to_json]: a payload with a Latin-1 prompt and
    a request id. *)
Lemma from_json_to_json_witness :
  float_ok repr_07 float_07 (temperature hi_payload) /\
  String.length (str_of_N (Z.to_N (Z.abs (max_tokens hi_payload)))) <= int_max_str_digits /\
  exists js, to_json repr_07 hi_payload = inr js /\
             from_json float_07 js = Some (inr (obj_of hi_payload)) /\
             typed_view (obj_of hi_payload) = Some hi_payload.
Proof.
  assert (Hf : float_ok repr_07 float_07 (temperature hi_payload)) by (split; vm_compute; reflexivity).
  assert (Hl : String.length (str_of_N (Z.to_N (Z.abs (max_tokens hi_payload)))) <= int_max_str_digits)
    by by_decide.
  split; [exact Hf | split; [exact Hl | exact (from_json_to_json repr_07 float_07 hi_payload Hf Hl)]].
Defined.

(** Witness of [to_json_int_limit]: [max_tokens = 10 ** 4300], of 4301
    digits. *)
Lemma to_json_int_limit_witness :
  int_max_str_digits < String.length (str_of_N (Z.to_N (Z.abs (max_tokens huge_payload)))) /\
  to_json repr_07 huge_payload = inl (PyExc ValueError "Exceeds the limit (4300 digits) for integer string conversion; use sys.set_int_max_str_digits() to increase the limit").
Proof.
  assert (Hl : int_max_str_digits < String.length (str_of_N (Z.to_N (Z.abs (max_tokens huge_payload)))))
    by by_decide.
  split; [exact Hl | exact (to_json_int_limit repr_07 huge_payload Hl)].
Defined.

End JsonText.
