(* ===== verification/ScriptMains.v ===== *)
(** * The [__main__] blocks of [src/event_payload.py] and [src/available_models.py]

    [python event_payload.py] prints the catalogue of strategies, each
    with its primary and fallback models, then the JSON text of the
    [quality_first] strategy's payload; [python available_models.py]
    prints the registry through [list_available_models].  A script's
    run is the list of strings passed to [print], in order, with the
    exception that ended it, if any. *)

From Stdlib Require Import SpecFloat ZArith.
From S2P Require Import Prelude PyDict AvailableModels EventPayload JsonText.
Import AvailableModels EventPayload JsonText.

Module ScriptMains.

(** [python available_models.py]: [list_available_models()] *)
Definition available_models_main : list string := list_available_models available_models.

(** The loop over [EXAMPLE_PAYLOADS.items()]: the strategy's name is
    printed before [payload.primary_model] is read, so an empty model
    list ends the loop after that line with [IndexError]. *)
Fixpoint strategies_loop (ps : dict EventPayload) : list string * option py_exc :=
  match ps with
  | [] => ([], None)
  | (strategy, payload) :: rest =>
      let head := str_upper strategy +:+ ":" in
      match primary_model payload with
      | inl e => ([head], Some e)
      | inr pm =>
          let '(out, e) := strategies_loop rest in
          (head :: ("  Primary: " +:+ pm)
                :: ("  Fallbacks: " +:+ py_repr_list (fallback_models payload)) :: "" :: out, e)
      end
  end.

Section PayloadMain.
Variable float_repr : spec_float -> string.

(** [python event_payload.py]: the header, the loop, then
    [get_example_payload("quality_first", ...)], ["JSON Example:"] and
    [example.to_json()]. *)
Definition payload_main : list string * option py_exc :=
  let '(out, e) := strategies_loop EXAMPLE_PAYLOADS in
  let out := ("Example Event Payloads:" +:+ newline) :: out in
  match e with
  | Some e => (out, Some e)
  | None =>
      match get_example_payload "quality_first" "Explain machine learning" with
      | inl e => (out, Some e)
      | inr example =>
          match to_json float_repr example with
          | inl e => (out ++ ["JSON Example:"], Some e)
          | inr js => (out ++ ["JSON Example:"; js], None)
          end
      end
  end.
End PayloadMain.

(** ** Lemmas *)

(** The catalogue loop prints four lines per strategy and raises
    nothing. *)
Lemma strategies_loop_catalogue :
  exists out, strategies_loop EXAMPLE_PAYLOADS = (out, None) /\ length out = 4 * length EXAMPLE_PAYLOADS.
Proof. eexists. split; [vm_compute; reflexivity | vm_compute; reflexivity]. Qed.

(** ** Properties *)

(** C25: [python event_payload.py] runs to its end without an exception:
    it prints the header and four lines per strategy, then
    ["JSON Example:"] and a JSON text which [from_json] reads back as the
    [quality_first] payload with the prompt ["Explain machine learning"]
    (for a [repr] of 0.7 that [float] reads back, as CPython's). *)
Theorem payload_main_json fr fs :
  float_ok fr fs float_0_7 ->
  exists out js p, payload_main fr = (out ++ ["JSON Example:"; js], None) /\
    length out = 1 + 4 * length EXAMPLE_PAYLOADS /\
    get_example_payload "quality_first" "Explain machine learning" = inr p /\
    from_json fs js = Some (inr (obj_of p)).
Proof.
  intros Hf. destruct strategies_loop_catalogue as (out & Hout & Hlen).
  set (p := MkEventPayload "Explain machine learning"
              ["claude-3-5-sonnet"; "gpt-4o"; "claude-3-5-sonnet-bedrock"; "gpt-4o-mini"] 4000 float_0_7 None).
  assert (Hp : get_example_payload "quality_first" "Explain machine learning" = inr p) by reflexivity.
  destruct (to_json_int fr p) as [js Hjs]. unfold int_repr in Hjs. rewrite decide_False in Hjs by by_decide.
  exists (("Example Event Payloads:" +:+ newline) :: out), js, p.
  split; [unfold payload_main; by rewrite Hout, Hp, Hjs|].
  split; [cbn [length]; lia|]. split; [exact Hp|].
  unfold from_json.
  by rewrite (reads_back_loads fs js _ (iterencode_reads_back fr fs _ 0 js (to_dict_json_ok fr fs p Hf) Hjs)).
Qed.

(** Witness of [payload_main_json], with the [repr] and [float] of the
    JSON examples. *)
Lemma payload_main_json_witness :
  float_ok Example.repr_07 Example.float_07 float_0_7 /\
  exists out js p, payload_main Example.repr_07 = (out ++ ["JSON Example:"; js], None) /\
    length out = 1 + 4 * length EXAMPLE_PAYLOADS /\
    get_example_payload "quality_first" "Explain machine learning" = inr p /\
    from_json Example.float_07 js = Some (inr (obj_of p)).
Proof.
  assert (Hf : float_ok Example.repr_07 Example.float_07 float_0_7) by (split; vm_compute; reflexivity).
  split; [exact Hf | exact (payload_main_json _ _ Hf)].
Defined.

End ScriptMains.
