(* ===== verification/LlmHandler.v ===== *)
(** * The fallback execution engine ([src/llm_handler.py])

    [SimpleLLMHandler.process] walks [payload.models] in order; for each
    key it logs the attempt, calls [_call_model], appends one attempt
    record, and returns a [SimpleResponse] on the first success.  When
    the list is exhausted it returns a failed response with the message
    ["All N models failed"].  [_call_model] resolves the key through the
    registry (outside its [try], so an unknown key raises [ValueError]
    out of [process]), then calls LiteLLM inside a [try] that turns every
    failure into a failure record.

    LiteLLM is the provider adapter: the class [LiteLLM W] gives its two
    entry points over a world [W] (network, quotas, provider state) that
    each call may change.  Every theorem of this file holds for every
    instance.  The computations run in the [PyM] monad of the prelude,
    whose state is the world and the structured log ([log_line], one
    constructor per [logger] call of the source). *)

From Stdlib Require Import SpecFloat ZArith.
From S2P Require Import Prelude PyDict AvailableModels EventPayload.
Import AvailableModels EventPayload.

Module LlmHandler.

(** ** The provider adapter: LiteLLM *)

(** [{"role": "user", "content": prompt}] *)
Record chat_message := ChatMessage { role : string; msg_content : string }.

(** What [_call_model] reads of a [completion] response: the contents of
    [response.choices[i].message] ([None] for a message without
    content) and the outcome of turning [response.usage] into a dict
    ([_asdict()] or [dict(...)], which may raise). *)
Record completion_response := CompletionResponse {
  resp_choices : list (option string);
  resp_usage : py_exc + dict Z
}.

Class LiteLLM (W : Type) := {
  (** [litellm.completion(model=..., messages=..., max_tokens=..., temperature=...)] *)
  completion : string -> list chat_message -> Z -> spec_float -> W ->
               (py_exc + completion_response) * W;
  (** [litellm.completion_cost(completion_response=response)] *)
  completion_cost : completion_response -> W -> (py_exc + spec_float) * W
}.

(** ** The structured log *)

Inductive log_line :=
  | LogHandlerInit (n_models : nat)
  | LogTrying (model_name : string)
  | LogModelSuccessful (model_name : string)
  | LogModelFailed (error_msg : string)
  | LogProcessing (request_id : option string)
  | LogPrompt (preview : string)
  | LogModelOrder (models : list string)
  | LogPrimary (model_name : string)
  | LogFallback (index : nat) (model_name : string)
  | LogSuccessWith (model_name : string)
  | LogAllFailed (error_msg : string).

(** ** Results *)

(** The dict [_call_model] returns. *)
Inductive call_result :=
  | CallSuccess (content : option string) (model_used : string)
                (usage : dict Z) (cost : option spec_float)
  | CallFailure (error : string).

(** The value of [attempts[i]['status']]. *)
Inductive attempt_status := StatusSuccess | StatusFailed.

#[export] Instance attempt_status_eq_dec : EqDecision attempt_status.
Proof. solve_decision. Defined.

(** One entry of [attempts]: [{'model', 'name', 'status', 'error'}]. *)
Record attempt := Attempt {
  att_model : string;
  att_name : string;
  att_status : attempt_status;
  att_error : string
}.

(** The dataclass [SimpleResponse]. *)
Record SimpleResponse := MkSimpleResponse {
  success : bool;
  content : option string;
  model_used : option string;
  cost : option spec_float;
  usage : option (dict Z);
  error : option string;
  attempts : option (list attempt)
}.

Section Handler.
Context {W : Type} `{!LiteLLM W}.
Context (m : models_module).


Local Open Scope py_scope.

(** [response.choices[0].message.content] *)
Definition first_choice_content (r : completion_response) : py_exc + option string :=
  match resp_choices r with
  | c :: _ => inr c
  | [] => inl (PyExc IndexError "list index out of range")
  end.

(** The body of the [try] of [_call_model] after its log line: the
    call, the extraction of content and usage, and the best-effort
    cost ([except: pass] leaves [cost = None]). *)
Definition litellm_call (model_id prompt : string) (max_tokens : Z)
           (temperature : spec_float) : PyM W log_line call_result :=
  response <- pcall (completion model_id [ChatMessage "user" prompt] max_tokens temperature) ;;
  content <- of_sum (first_choice_content response) ;;
  usage <- of_sum (resp_usage response) ;;
  cost <- ptry (c <- pcall (completion_cost response) ;; pret (Some c))
               (fun _ => pret None) ;;
  pret (CallSuccess content model_id usage cost).

(** [f"{model_name} failed: {str(e)}"] *)
Definition failed_msg (model_name : string) (e : py_exc) : string :=
  model_name +:+ " failed: " +:+ exc_str e.

(** [_call_model]: [get_model_id] runs before the [try]. *)
Definition _call_model (model_key prompt : string) (max_tokens : Z)
           (temperature : spec_float) : PyM W log_line call_result :=
  model_id <- of_sum (get_model_id m model_key) ;;
  let model_name := get_model_name m model_key in
  ptry (emit (LogTrying model_name) ;;;
        r <- litellm_call model_id prompt max_tokens temperature ;;
        emit (LogModelSuccessful model_name) ;;;
        pret r)
       (fun e => emit (LogModelFailed (failed_msg model_name e)) ;;;
                 pret (CallFailure (failed_msg model_name e))).

(** [attempts.append({...})] for one result. *)
Definition attempt_of (model_key model_name : string) (r : call_result) : attempt :=
  match r with
  | CallSuccess _ _ _ _ => Attempt model_key model_name StatusSuccess ""
  | CallFailure err => Attempt model_key model_name StatusFailed err
  end.

(** [payload.prompt[:100]] followed by ['...'] when the prompt is
    longer (lengths in characters; the model's strings are 8-bit). *)
Definition prompt_preview (p : string) : string :=
  String.substring 0 100 p +:+ (if decide (100 < String.length p) then "..." else "").

(** The line logged before attempt [i]: primary or fallback number [i]. *)
Definition attempt_line (i : nat) (model_name : string) : log_line :=
  if decide (i = 0) then LogPrimary model_name else LogFallback i model_name.

(** The loop of [process] from index [i]: [inl] is the early
    [return], [inr] the attempts when the loop falls through. *)
Fixpoint process_loop (payload : EventPayload) (i : nat) (keys : list string)
         (atts : list attempt) : PyM W log_line (SimpleResponse + list attempt) :=
  match keys with
  | [] => pret (inr atts)
  | model_key :: rest =>
      let model_name := get_model_name m model_key in
      emit (attempt_line i model_name) ;;;
      result <- _call_model model_key (prompt payload) (max_tokens payload)
                            (temperature payload) ;;
      let atts' := atts ++ [attempt_of model_key model_name result] in
      match result with
      | CallSuccess c _ u co =>
          emit (LogSuccessWith model_name) ;;;
          pret (inl (MkSimpleResponse true c (Some model_key) co (Some u) None (Some atts')))
      | CallFailure _ => process_loop payload (S i) rest atts'
      end
  end.

(** [f"All {len(payload.models)} models failed"] *)
Definition all_failed_msg (n : nat) : string :=
  "All " +:+ str_of_nat n +:+ " models failed".

(** The end of [process] after its loop: the early return, or the
    failed response when the loop fell through. *)
Definition process_tail (payload : EventPayload) (r : SimpleResponse + list attempt)
  : PyM W log_line SimpleResponse :=
  match r with
  | inl resp => pret resp
  | inr atts =>
      let error_msg := all_failed_msg (length (models payload)) in
      emit (LogAllFailed error_msg) ;;;
      pret (MkSimpleResponse false None None None None (Some error_msg) (Some atts))
  end.

(** [process] *)
Definition process (payload : EventPayload) : PyM W log_line SimpleResponse :=
  emit (LogProcessing (request_id payload)) ;;;
  emit (LogPrompt (prompt_preview (prompt payload))) ;;;
  emit (LogModelOrder (models payload)) ;;;
  r <- process_loop payload 0 (models payload) [] ;;
  process_tail payload r.
End Handler.

(** ** Construction: [__init__] and [_setup_api_keys] *)

Definition api_key_names : list string :=
  ["OPENAI_API_KEY"; "ANTHROPIC_API_KEY"; "COHERE_API_KEY"; "GOOGLE_API_KEY";
   "AWS_ACCESS_KEY_ID"; "AWS_SECRET_ACCESS_KEY"; "AWS_SESSION_TOKEN"].

(** [_setup_api_keys]: read every name with [os.getenv] first, then
    write back each value that is set and non-empty. *)
Definition _setup_api_keys (environ : dict string) : dict string :=
  let api_keys := map (fun k => (k, dict_lookup k environ)) api_key_names in
  fold_left (fun env '(k, v) =>
               match v with
               | Some value => if decide (value = "") then env else dict_setitem k value env
               | None => env
               end) api_keys environ.

(** [SimpleLLMHandler()]: the environment after construction and the
    log line it writes. *)
Definition handler_init (m : models_module) (environ : dict string) : dict string * log_line :=
  (_setup_api_keys environ, LogHandlerInit (length (AVAILABLE_MODELS m))).

(** [_setup_api_keys] writes back the values it read. *)
Lemma setup_api_keys_id environ : _setup_api_keys environ = environ.
Proof.
  unfold _setup_api_keys.
  induction api_key_names as [|k ks IH]; simpl; [done|].
  destruct (dict_lookup k environ) as [v|] eqn:E; [|exact IH].
  case_decide; [exact IH|]. by rewrite dict_setitem_lookup_id.
Qed.

(** C37: Constructing the handler leaves [os.environ] exactly as it was:
    [_setup_api_keys] reads each of the seven credential variables and
    writes back the value it read; the constructor's only effect is its
    log line with the number of available models. *)
Theorem handler_init_environ m environ :
  handler_init m environ = (environ, LogHandlerInit (length (AVAILABLE_MODELS m))).
Proof. unfold handler_init. by rewrite setup_api_keys_id. Qed.

(** ** Running the handler *)

Section Run.
Context {W : Type} `{!LiteLLM W}.
Context (m : models_module).

(** The result and final world of one [_call_model] for [key] with the
    parameters of [p], from world [w]. *)
Definition call_outcome (p : EventPayload) (key : string) (w : W)
  : (py_exc + call_result) * W :=
  let '(r, s) := run (_call_model m key (prompt p) (max_tokens p) (temperature p)) w in
  (r, py_world s).

(** [fail_run p keys w errs w']: the calls for [keys], made in order
    from world [w], all return failure records with messages [errs],
    and leave world [w']. *)
Inductive fail_run (p : EventPayload) : list string -> W -> list string -> W -> Prop :=
  | fail_run_nil w : fail_run p [] w [] w
  | fail_run_cons k ks w w1 w2 err errs :
      call_outcome p k w = (inr (CallFailure err), w1) ->
      fail_run p ks w1 errs w2 ->
      fail_run p (k :: ks) w (err :: errs) w2.

(** The attempt records of failed calls. *)
Definition failed_attempts (keys errs : list string) : list attempt :=
  zip_with (fun k e => Attempt k (get_model_name m k) StatusFailed e) keys errs.

Lemma litellm_call_frame id pr mt t : log_frame (W:=W) (litellm_call id pr mt t).
Proof. unfold litellm_call. solve_log_frame. Qed.

Lemma call_model_frame k pr mt t : log_frame (_call_model m k pr mt t).
Proof. unfold _call_model. pose proof litellm_call_frame. solve_log_frame. Qed.

Lemma process_loop_frame p keys : forall i atts, log_frame (process_loop m p i keys atts).
Proof.
  induction keys as [|k keys IH]; intros i atts; simpl; [solve_log_frame|].
  pose proof call_model_frame. solve_log_frame.
Qed.

(** [litellm_call] logs nothing. *)
Lemma litellm_call_log id pr mt t w r w' l :
  run (W:=W) (litellm_call id pr mt t) w = (r, PyState w' l) -> l = [].
Proof.
  unfold run, litellm_call, pbind, pcall, ptry, of_sum, pret, praise; simpl.
  repeat case_match; intros; simplify_eq; done.
Qed.

(** [litellm_call] only ever returns success records for its model id. *)
Lemma litellm_call_result id pr mt t w r s :
  run (W:=W) (litellm_call id pr mt t) w = (inr r, s) ->
  exists c u co, r = CallSuccess c id u co.
Proof.
  unfold run, litellm_call, pbind, pcall, ptry, of_sum, pret, praise; simpl.
  repeat case_match; intros; simplify_eq; eauto.
Qed.

(** [_call_model] on a registered key: two log lines around the LiteLLM
    part, whose exception becomes a failure record; nothing escapes. *)
Lemma call_model_registered k id pr mt t w l :
  dict_lookup k (AVAILABLE_MODELS m) = Some id ->
  _call_model m k pr mt t (PyState w l) =
    match run (litellm_call id pr mt t) w with
    | (inr r, s) =>
        (inr r, PyState (py_world s)
                  (l ++ [LogTrying (get_model_name m k);
                         LogModelSuccessful (get_model_name m k)]))
    | (inl e, s) =>
        (inr (CallFailure (failed_msg (get_model_name m k) e)),
         PyState (py_world s)
           (l ++ [LogTrying (get_model_name m k);
                  LogModelFailed (failed_msg (get_model_name m k) e)]))
    end.
Proof.
  intros Hk. unfold _call_model. rewrite pbind_frame_of_sum, (get_model_id_lookup _ _ _ Hk).
  unfold ptry. rewrite pbind_emit.
  destruct (run (litellm_call id pr mt t) w) as [[e|r] [w0 l0]] eqn:E;
    erewrite pbind_frame by (apply litellm_call_frame || exact E);
    rewrite (litellm_call_log _ _ _ _ _ _ _ _ E); simpl; rewrite ?pbind_emit; simpl;
    by rewrite ?app_nil_r, <- ?app_assoc.
Qed.

(** A failing call for a key: its run and its two log lines. *)
Lemma call_outcome_failure p k w err w' :
  call_outcome p k w = (inr (CallFailure err), w') ->
  run (_call_model m k (prompt p) (max_tokens p) (temperature p)) w =
    (inr (CallFailure err),
     PyState w' [LogTrying (get_model_name m k); LogModelFailed err]).
Proof.
  unfold call_outcome, run.
  destruct (dict_lookup k (AVAILABLE_MODELS m)) as [id|] eqn:Hid.
  - rewrite (call_model_registered _ _ _ _ _ _ _ Hid).
    destruct (run (litellm_call _ _ _ _) w) as [[e|r] [w0 l0]] eqn:E; simpl.
    + intros [= <- <-]. reflexivity.
    + destruct (litellm_call_result _ _ _ _ _ _ _ E) as (? & ? & ? & ->). done.
  - unfold _call_model. rewrite pbind_frame_of_sum, (get_model_id_None _ _ Hid). done.
Qed.

(** A successful call for a key: its run and its two log lines. *)
Lemma call_outcome_success p k w c id u co w' :
  call_outcome p k w = (inr (CallSuccess c id u co), w') ->
  run (_call_model m k (prompt p) (max_tokens p) (temperature p)) w =
    (inr (CallSuccess c id u co),
     PyState w' [LogTrying (get_model_name m k); LogModelSuccessful (get_model_name m k)]).
Proof.
  unfold call_outcome, run.
  destruct (dict_lookup k (AVAILABLE_MODELS m)) as [id'|] eqn:Hid.
  - rewrite (call_model_registered _ _ _ _ _ _ _ Hid).
    destruct (run (litellm_call _ _ _ _) w) as [[e|r] [w0 l0]]; simpl; [done|].
    intros [= <- <-]. reflexivity.
  - unfold _call_model. rewrite pbind_frame_of_sum, (get_model_id_None _ _ Hid). done.
Qed.

Lemma fail_run_length p keys w errs w' : fail_run p keys w errs w' -> length errs = length keys.
Proof. induction 1; simpl; lia. Qed.

(** The log lines of attempts [i], [i+1], ... that failed with [errs]. *)
Fixpoint failed_logs (i : nat) (keys errs : list string) : list log_line :=
  match keys, errs with
  | k :: ks, e :: es =>
      [attempt_line i (get_model_name m k); LogTrying (get_model_name m k); LogModelFailed e]
        ++ failed_logs (S i) ks es
  | _, _ => []
  end.

(** The loop over a prefix of failing calls: one failed record and three
    log lines per call, in order. *)
Lemma process_loop_fail_run p pre w errs w1 :
  fail_run p pre w errs w1 ->
  forall rest i atts l,
    process_loop m p i (pre ++ rest) atts (PyState w l) =
    process_loop m p (i + length pre) rest (atts ++ failed_attempts pre errs)
                 (PyState w1 (l ++ failed_logs i pre errs)).
Proof.
  induction 1 as [w|k ks w w1 w2 err errs Hk Hks IH]; intros rest i atts l.
  - simpl. by rewrite Nat.add_0_r, !app_nil_r.
  - cbn [app process_loop]. rewrite pbind_emit. simpl.
    erewrite pbind_frame by (apply call_model_frame || exact (call_outcome_failure _ _ _ _ _ Hk)).
    simpl. rewrite IH. cbn [length failed_logs failed_attempts zip_with].
    replace (S i + length ks) with (i + S (length ks)) by lia.
    by rewrite <- !app_assoc.
Qed.

(** One step of the loop on a successful call. *)
Lemma process_loop_success_step p i k rest atts w l c id u co w' :
  call_outcome p k w = (inr (CallSuccess c id u co), w') ->
  process_loop m p i (k :: rest) atts (PyState w l) =
    (inr (inl (MkSimpleResponse true c (Some k) co (Some u) None
                 (Some (atts ++ [Attempt k (get_model_name m k) StatusSuccess ""])))),
     PyState w' (l ++ [attempt_line i (get_model_name m k); LogTrying (get_model_name m k);
                       LogModelSuccessful (get_model_name m k);
                       LogSuccessWith (get_model_name m k)])).
Proof.
  intros Hk. cbn [process_loop]. rewrite pbind_emit. simpl.
  erewrite pbind_frame by (apply call_model_frame || exact (call_outcome_success _ _ _ _ _ _ _ _ Hk)).
  simpl. rewrite pbind_emit. simpl. by rewrite <- !app_assoc.
Qed.

(** One step of the loop on an unregistered key: [ValueError]. *)
Lemma process_loop_raise_step p i k rest atts w l :
  ~ registered m k ->
  process_loop m p i (k :: rest) atts (PyState w l) =
    (inl (PyExc ValueError (unknown_model_msg m k)),
     PyState w (l ++ [attempt_line i (get_model_name m k)])).
Proof.
  intros Hk. cbn [process_loop]. rewrite pbind_emit. simpl.
  unfold pbind at 1, _call_model. by rewrite get_model_id_unregistered.
Qed.

(** The three lines [process] logs before its loop. *)
Definition opening_log (p : EventPayload) : list log_line :=
  [LogProcessing (request_id p); LogPrompt (prompt_preview (prompt p));
   LogModelOrder (models p)].

(** [process] is its three opening log lines, then the loop, then the
    fall-through. *)
Lemma run_process p w :
  run (process m p) w =
    pbind (process_loop m p 0 (models p) []) (process_tail p) (PyState w (opening_log p)).
Proof. reflexivity. Qed.
(** The loop invariant of [process]: a return from the loop carries
    the attempts made before it followed by one record per model tried,
    in list order, all failed but a final success; a fall-through
    carries one failed record per model. *)
Lemma process_loop_attempts p keys : forall i atts st r st',
  process_loop m p i keys atts st = (inr r, st') ->
  match r with
  | inl resp => exists pre k post new,
      keys = pre ++ k :: post /\ attempts resp = Some (atts ++ new) /\
      map att_model new = pre ++ [k] /\
      map att_status new = replicate (length pre) StatusFailed ++ [StatusSuccess] /\
      success resp = true /\ model_used resp = Some k
  | inr atts' => exists new, atts' = atts ++ new /\ map att_model new = keys /\
      map att_status new = replicate (length keys) StatusFailed
  end.
Proof.
  induction keys as [|k rest IH]; intros i atts [w l] r st' H; cbn [process_loop] in H.
  - injection H as <- <-. exists []. by rewrite app_nil_r.
  - rewrite pbind_emit in H. unfold pbind at 1 in H.
    destruct (_call_model m k _ _ _ _) as [[e|[c id u co|err]] st1]; [done| |].
    + rewrite pbind_emit in H. injection H as <- <-.
      exists [], k, rest, [attempt_of k (get_model_name m k) (CallSuccess c id u co)].
      done.
    + apply IH in H. destruct r as [resp|atts'].
      * destruct H as (pre & k' & post & new & -> & Ha & Hm & Hs & Hsu & Hu).
        exists (k :: pre), k', post, (attempt_of k (get_model_name m k) (CallFailure err) :: new).
        rewrite Ha, <- app_assoc; simpl. by rewrite Hm, Hs.
      * destruct H as (new & -> & Hm & Hs).
        exists (attempt_of k (get_model_name m k) (CallFailure err) :: new).
        rewrite <- app_assoc; simpl. by rewrite Hm, Hs.
Qed.

(** Two registries with equal dicts give the same call for a key the
    first one registers, and the same loop over registered keys. *)
Lemma call_model_equiv m' k pr mt t :
  models_equiv m m' -> registered m k -> _call_model m k pr mt t = _call_model m' k pr mt t.
Proof.
  intros He Hk. unfold _call_model.
  by rewrite (get_model_id_equiv _ _ _ He Hk), (get_model_name_proper _ _ He k k eq_refl).
Qed.

Lemma process_loop_equiv m' p i keys atts s :
  models_equiv m m' -> Forall (registered m) keys ->
  process_loop m p i keys atts s = process_loop m' p i keys atts s.
Proof.
  intros He Hks. revert i atts s. induction Hks as [|k keys Hk _ IH]; intros i atts s; [done|].
  cbn [process_loop]. rewrite (get_model_name_proper _ _ He k k eq_refl).
  apply pbind_ext; [done|]. intros [] s'. rewrite (call_model_equiv m'); [|done..].
  apply pbind_ext; [done|]. by intros [c id u co|e] s''.
Qed.

End Run.

(** ** Properties of [process] *)

Section Properties.
Context {W : Type} `{!LiteLLM W}.
Context (m : models_module).

(** C1: ordered fallback: when the calls for the models before [k] all
    fail and the call for [k] succeeds, [process] returns a successful
    response whose [model_used] is [k], whose content, usage and cost
    are those of [k]'s call, and whose attempts are one failed record
    per earlier model (with its error message), in list order,
    followed by one success record for [k]; the models after [k] are
    never tried (the world is the one [k]'s call left). *)
Theorem process_fallback_success p pre k post w errs w1 c id u co w2 :
  models p = pre ++ k :: post ->
  fail_run m p pre w errs w1 ->
  call_outcome m p k w1 = (inr (CallSuccess c id u co), w2) ->
  exists s, run (process m p) w =
    (inr (MkSimpleResponse true c (Some k) co (Some u) None
            (Some (failed_attempts m pre errs ++
                     [Attempt k (get_model_name m k) StatusSuccess ""]))), s)
    /\ py_world s = w2.
Proof.
  intros Hm Hf Hk. rewrite run_process, Hm. unfold pbind at 1.
  rewrite (process_loop_fail_run m _ _ _ _ _ Hf (k :: post) 0 [] (opening_log p)).
  rewrite (process_loop_success_step m p _ k post _ _ _ _ _ _ _ _ Hk).
  by eexists.
Qed.

(** C4: exhaustion: when every call fails, [process] returns an
    unsuccessful response with [error = "All N models failed"] for
    [N = len(payload.models)], no content and no model, and one failed
    attempt per model, in list order (an empty model list included:
    ["All 0 models failed"] with no attempt). *)
Theorem process_all_fail p w errs w' :
  fail_run m p (models p) w errs w' ->
  exists s, run (process m p) w =
    (inr (MkSimpleResponse false None None None None
            (Some (all_failed_msg (length (models p))))
            (Some (failed_attempts m (models p) errs))), s)
    /\ py_world s = w'.
Proof.
  intros Hf. rewrite run_process. unfold pbind at 1.
  pose proof (process_loop_fail_run m _ _ _ _ _ Hf [] 0 [] (opening_log p)) as E.
  rewrite app_nil_r in E. rewrite E. simpl. by eexists.
Qed.

(** C5: an unknown model key aborts the run: when the calls before an
    unregistered key [k] fail, [process] raises [ValueError] with the
    registry's message instead of recording a failed attempt and going
    on to the next model; the attempts made so far are lost. *)
Theorem process_unknown_model_raises p pre k post w errs w1 :
  models p = pre ++ k :: post ->
  fail_run m p pre w errs w1 ->
  ~ registered m k ->
  exists s, run (process m p) w = (inl (PyExc ValueError (unknown_model_msg m k)), s).
Proof.
  intros Hm Hf Hk. rewrite run_process, Hm. unfold pbind at 1.
  rewrite (process_loop_fail_run m _ _ _ _ _ Hf (k :: post) 0 [] (opening_log p)).
  rewrite (process_loop_raise_step m p _ k post _ _ _ Hk).
  by eexists.
Qed.

(** C7: the log of a run that falls back to [k]: the three opening lines
    (request id, prompt preview, model order), then for each failed
    model, in order, its primary/fallback line, its [Trying] line and
    its failure line, then for [k] its fallback line, [Trying],
    [successful] and [Success with]; and the final world is the one
    [k]'s call left. *)
Theorem process_log_fallback_success p pre k post w errs w1 c id u co w2 :
  models p = pre ++ k :: post ->
  fail_run m p pre w errs w1 ->
  call_outcome m p k w1 = (inr (CallSuccess c id u co), w2) ->
  snd (run (process m p) w) =
    PyState w2 (opening_log p ++ failed_logs m 0 pre errs ++
                [attempt_line (length pre) (get_model_name m k); LogTrying (get_model_name m k);
                 LogModelSuccessful (get_model_name m k); LogSuccessWith (get_model_name m k)]).
Proof.
  intros Hm Hf Hk. rewrite run_process, Hm. unfold pbind at 1.
  rewrite (process_loop_fail_run m _ _ _ _ _ Hf (k :: post) 0 [] (opening_log p)).
  rewrite (process_loop_success_step m p _ k post _ _ _ _ _ _ _ _ Hk).
  simpl. by rewrite <- ?app_assoc.
Qed.

(** C14: the log of an exhausted run: the three opening lines, three
    lines per failed model in list order (primary/fallback, [Trying],
    failure message), then the ["All N models failed"] line. *)
Theorem process_log_all_fail p w errs w' :
  fail_run m p (models p) w errs w' ->
  snd (run (process m p) w) =
    PyState w' (opening_log p ++ failed_logs m 0 (models p) errs ++
                [LogAllFailed (all_failed_msg (length (models p)))]).
Proof.
  intros Hf. rewrite run_process. unfold pbind at 1.
  pose proof (process_loop_fail_run m _ _ _ _ _ Hf [] 0 [] (opening_log p)) as E.
  rewrite app_nil_r in E. rewrite E. simpl. by rewrite <- ?app_assoc.
Qed.


(** C6: on a registered key, [_call_model] never raises: it returns a
    success record carrying the key's LiteLLM id, or a failure record
    whose message is the display name, [" failed: "], and the text of
    the exception LiteLLM raised (not that text alone). *)
Theorem call_model_spec k id pr mt t w l :
  dict_lookup k (AVAILABLE_MODELS m) = Some id ->
  exists r w' l', _call_model m k pr mt t (PyState w l) = (inr r, PyState w' l') /\
    ((exists c u co, r = CallSuccess c id u co) \/
     (exists e, r = CallFailure (get_model_name m k +:+ " failed: " +:+ exc_str e))).
Proof.
  intros Hk. rewrite (call_model_registered m k id pr mt t w l Hk).
  destruct (run (litellm_call id pr mt t) w) as [[e|r] s] eqn:E.
  - do 3 eexists. split; [reflexivity | right; by exists e].
  - do 3 eexists. split; [reflexivity | left; by eapply litellm_call_result].
Qed.
(** C3: the attempt history of every response [process] returns, for
    any provider and any registry: its models are a prefix of
    [payload.models] (each model tried at most once, in order, none
    skipped); on success all records are failures but the last, a
    success for [model_used]; on failure there is one failed record per
    model and the error counts them. *)
Theorem process_attempts_invariant p w r s :
  run (process m p) w = (inr r, s) ->
  exists atts, attempts r = Some atts /\
    map att_model atts `prefix_of` models p /\
    (if success r
     then map att_status atts = replicate (length atts - 1) StatusFailed ++ [StatusSuccess] /\
          model_used r = last (map att_model atts)
     else map att_model atts = models p /\
          map att_status atts = replicate (length atts) StatusFailed /\
          error r = Some (all_failed_msg (length atts))).
Proof.
  rewrite run_process. unfold pbind at 1.
  destruct (process_loop m p 0 (models p) [] _) as [[e|[resp|atts]] st] eqn:E; [done| |];
    apply process_loop_attempts in E.
  - intros [= <- <-].
    destruct E as (pre & k & post & new & Hk & -> & Hm & Hs & -> & ->).
    exists new. rewrite Hm, Hk, last_snoc. split; [done|]. split; [by exists post; rewrite <- app_assoc|].
    apply (f_equal length) in Hm. rewrite length_map, length_app in Hm. simpl in Hm.
    split; [|done]. by replace (length new - 1) with (length pre) by lia.
  - destruct E as (new & -> & Hm & Hs). cbn [process_tail]. rewrite pbind_emit.
    intros [= <- <-]. exists new. simpl.
    apply (f_equal length) in Hm as Hl. rewrite length_map in Hl.
    rewrite Hm, Hs, Hl. done.
Qed.
(** C34: the prompt line of the log is bounded: a prompt of at most 100
    characters is logged whole, a longer one as its first 100
    characters followed by ["..."], 103 characters in all. *)
Theorem prompt_preview_spec pr :
  (String.length pr <= 100 -> prompt_preview pr = pr) /\
  (100 < String.length pr ->
     prompt_preview pr = String.substring 0 100 pr +:+ "..." /\
     String.length (prompt_preview pr) = 103).
Proof.
  unfold prompt_preview. split; intros Hl; case_decide; try lia.
  - by rewrite substring_0_full, string_app_nil_r.
  - split; [done|]. by rewrite string_length_app, substring_0_length, Nat.min_l by lia.
Qed.

(** C13: the handler reads the registry by key only: for two registries
    whose dicts are equal in Python's sense (the same values for the
    same keys, in any insertion order), [process] on a request whose
    keys are all registered gives the same response, the same log and
    the same provider calls. *)
Theorem process_registry_equiv m' p w :
  models_equiv m m' -> Forall (registered m) (models p) ->
  run (process m p) w = run (process m' p) w.
Proof.
  intros He Hks. unfold run, process. pym_run.
  apply pbind_ext; [intros s; by apply process_loop_equiv | done].
Qed.
End Properties.

(** ** The example scenarios of the spec

    A provider world that records the model ids called, in order; the
    model id ["fast-fail"] always errors, every other model answers
    ["OK"]; no model has a price, so [completion_cost] raises. *)
Module Scenario.
Definition calls := list string.

#[export] Instance scenario_llm : LiteLLM calls := {|
  completion id _ _ _ w :=
    (if decide (id = "fast-fail") then inl (PyExc Exception "503 Service Unavailable")
     else inr (CompletionResponse [Some "OK"] (inr [("total_tokens", 3%Z)])),
     w ++ [id]);
  completion_cost _ w := (inl (PyExc Exception "model not mapped"), w)
|}.

(** A registry that knows the scenario's keys (no display names);
    ["slow-success"] has a provider id other than its key. *)
Definition scenario_models : models_module :=
  ModelsModule [("fast-fail", "fast-fail"); ("slow-success", "prov/slow-success");
                ("only-one", "fast-fail")] [].

Definition req_two : EventPayload := mk_payload "X" ["fast-fail"; "slow-success"].
Definition req_one : EventPayload := mk_payload "X" ["only-one"].
Definition req_unknown : EventPayload := mk_payload "X" ["fast-fail"; "gpt-5"; "slow-success"].

Definition ok_usage : dict Z := [("total_tokens", 3%Z)].

Definition fast_fail_err : string := "fast-fail failed: 503 Service Unavailable".

(** The same registry with its entries in the opposite order. *)
Definition scenario_models_rev : models_module :=
  ModelsModule (rev (AVAILABLE_MODELS scenario_models)) [].
End Scenario.

Import Scenario.

(** Witness of [process_fallback_success]: ["fast-fail"] fails, then
    ["slow-success"] answers ["OK"]; the third model is never called. *)
Lemma process_fallback_success_witness :
  models req_two = ["fast-fail"] ++ "slow-success" :: [] /\
  fail_run scenario_models req_two ["fast-fail"] [] [fast_fail_err] ["fast-fail"] /\
  call_outcome scenario_models req_two "slow-success" ["fast-fail"] =
    (inr (CallSuccess (Some "OK") "prov/slow-success" ok_usage None), ["fast-fail"; "prov/slow-success"]) /\
  exists s, run (process scenario_models req_two) [] =
    (inr (MkSimpleResponse true (Some "OK") (Some "slow-success") None (Some ok_usage) None
            (Some (failed_attempts scenario_models ["fast-fail"] [fast_fail_err] ++
                   [Attempt "slow-success" "slow-success" StatusSuccess ""]))), s)
    /\ py_world s = ["fast-fail"; "prov/slow-success"].
Proof.
  assert (Hf : fail_run scenario_models req_two ["fast-fail"] [] [fast_fail_err] ["fast-fail"]).
  { econstructor; [reflexivity | constructor]. }
  split; [reflexivity | split; [exact Hf | split; [reflexivity |]]].
  exact (process_fallback_success scenario_models req_two ["fast-fail"] "slow-success" []
           [] [fast_fail_err] ["fast-fail"] (Some "OK") "prov/slow-success" ok_usage None
           ["fast-fail"; "prov/slow-success"] eq_refl Hf eq_refl).
Defined.

(** Witness of [process_all_fail]: the spec's ["only-one"] scenario. *)
Lemma process_all_fail_witness :
  fail_run scenario_models req_one ["only-one"] [] ["only-one failed: 503 Service Unavailable"]
           ["fast-fail"] /\
  exists s, run (process scenario_models req_one) [] =
    (inr (MkSimpleResponse false None None None None (Some (all_failed_msg 1))
            (Some [Attempt "only-one" "only-one" StatusFailed
                     "only-one failed: 503 Service Unavailable"])), s)
    /\ py_world s = ["fast-fail"].
Proof.
  assert (Hf : fail_run scenario_models req_one ["only-one"] []
                 ["only-one failed: 503 Service Unavailable"] ["fast-fail"]).
  { econstructor; [reflexivity | constructor]. }
  split; [exact Hf|].
  exact (process_all_fail scenario_models req_one [] _ ["fast-fail"] Hf).
Defined.

(** Witness of [process_unknown_model_raises]: ["gpt-5"] is not
    registered; ["slow-success"] after it is never tried. *)
Lemma process_unknown_model_raises_witness :
  models req_unknown = ["fast-fail"] ++ "gpt-5" :: ["slow-success"] /\
  fail_run scenario_models req_unknown ["fast-fail"] [] [fast_fail_err] ["fast-fail"] /\
  ~ registered scenario_models "gpt-5" /\
  exists s, run (process scenario_models req_unknown) [] =
    (inl (PyExc ValueError (unknown_model_msg scenario_models "gpt-5")), s).
Proof.
  assert (Hf : fail_run scenario_models req_unknown ["fast-fail"] [] [fast_fail_err] ["fast-fail"]).
  { econstructor; [reflexivity | constructor]. }
  assert (Hk : ~ registered scenario_models "gpt-5") by by_decide.
  split; [reflexivity | split; [exact Hf | split; [exact Hk |]]].
  exact (process_unknown_model_raises scenario_models req_unknown ["fast-fail"] "gpt-5"
           ["slow-success"] [] [fast_fail_err] ["fast-fail"] eq_refl Hf Hk).
Defined.

(** Witness of [process_log_fallback_success] on the two-model scenario. *)
Lemma process_log_fallback_success_witness :
  models req_two = ["fast-fail"] ++ "slow-success" :: [] /\
  fail_run scenario_models req_two ["fast-fail"] [] [fast_fail_err] ["fast-fail"] /\
  call_outcome scenario_models req_two "slow-success" ["fast-fail"] =
    (inr (CallSuccess (Some "OK") "prov/slow-success" ok_usage None), ["fast-fail"; "prov/slow-success"]) /\
  snd (run (process scenario_models req_two) []) =
    PyState ["fast-fail"; "prov/slow-success"]
      (opening_log req_two ++ failed_logs scenario_models 0 ["fast-fail"] [fast_fail_err] ++
       [attempt_line 1 "slow-success"; LogTrying "slow-success";
        LogModelSuccessful "slow-success"; LogSuccessWith "slow-success"]).
Proof.
  assert (Hf : fail_run scenario_models req_two ["fast-fail"] [] [fast_fail_err] ["fast-fail"]).
  { econstructor; [reflexivity | constructor]. }
  split; [reflexivity | split; [exact Hf | split; [reflexivity |]]].
  exact (process_log_fallback_success scenario_models req_two ["fast-fail"] "slow-success" []
           [] [fast_fail_err] ["fast-fail"] (Some "OK") "prov/slow-success" ok_usage None
           ["fast-fail"; "prov/slow-success"] eq_refl Hf eq_refl).
Defined.

(** Witness of [process_log_all_fail] on the one-model scenario. *)
Lemma process_log_all_fail_witness :
  fail_run scenario_models req_one ["only-one"] [] ["only-one failed: 503 Service Unavailable"]
           ["fast-fail"] /\
  snd (run (process scenario_models req_one) []) =
    PyState ["fast-fail"]
      (opening_log req_one ++
       failed_logs scenario_models 0 ["only-one"] ["only-one failed: 503 Service Unavailable"] ++
       [LogAllFailed (all_failed_msg 1)]).
Proof.
  assert (Hf : fail_run scenario_models req_one ["only-one"] []
                 ["only-one failed: 503 Service Unavailable"] ["fast-fail"]).
  { econstructor; [reflexivity | constructor]. }
  split; [exact Hf | exact (process_log_all_fail scenario_models req_one [] _ ["fast-fail"] Hf)].
Defined.

(** Witness of [call_model_spec]: the registered key ["fast-fail"]. *)
Lemma call_model_spec_witness :
  dict_lookup "fast-fail" (AVAILABLE_MODELS scenario_models) = Some "fast-fail" /\
  exists r w' l', _call_model scenario_models "fast-fail" "X" 4000 float_0_7 (PyState [] [])
                    = (inr r, PyState w' l') /\
    ((exists c u co, r = CallSuccess c "fast-fail" u co) \/
     (exists e, r = CallFailure (get_model_name scenario_models "fast-fail" +:+ " failed: "
                                   +:+ exc_str e))).
Proof.
  assert (H : dict_lookup "fast-fail" (AVAILABLE_MODELS scenario_models) = Some "fast-fail")
    by reflexivity.
  split; [exact H | exact (call_model_spec scenario_models _ _ "X" 4000 float_0_7 [] [] H)].
Defined.

(** Witness of [process_attempts_invariant]: the fallback run of the
    two-model scenario. *)
Lemma process_attempts_invariant_witness :
  exists r s, run (process scenario_models req_two) [] = (inr r, s) /\
  exists atts, attempts r = Some atts /\
    map att_model atts `prefix_of` models req_two /\
    (if success r
     then map att_status atts = replicate (length atts - 1) StatusFailed ++ [StatusSuccess] /\
          model_used r = last (map att_model atts)
     else map att_model atts = models req_two /\
          map att_status atts = replicate (length atts) StatusFailed /\
          error r = Some (all_failed_msg (length atts))).
Proof.
  do 2 eexists. split; [reflexivity|].
  eapply (process_attempts_invariant scenario_models req_two []). reflexivity.
Defined.

(** Witness of [prompt_preview_spec]: a short prompt and one of 101
    characters. *)
Lemma prompt_preview_spec_witness :
  String.length "short" <= 100 /\ prompt_preview "short" = "short" /\
  100 < String.length "0123456789012345678901234567890123456789012345678901234567890123456789012345678901234567890123456789!" /\
  String.length (prompt_preview "0123456789012345678901234567890123456789012345678901234567890123456789012345678901234567890123456789!") = 103.
Proof.
  assert (H1 : String.length "short" <= 100) by (simpl; lia).
  assert (H2 : 100 < String.length "0123456789012345678901234567890123456789012345678901234567890123456789012345678901234567890123456789!") by (simpl; lia).
  split; [exact H1 | split; [exact (proj1 (prompt_preview_spec _) H1) |]].
  split; [exact H2 | exact (proj2 (proj2 (prompt_preview_spec _) H2))].
Defined.

(** Witness of [process_registry_equiv]: the scenario registry and its
    reversal run the two-model request identically. *)
Lemma process_registry_equiv_witness :
  models_equiv scenario_models scenario_models_rev /\
  Forall (registered scenario_models) (models req_two) /\
  run (process scenario_models req_two) [] = run (process scenario_models_rev req_two) [].
Proof.
  assert (He : models_equiv scenario_models scenario_models_rev)
    by (split; apply dict_equiv_gmap; vm_compute; reflexivity).
  assert (Hk : Forall (registered scenario_models) (models req_two)) by by_decide.
  split; [exact He | split; [exact Hk | exact (process_registry_equiv scenario_models _ _ [] He Hk)]].
Defined.

End LlmHandler.
