(* ===== verification/HandlerProgress.v ===== *)
(** * Progress of the fallback loop ([src/llm_handler.py], [process])

    Two properties of [SimpleLLMHandler.process] that hold for every
    provider behaviour: liveness (when a model of the list is up,
    whatever the provider's state, the run succeeds, and with a model no
    later than that one) and a bound on the work it does (one call of
    [litellm.completion] per attempt recorded, so at most one per model
    of the list).  Calls are counted by [call_counter], a LiteLLM
    provider that wraps any other and counts its [completion] calls. *)

From Stdlib Require Import SpecFloat ZArith.
From S2P Require Import Prelude PyDict AvailableModels EventPayload LlmHandler.
Import AvailableModels EventPayload LlmHandler.

Module HandlerProgress.

(** The provider [P] with a counter of [completion] calls beside its
    world. *)
#[export] Instance call_counter {W : Type} `{P : !LiteLLM W} : LiteLLM (W * nat) := {|
  completion id msgs mt t ws :=
    let '(r, w') := completion id msgs mt t ws.1 in (r, (w', S ws.2));
  completion_cost resp ws := let '(r, w') := completion_cost resp ws.1 in (r, (w', ws.2))
|}.

(** The number of [completion] calls made so far, read off the counter. *)
Definition calls_made {W L : Type} (s : pystate (W * nat) L) : nat := (py_world s).2.

Section Liveness.
Context {W : Type} `{!LiteLLM W} (m : models_module).

(** A model is up when its call succeeds from every state of the
    provider. *)
Definition model_up (p : EventPayload) (k : string) : Prop :=
  forall w, exists c id u co w', call_outcome m p k w = (inr (CallSuccess c id u co), w').

Lemma call_outcome_registered p k w :
  registered m k -> exists r w', call_outcome m p k w = (inr r, w').
Proof.
  intros (id & Hid)%registered_lookup. unfold call_outcome, run.
  rewrite (call_model_registered m k id _ _ _ w [] Hid).
  destruct (run (litellm_call _ _ _ _) w) as [[e|r] s]; eauto.
Qed.

(** The loop reaches a model that is up, and stops at it or before. *)
Lemma process_loop_reaches_up p k keys :
  Forall (registered m) keys -> k ∈ keys -> model_up p k ->
  forall i atts w l, exists resp s,
    process_loop m p i keys atts (PyState w l) = (inr (inl resp), s) /\ success resp = true /\
    exists pre k' post, keys = pre ++ k' :: post /\ model_used resp = Some k' /\ k ∉ pre.
Proof.
  intros Hreg Hk Hup. induction keys as [|k0 rest IH]; [set_solver|].
  intros i atts w l. apply Forall_cons in Hreg as [H0 Hrest].
  destruct (call_outcome_registered p k0 w H0) as [[c id u co|err] [w' E]].
  - rewrite (process_loop_success_step m p i k0 rest atts w l _ _ _ _ _ E).
    do 2 eexists. split; [reflexivity|]. split; [done|].
    exists [], k0, rest. split; [done|]. split; [done|]. set_solver.
  - destruct (decide (k = k0)) as [->|Hne].
    { destruct (Hup w) as (c & id & u & co & w'' & E'). congruence. }
    assert (Hf : fail_run m p [k0] w [err] w') by (econstructor; [exact E | constructor]).
    change (k0 :: rest) with ([k0] ++ rest).
    rewrite (process_loop_fail_run m p [k0] w [err] w' Hf rest i atts l).
    destruct (IH Hrest ltac:(set_solver) (i + length [k0]) (atts ++ failed_attempts m [k0] [err])
                w' (l ++ failed_logs m i [k0] [err]))
      as (resp & s & E2 & Hs & pre & k' & post & -> & Hu & Hpre).
    exists resp, s. split; [exact E2|]. split; [done|].
    exists (k0 :: pre), k', post. set_solver.
Qed.

(** C8: liveness of the fallback: when every key of the request is
    registered and some key [k] of it names a model that is up (its
    call succeeds whatever the provider's state), [process] returns a
    successful response, and the model it used comes no later in the
    list than the first occurrence of [k]. *)
Theorem process_reaches_up_model p k w :
  Forall (registered m) (models p) -> k ∈ models p -> model_up p k ->
  exists r s, run (process m p) w = (inr r, s) /\ success r = true /\
    exists pre k' post, models p = pre ++ k' :: post /\ model_used r = Some k' /\ k ∉ pre.
Proof.
  intros Hreg Hk Hup. rewrite run_process. unfold pbind at 1.
  destruct (process_loop_reaches_up p k (models p) Hreg Hk Hup 0 [] w (opening_log p))
    as (resp & s & -> & Hs & Hpre).
  by exists resp, s.
Qed.
End Liveness.

Section Calls.
Context {W : Type} `{!LiteLLM W} (m : models_module).

(** The LiteLLM part of [_call_model] calls [completion] once, whatever
    happens after it. *)
Lemma litellm_call_count id pr mt t w n x s :
  run (W:=W * nat) (litellm_call id pr mt t) (w, n) = (x, s) -> (py_world s).2 = S n.
Proof.
  unfold run, litellm_call, pbind, pcall, ptry, of_sum, pret, praise; simpl.
  destruct (completion id _ mt t w) as [[e|r] w1]; simpl; [by intros [= _ <-]|].
  repeat case_match; intros; simplify_eq; done.
Qed.

(** [_call_model] makes one call on a registered key, and none when
    [get_model_id] raises. *)
Lemma call_model_count k pr mt t w n l x s :
  _call_model m k pr mt t (PyState (w, n) l) = (x, s) ->
  (exists e, x = inl e /\ (py_world s).2 = n) \/ (exists r, x = inr r /\ (py_world s).2 = S n).
Proof.
  destruct (dict_lookup k (AVAILABLE_MODELS m)) as [id|] eqn:Hid.
  - rewrite (call_model_registered m k id pr mt t (w, n) l Hid).
    destruct (run (litellm_call id pr mt t) (w, n)) as [[e|r] s'] eqn:E;
      apply litellm_call_count in E; intros [= <- <-]; simpl; eauto.
  - unfold _call_model. rewrite pbind_frame_of_sum, (get_model_id_None _ _ Hid).
    intros [= <- <-]. simpl. eauto.
Qed.

(** The loop makes one call per attempt it records, at most one per
    key. *)
Lemma process_loop_count p keys : forall i atts w n l x s,
  process_loop m p i keys atts (PyState (w, n) l) = (x, s) ->
  exists c, (py_world s).2 = n + c /\ c <= length keys /\
    forall r, x = inr r -> exists new, length new = c /\
      match r with inl resp => attempts resp | inr a => Some a end = Some (atts ++ new).
Proof.
  induction keys as [|k rest IH]; intros i atts w n l x s H; cbn [process_loop] in H.
  - injection H as <- <-. exists 0. split; [simpl; lia | split; [done|]].
    intros r [= <-]. exists []. by rewrite app_nil_r.
  - rewrite pbind_emit in H. unfold pbind at 1 in H.
    destruct (_call_model m k _ _ _ _) as [x0 [[w1 n1] l1]] eqn:E.
    apply call_model_count in E as [(e & -> & Hn)|(r0 & -> & Hn)]; simpl in Hn; subst n1.
    + injection H as <- <-. exists 0. split; [simpl; lia | split; [lia | by intros r]].
    + destruct r0 as [c id u co|err].
      * rewrite pbind_emit in H. injection H as <- <-. exists 1.
        split; [simpl; lia | split; [simpl; lia|]]. intros r [= <-]. by eexists [_].
      * apply IH in H as (c & Hc & Hle & Hr). exists (S c).
        split; [lia | split; [simpl; lia|]]. intros r Er.
        destruct (Hr r Er) as (new & Hl & Hnew). rewrite <- app_assoc in Hnew.
        exists (attempt_of k (get_model_name m k) (CallFailure err) :: new).
        split; [simpl; lia | exact Hnew].
Qed.

(** C9: termination of the fallback with a bound on its work: counted
    by [call_counter], [process] calls [litellm.completion] at most
    [len(payload.models)] times, and when it returns a response it has
    made exactly one call per attempt the response records (a raise
    from an unknown key is preceded by one call per earlier model). *)
Theorem process_calls_bounded p w n x s :
  run (W:=W * nat) (process m p) (w, n) = (x, s) ->
  n <= calls_made s <= n + length (models p) /\
  forall r, x = inr r -> exists atts, attempts r = Some atts /\ calls_made s = n + length atts.
Proof.
  unfold calls_made.
  rewrite run_process. unfold pbind at 1.
  destruct (process_loop m p 0 (models p) [] _) as [x0 s0] eqn:E.
  apply process_loop_count in E as (c & Hc & Hle & Hr).
  destruct x0 as [e|r0]; [intros [= <- <-]; split; [lia | by intros r]|].
  destruct (Hr r0 eq_refl) as (new & Hl & Hnew).
  destruct r0 as [resp|atts]; cbn [process_tail]; [|rewrite pbind_emit];
    intros [= <- <-]; (split; [simpl; lia|]); intros r [= <-]; exists new;
    simpl in *; (split; [done | lia]).
Qed.
End Calls.

Import LlmHandler.Scenario.

(** Witness of [process_reaches_up_model]: in the two-model scenario
    ["slow-success"] is up whatever the calls made before. *)
Lemma process_reaches_up_model_witness :
  Forall (registered scenario_models) (models req_two) /\
  "slow-success" ∈ models req_two /\ model_up scenario_models req_two "slow-success" /\
  exists r s, run (process scenario_models req_two) [] = (inr r, s) /\ success r = true /\
    exists pre k' post, models req_two = pre ++ k' :: post /\ model_used r = Some k' /\
                        "slow-success" ∉ pre.
Proof.
  assert (H1 : Forall (registered scenario_models) (models req_two)) by by_decide.
  assert (H2 : "slow-success" ∈ models req_two) by by_decide.
  assert (H3 : model_up scenario_models req_two "slow-success").
  { intros w. exists (Some "OK"), "prov/slow-success", ok_usage, None, (w ++ ["prov/slow-success"]).
    reflexivity. }
  split; [exact H1 | split; [exact H2 | split; [exact H3 |]]].
  exact (process_reaches_up_model scenario_models req_two "slow-success" [] H1 H2 H3).
Defined.

(** Witness of [process_calls_bounded]: the two-model scenario makes
    two calls. *)
Lemma process_calls_bounded_witness :
  exists x s, run (process scenario_models req_two) (([] : calls), 0) = (x, s) /\
  0 <= calls_made s <= 0 + length (models req_two) /\
  forall r, x = inr r -> exists atts, attempts r = Some atts /\ calls_made s = 0 + length atts.
Proof.
  do 2 eexists. split; [cbv; reflexivity|].
  eapply (process_calls_bounded scenario_models req_two [] 0). cbv; reflexivity.
Defined.

End HandlerProgress.
