(* ===== verification/FallbackSpec.v ===== *)
(** * The abstract fallback engine of the specification

    This file states what spec.md promises of [execute], independently of
    the Python code: a registry contract ([resolve] fails with
    [UnknownModel], [display_name] never fails), an opaque provider
    adapter over a world [W], the data of a result, and the engine as a
    state machine [Pending -> (TryModel i)* -> Succeeded | Exhausted].
    [execute] is the same engine as a function.  The lemmas show that the
    machine is deterministic, always terminates, makes strictly forward
    progress through the model list, and that its unique final state is
    the one [execute] computes.  [HandlerRefinement] relates it to the
    handler. *)

From Stdlib Require Import SpecFloat ZArith.
From S2P Require Import Prelude PyDict.

Module FallbackSpec.

(** ** Data *)

(** Section 4.1: [resolve(key)] and [displayName(key)]. *)
Record registry := Registry {
  resolve : string -> option string;
  display_name : string -> string
}.

(** Section 4.3: the adapter's verdict on one call. *)
Inductive adapter_outcome :=
  | AdapterSuccess (content : option string) (usage : dict Z) (cost : option spec_float)
  | AdapterFailure (message : string).

(** The adapter: provider model id, prompt, max tokens, temperature. *)
Definition adapter (W : Type) : Type :=
  string -> string -> Z -> spec_float -> W -> adapter_outcome * W.

(** Section 7: the error taxonomy of one attempt. *)
Inductive error_detail :=
  | UnknownModel (key : string)
  | ProviderCallFailure (message : string).

Inductive outcome := Success | Failure.

Record attempt_record := AttemptRecord {
  ar_model : string;
  ar_display_name : string;
  ar_outcome : outcome;
  ar_error : option error_detail
}.

Record generation_request := GenerationRequest {
  req_prompt : string;
  req_models : list string;
  req_max_tokens : Z;
  req_temperature : spec_float
}.

Record generation_result := GenerationResult {
  gr_success : bool;
  gr_content : option string;
  gr_model_used : option string;
  gr_usage : option (dict Z);
  gr_cost : option spec_float;
  gr_error_summary : option string;
  gr_attempts : list attempt_record
}.

(** ["All N models failed"] *)
Definition exhausted_summary (n : nat) : string :=
  "All " +:+ str_of_nat n +:+ " models failed".

Definition succeeded_result (k : string) (c : option string) (u : dict Z)
           (co : option spec_float) (atts : list attempt_record) : generation_result :=
  GenerationResult true c (Some k) (Some u) co None atts.

Definition exhausted_result (atts : list attempt_record) : generation_result :=
  GenerationResult false None None None None (Some (exhausted_summary (length atts))) atts.

Section Engine.
Context {W : Type} (reg : registry) (adp : adapter W) (req : generation_request).

(** ** The engine as a state machine *)

Inductive exec_state :=
  | Pending (w : W)
  | TryModel (i : nat) (remaining : list string) (atts : list attempt_record) (w : W)
  | Succeeded (res : generation_result) (w : W)
  | Exhausted (res : generation_result) (w : W).

Definition failure_record (k : string) (e : error_detail) : attempt_record :=
  AttemptRecord k (display_name reg k) Failure (Some e).

Definition success_record (k : string) : attempt_record :=
  AttemptRecord k (display_name reg k) Success None.

Inductive step : exec_state -> exec_state -> Prop :=
  | step_start w :
      step (Pending w) (TryModel 0 (req_models req) [] w)
  | step_unknown i k rest atts w :
      resolve reg k = None ->
      step (TryModel i (k :: rest) atts w)
           (TryModel (S i) rest (atts ++ [failure_record k (UnknownModel k)]) w)
  | step_failure i k rest atts w id msg w' :
      resolve reg k = Some id ->
      adp id (req_prompt req) (req_max_tokens req) (req_temperature req) w
        = (AdapterFailure msg, w') ->
      step (TryModel i (k :: rest) atts w)
           (TryModel (S i) rest (atts ++ [failure_record k (ProviderCallFailure msg)]) w')
  | step_success i k rest atts w id c u co w' :
      resolve reg k = Some id ->
      adp id (req_prompt req) (req_max_tokens req) (req_temperature req) w
        = (AdapterSuccess c u co, w') ->
      step (TryModel i (k :: rest) atts w)
           (Succeeded (succeeded_result k c u co (atts ++ [success_record k])) w')
  | step_exhausted i atts w :
      step (TryModel i [] atts w) (Exhausted (exhausted_result atts) w).

Inductive star : exec_state -> exec_state -> Prop :=
  | star_refl s : star s s
  | star_step s1 s2 s3 : step s1 s2 -> star s2 s3 -> star s1 s3.

Definition final (s : exec_state) : Prop :=
  match s with Succeeded _ _ | Exhausted _ _ => True | _ => False end.

(** ** The engine as a function *)

Fixpoint execute_from (i : nat) (keys : list string) (atts : list attempt_record) (w : W)
  : generation_result * W :=
  match keys with
  | [] => (exhausted_result atts, w)
  | k :: rest =>
      match resolve reg k with
      | None => execute_from (S i) rest (atts ++ [failure_record k (UnknownModel k)]) w
      | Some id =>
          match adp id (req_prompt req) (req_max_tokens req) (req_temperature req) w with
          | (AdapterSuccess c u co, w') =>
              (succeeded_result k c u co (atts ++ [success_record k]), w')
          | (AdapterFailure msg, w') =>
              execute_from (S i) rest (atts ++ [failure_record k (ProviderCallFailure msg)]) w'
          end
      end
  end.

Definition execute (w : W) : generation_result * W := execute_from 0 (req_models req) [] w.

Definition final_of (r : generation_result * W) : exec_state :=
  if gr_success r.1 then Succeeded r.1 r.2 else Exhausted r.1 r.2.

(** ** Lemmas *)

Lemma star_trans s1 s2 s3 : star s1 s2 -> star s2 s3 -> star s1 s3.
Proof. induction 1; eauto using star. Qed.

Lemma step_deterministic s s1 s2 : step s s1 -> step s s2 -> s1 = s2.
Proof. intros H1 H2. inversion H1; subst; inversion H2; subst; congruence. Qed.

Lemma final_no_step s s' : final s -> ~ step s s'.
Proof. destruct s; simpl; try done; intros _ H; inversion H. Qed.

(** The final state reachable from a state is unique. *)
Lemma star_final_unique s s1 s2 :
  star s s1 -> final s1 -> star s s2 -> final s2 -> s1 = s2.
Proof.
  intros H1. revert s2. induction H1 as [s|s a b Hab Hb IH]; intros s2 F1 H2 F2.
  - inversion H2; subst; [done|]. by apply final_no_step in H.
  - inversion H2; subst.
    + by apply final_no_step in Hab.
    + apply IH; [done| |done]. by rewrite (step_deterministic _ _ _ Hab H).
Qed.

(** The machine runs [execute_from] (termination and agreement). *)
Lemma star_execute_from keys : forall i atts w,
  star (TryModel i keys atts w) (final_of (execute_from i keys atts w)).
Proof.
  induction keys as [|k rest IH]; intros i atts w; simpl.
  - eapply star_step; [constructor | constructor].
  - destruct (resolve reg k) as [id|] eqn:Hr.
    + destruct (adp id _ _ _ w) as [[c u co|msg] w'] eqn:Ha.
      * eapply star_step; [by eapply step_success | constructor].
      * eapply star_step; [by eapply step_failure | apply IH].
    + eapply star_step; [by apply step_unknown | apply IH].
Qed.

Lemma final_of_final r : final (final_of r).
Proof. unfold final_of. by destruct (gr_success r.1). Qed.

(** Forward progress: every [TryModel] state reachable from [Pending]
    has made one attempt per index, and the attempted models followed by
    the remaining ones are the request's list. *)
Definition progress_inv (s : exec_state) : Prop :=
  match s with
  | TryModel i rem atts _ =>
      length atts = i /\ map ar_model atts ++ rem = req_models req
  | _ => True
  end.

Lemma step_progress_inv s s' : step s s' -> progress_inv s -> progress_inv s'.
Proof.
  destruct 1; simpl; try done; intros [Hl Hm]; rewrite length_app, map_app; simpl;
    (split; [lia | by rewrite <- app_assoc]).
Qed.

Lemma star_progress_inv s s' : star s s' -> progress_inv s -> progress_inv s'.
Proof. induction 1; eauto using step_progress_inv. Qed.

(** An unsuccessful run is exhausted after one attempt per model. *)
Lemma execute_from_exhausted keys : forall i atts w,
  gr_success (execute_from i keys atts w).1 = false ->
  (execute_from i keys atts w).1 = exhausted_result (gr_attempts (execute_from i keys atts w).1) /\
  length (gr_attempts (execute_from i keys atts w).1) = length atts + length keys.
Proof.
  induction keys as [|k rest IH]; intros i atts w; simpl.
  - intros _. split; [done | lia].
  - destruct (resolve reg k) as [id|];
      [destruct (adp id _ _ _ w) as [[c u co|msg] w']; simpl; [done|] |];
      intros Hs; destruct (IH _ _ _ Hs) as [E L]; (split; [done|]);
      rewrite L, length_app; simpl; lia.
Qed.

(** The machine started at [Pending w] reaches exactly one final state,
    the one [execute] computes. *)
Lemma execute_final w :
  star (Pending w) (final_of (execute w)) /\
  forall s, star (Pending w) s -> final s -> s = final_of (execute w).
Proof.
  assert (H : star (Pending w) (final_of (execute w))).
  { eapply star_step; [constructor | apply star_execute_from]. }
  split; [done|]. intros s Hs Fs.
  eapply star_final_unique; [exact Hs | done | exact H | apply final_of_final].
Qed.
End Engine.

End FallbackSpec.
