(* ===== verification/HandlerRefinement.v ===== *)
(** * The handler refines the abstract fallback engine

    [handler_registry] reads the registry contract off [models_module]
    ([resolve] is the lookup in [AVAILABLE_MODELS], [display_name] is
    [get_model_name]); [litellm_adapter] reads the adapter off the
    LiteLLM part of [_call_model] ([litellm_call], an exception becoming
    a failure verdict with its text).  [response_of_result] is how a
    result of the spec appears as a [SimpleResponse]: a provider failure
    is recorded as ["<display name> failed: <message>"].

    The refinement holds when every requested key is registered; on an
    unregistered key the spec records an [UnknownModel] attempt and goes
    on, while [process] raises ([process_unknown_model_raises]). *)

From Stdlib Require Import SpecFloat ZArith.
From S2P Require Import Prelude PyDict AvailableModels EventPayload LlmHandler FallbackSpec.
Import AvailableModels EventPayload LlmHandler FallbackSpec.

Module HandlerRefinement.

Section Refinement.
Context {W : Type} `{!LiteLLM W} (m : models_module).

Definition handler_registry : registry :=
  Registry (fun k => dict_lookup k (AVAILABLE_MODELS m)) (get_model_name m).

Definition litellm_adapter : adapter W := fun id pr mt t w =>
  match run (litellm_call id pr mt t) w with
  | (inr (CallSuccess c _ u co), s) => (AdapterSuccess c u co, py_world s)
  | (inr (CallFailure msg), s) => (AdapterFailure msg, py_world s)
  | (inl e, s) => (AdapterFailure (exc_str e), py_world s)
  end.

Definition request_of (p : EventPayload) : generation_request :=
  GenerationRequest (prompt p) (models p) (max_tokens p) (temperature p).

(** The handler's record of a spec attempt.  An [UnknownModel] attempt
    has no handler counterpart: [process] raises there. *)
Definition attempt_of_record (a : attempt_record) : attempt :=
  match ar_outcome a, ar_error a with
  | Success, _ => Attempt (ar_model a) (ar_display_name a) StatusSuccess ""
  | Failure, Some (ProviderCallFailure msg) =>
      Attempt (ar_model a) (ar_display_name a) StatusFailed
              (ar_display_name a +:+ " failed: " +:+ msg)
  | Failure, _ => Attempt (ar_model a) (ar_display_name a) StatusFailed ""
  end.

Definition response_of_result (r : generation_result) : SimpleResponse :=
  MkSimpleResponse (gr_success r) (gr_content r) (gr_model_used r) (gr_cost r)
    (gr_usage r) (gr_error_summary r) (Some (map attempt_of_record (gr_attempts r))).

(** ** Simulation *)

(** One iteration of the loop of [process] on a registered key is one
    step of the machine, and the whole loop runs [execute_from]. *)
Lemma process_loop_refines p keys :
  Forall (registered m) keys -> forall i atts w l,
  exists l', process_loop m p i keys (map attempt_of_record atts) (PyState w l) =
    let '(res, w') := execute_from handler_registry litellm_adapter (request_of p) i keys atts w in
    (inr (if gr_success res then inl (response_of_result res)
          else inr (map attempt_of_record (gr_attempts res))), PyState w' l').
Proof.
  induction keys as [|k rest IH]; intros Hreg i atts w l; simpl.
  - by exists l.
  - apply Forall_cons in Hreg as [Hk Hrest].
    destruct (registered_lookup m k Hk) as [id Hid].
    rewrite pbind_emit. simpl.
    unfold pbind at 1.
    rewrite (call_model_registered m k id (prompt p) (max_tokens p) (temperature p) w _ Hid), Hid.
    simpl.
    destruct (run (litellm_call id (prompt p) (max_tokens p) (temperature p)) w)
      as [[e|r] [w0 l0]] eqn:Ec.
    + assert (Ha : litellm_adapter id (prompt p) (max_tokens p) (temperature p) w
                   = (AdapterFailure (exc_str e), w0)) by (unfold litellm_adapter; by rewrite Ec).
      rewrite Ha.
      cbn [py_world py_log].
      match goal with
      | |- context [process_loop m p (S i) rest _ (PyState _ ?l0)] =>
          destruct (IH Hrest (S i)
                      (atts ++ [failure_record handler_registry k (ProviderCallFailure (exc_str e))])
                      w0 l0) as [l2 E2]
      end.
      exists l2. rewrite <- E2. by rewrite ?map_app.
    + destruct (litellm_call_result _ _ _ _ _ _ _ Ec) as (c & u & co & ->).
      assert (Ha : litellm_adapter id (prompt p) (max_tokens p) (temperature p) w
                   = (AdapterSuccess c u co, w0)) by (unfold litellm_adapter; by rewrite Ec).
      rewrite Ha. eexists. rewrite pbind_emit. unfold response_of_result, succeeded_result.
      simpl. rewrite map_app. reflexivity.
Qed.

(** ** Properties *)

(** C2: refinement: when every requested model is registered, [process]
    computes exactly what the spec's [execute] computes with the
    registry and adapter read off the code: the same success flag,
    content, model, usage, cost, error summary (["All N models failed"]
    with N the number of models attempted) and attempt sequence, and it
    leaves the provider world where [execute] does.  That result is the
    unique final state ([Succeeded] or [Exhausted]) the spec's state
    machine reaches from [Pending]. *)
Theorem process_refines_execute p w :
  Forall (registered m) (models p) ->
  (exists s, run (process m p) w =
    (inr (response_of_result
            (execute handler_registry litellm_adapter (request_of p) w).1), s)
    /\ py_world s = (execute handler_registry litellm_adapter (request_of p) w).2) /\
  star handler_registry litellm_adapter (request_of p) (Pending w)
       (final_of (execute handler_registry litellm_adapter (request_of p) w)) /\
  (forall st, star handler_registry litellm_adapter (request_of p) (Pending w) st -> final st ->
              st = final_of (execute handler_registry litellm_adapter (request_of p) w)).
Proof.
  intros Hreg. split; [|apply execute_final].
  rewrite run_process. unfold pbind at 1.
  destruct (process_loop_refines p (models p) Hreg 0 [] w (opening_log p)) as [l' E].
  simpl in E. rewrite E.
  destruct (execute handler_registry litellm_adapter (request_of p) w) as [res w'] eqn:Ex.
  unfold execute in Ex. simpl in Ex. rewrite Ex. simpl.
  destruct (gr_success res) eqn:Hs; simpl; [eexists; split; reflexivity|].
  pose proof (execute_from_exhausted handler_registry litellm_adapter (request_of p)
                (models p) 0 [] w) as Hex.
  rewrite Ex in Hex. destruct (Hex Hs) as [Hr Hl]. simpl in Hr, Hl.
  exists (PyState w' (l' ++ [LogAllFailed (all_failed_msg (length (models p)))])).
  split; [|reflexivity].
  rewrite Hr, pbind_emit. unfold response_of_result, exhausted_result. simpl.
  rewrite Hl. reflexivity.
Qed.
End Refinement.

Section Catalogue.
Context {W : Type} `{!LiteLLM W}.

(** [process] returns on every payload of the catalogue. *)
Lemma example_payload_process_returns strategy pr p w :
  get_example_payload strategy pr = inr p ->
  exists r s, run (process available_models p) w = (inr r, s).
Proof.
  intros (ex & Hex & Hm)%get_example_payload_models.
  assert (Hreg : Forall (registered available_models) (models p)).
  { pose proof example_payloads_all_registered as Hall. rewrite Forall_forall in Hall.
    rewrite Hm. apply (Hall (strategy, ex)), list_elem_of_In, dict_lookup_In, Hex. }
  rewrite run_process. unfold pbind at 1.
  destruct (process_loop_refines available_models p (models p) Hreg 0 [] w (opening_log p))
    as [l' E].
  simpl in E. rewrite E.
  destruct (execute_from _ _ _ _ _ _ _) as [res w']. destruct (gr_success res); simpl; eauto.
Qed.

End Catalogue.

Import LlmHandler.Scenario.

(** Witness of [process_refines_execute]: the spec's two-model scenario. *)
Lemma process_refines_execute_witness :
  Forall (registered scenario_models) (models req_two) /\
  (exists s, run (process scenario_models req_two) [] =
    (inr (response_of_result
            (execute (handler_registry scenario_models) litellm_adapter (request_of req_two) []).1), s)
    /\ py_world s = (execute (handler_registry scenario_models) litellm_adapter
                              (request_of req_two) []).2) /\
  star (handler_registry scenario_models) litellm_adapter (request_of req_two) (Pending [])
       (final_of (execute (handler_registry scenario_models) litellm_adapter (request_of req_two) [])) /\
  (forall st, star (handler_registry scenario_models) litellm_adapter (request_of req_two)
                   (Pending []) st -> final st ->
              st = final_of (execute (handler_registry scenario_models) litellm_adapter
                                     (request_of req_two) [])).
Proof.
  assert (H : Forall (registered scenario_models) (models req_two)) by by_decide.
  split; [exact H | exact (process_refines_execute scenario_models req_two [] H)].
Defined.

End HandlerRefinement.
