(* ===== verification/BedrockFallback.v ===== *)
(** * The two-stage client ([src/bedrock-fallback.py])

    [ClaudeFallbackClient] tries the Anthropic HTTP API through a
    [requests] session and, on any exception, Amazon Bedrock through a
    [boto3] client.  The outside world (boto3, STS, the HTTP session, the
    Bedrock runtime) is the class [AwsHttp W]; JSON bodies are values of
    [json], and the subscripts the code applies to them ([data['content']
    [0]['text']], [.get('usage', {})]) raise as Python raises.  The
    methods run in the prelude's [PyM] monad with the log lines of
    [blog_line].

    The constructor catches every failure of the AWS set-up; when
    [boto3.client('bedrock-runtime')] itself failed the attribute
    [bedrock_client] is never assigned, which [client.bedrock_client]
    records, and [call_bedrock_fallback] then raises [AttributeError]
    inside its [try]. *)

From Stdlib Require Import ZArith.
From S2P Require Import Prelude PyDict.

Module BedrockFallback.

(** ** JSON values and the subscripts the code uses *)

Inductive json :=
  | JNull
  | JBool (b : bool)
  | JNum (z : Z)
  | JStr (s : string)
  | JList (l : list json)
  | JObj (fields : list (string * json)).

Definition json_type_name (j : json) : string :=
  match j with
  | JNull => "NoneType" | JBool _ => "bool" | JNum _ => "int"
  | JStr _ => "str" | JList _ => "list" | JObj _ => "dict"
  end.

(** [j[key]] *)
Definition json_getitem (j : json) (key : string) : py_exc + json :=
  match j with
  | JObj d => dict_getitem key d
  | JList _ => inl (PyExc TypeError "list indices must be integers or slices, not str")
  | JStr _ => inl (PyExc TypeError "string indices must be integers, not 'str'")
  | _ => inl (PyExc TypeError ("'" +:+ json_type_name j +:+ "' object is not subscriptable"))
  end.

(** [j[i]] *)
Definition json_index (j : json) (i : nat) : py_exc + json :=
  match j with
  | JList l =>
      match l !! i with
      | Some x => inr x
      | None => inl (PyExc IndexError "list index out of range")
      end
  | JObj _ => inl (PyExc KeyError (str_of_nat i))   (* JSON keys are strings, never [i] *)
  | JStr s =>
      match String.get i s with
      | Some c => inr (JStr (String c EmptyString))
      | None => inl (PyExc IndexError "string index out of range")
      end
  | _ => inl (PyExc TypeError ("'" +:+ json_type_name j +:+ "' object is not subscriptable"))
  end.

(** [j.get(key, default)] *)
Definition json_get (j : json) (key : string) (default : json) : py_exc + json :=
  match j with
  | JObj d => inr (dict_get key default d)
  | _ => inl (PyExc AttributeError
                ("'" +:+ json_type_name j +:+ "' object has no attribute 'get'"))
  end.

(** [body['content'][0]['text']] and [body.get('usage', {})] *)
Definition extract_content_usage (body : json) : py_exc + (json * json) :=
  match json_getitem body "content" with
  | inl e => inl e
  | inr c =>
      match json_index c 0 with
      | inl e => inl e
      | inr c0 =>
          match json_getitem c0 "text" with
          | inl e => inl e
          | inr text =>
              match json_get body "usage" (JObj []) with
              | inl e => inl e
              | inr u => inr (text, u)
              end
          end
      end
  end.

(** ** The world and the client *)

Record http_response := HttpResponse {
  status_code : Z;
  resp_text : string;
  (** [response.json()]: the parsed body, or the exception it raises *)
  resp_json : py_exc + json
}.

Class AwsHttp (W : Type) := {
  (** [boto3.client(service, region_name=region)] *)
  boto3_client : string -> string -> W -> (py_exc + unit) * W;
  (** [sts_client.get_caller_identity()] *)
  sts_get_caller_identity : string -> W -> (py_exc + json) * W;
  (** [self.session.post(url, headers=..., json=..., timeout=...)], the
      session's retry policy included *)
  session_post : string -> list (string * option string) -> json -> Z -> W ->
                 (py_exc + http_response) * W;
  (** [invoke_model(...)] followed by [json.loads(response['body'].read())] *)
  bedrock_invoke_model : string -> json -> string -> W -> (py_exc + json) * W
}.

(** The dataclass [ClaudeResponse]. *)
Record ClaudeResponse := MkClaudeResponse {
  content : json;
  model_used : string;
  source : string;
  usage : json
}.

(** The attributes of a [ClaudeFallbackClient]; [bedrock_client] says
    whether [self.bedrock_client] was assigned. *)
Record client := Client {
  anthropic_api_key : option string;
  aws_region : string;
  bedrock_client : bool;
  anthropic_url : string
}.

Inductive blog_line :=
  | BLogAwsValid (account : json)
  | BLogAwsIssue (msg : string)
  | BLogBedrockMayNotWork
  | BLogAttemptAnthropic
  | BLogAnthropicOk
  | BLogThrottled
  | BLogApiError (status : Z)
  | BLogRequestFailed (msg : string)
  | BLogCallingBedrock
  | BLogBedrockOk
  | BLogBedrockFailed (msg : string)
  | BLogAnthropicFailed (msg : string)
  | BLogDetectedThrottling
  | BLogDetectedFailure
  | BLogBothFailed (msg : string).

Definition anthropic_model : string := "claude-3-5-sonnet-20241022".
Definition bedrock_model : string := "us.anthropic.claude-3-5-sonnet-20241022-v2:0".

(** The session's retry strategy: [Retry(total=3, backoff_factor=1,
    status_forcelist=[429, 500, 502, 503, 504])], with urllib3's default
    set of methods retried on a status. *)
Record retry := Retry {
  retry_total : nat;
  retry_backoff_factor : Z;
  retry_status_forcelist : list Z;
  retry_allowed_methods : list string
}.

Definition retry_strategy : retry :=
  Retry 3 1 [429; 500; 502; 503; 504]%Z ["DELETE"; "GET"; "HEAD"; "OPTIONS"; "PUT"; "TRACE"].

(** urllib3's [Retry.is_retry(method, status_code)] for a response
    without [Retry-After]: the method must be retryable and the status in
    the force list.  This is the status rule only: the retries urllib3
    makes on connection and read errors (counted by [total] whatever the
    method) are not modelled, and the HTTP world answers each call
    once. *)
Definition is_retry (r : retry) (method : string) (status : Z) : bool :=
  bool_decide (method ∈ retry_allowed_methods r) && bool_decide (status ∈ retry_status_forcelist r).

Section Client.
Context {W : Type} `{!AwsHttp W}.
Local Open Scope py_scope.

(** [__init__]: the AWS set-up in one [try]; the HTTP session needs no
    call. *)
Definition init (api_key : option string) (region : string) : PyM W blog_line client :=
  res <- ptry (_ <- pcall (boto3_client "bedrock-runtime" region) ;;
               ptry (_ <- pcall (boto3_client "sts" region) ;;
                     identity <- pcall (sts_get_caller_identity region) ;;
                     account <- of_sum (json_get identity "Account" (JStr "Unknown")) ;;
                     emit (BLogAwsValid account) ;;;
                     pret (true, None))
                    (fun e => pret (true, Some e)))
              (fun e => pret (false, Some e)) ;;
  (match res.2 with
   | Some e => emit (BLogAwsIssue (exc_str e)) ;;; emit BLogBedrockMayNotWork
   | None => pret tt
   end) ;;;
  pret (Client api_key region res.1 "https://api.anthropic.com/v1/messages").

Definition anthropic_headers (c : client) : list (string * option string) :=
  [("Content-Type", Some "application/json"); ("x-api-key", anthropic_api_key c);
   ("anthropic-version", Some "2023-06-01")].

Definition anthropic_payload (prompt : string) (max_tokens : Z) : json :=
  JObj [("model", JStr anthropic_model); ("max_tokens", JNum max_tokens);
        ("messages", JList [JObj [("role", JStr "user"); ("content", JStr prompt)]])].

Definition bedrock_body (prompt : string) (max_tokens : Z) : json :=
  JObj [("anthropic_version", JStr "bedrock-2023-05-31"); ("max_tokens", JNum max_tokens);
        ("messages", JList [JObj [("role", JStr "user"); ("content", JStr prompt)]])].

(** [call_anthropic_direct]: only [RequestException]s are caught and
    re-raised as ["Request failed: ..."]; the exceptions raised on a
    non-200 status, and a [KeyError] of a malformed body, pass through. *)
Definition call_anthropic_direct (c : client) (prompt : string) (max_tokens : Z)
  : PyM W blog_line ClaudeResponse :=
  ptry (emit BLogAttemptAnthropic ;;;
        response <- pcall (session_post (anthropic_url c) (anthropic_headers c)
                             (anthropic_payload prompt max_tokens) 60) ;;
        if decide (status_code response = 200%Z) then
          data <- of_sum (resp_json response) ;;
          tu <- of_sum (extract_content_usage data) ;;
          emit BLogAnthropicOk ;;;
          pret (MkClaudeResponse tu.1 anthropic_model "anthropic" tu.2)
        else if decide (status_code response = 429%Z) then
          emit BLogThrottled ;;;
          praise (PyExc Exception ("Throttled: " +:+ resp_text response))
        else
          emit (BLogApiError (status_code response)) ;;;
          praise (PyExc Exception ("API Error " +:+ str_of_Z (status_code response)
                                     +:+ ": " +:+ resp_text response)))
       (fun e =>
          if decide (exc_type e = RequestException) then
            emit (BLogRequestFailed (exc_str e)) ;;;
            praise (PyExc Exception ("Request failed: " +:+ exc_str e))
          else praise e).

(** [call_bedrock_fallback]: every exception becomes
    ["Bedrock fallback failed: ..."]. *)
Definition call_bedrock_fallback (c : client) (prompt : string) (max_tokens : Z)
  : PyM W blog_line ClaudeResponse :=
  ptry (emit BLogCallingBedrock ;;;
        (if bedrock_client c then pret tt
         else praise (PyExc AttributeError
                        "'ClaudeFallbackClient' object has no attribute 'bedrock_client'")) ;;;
        response_body <- pcall (bedrock_invoke_model bedrock_model
                                  (bedrock_body prompt max_tokens) "application/json") ;;
        tu <- of_sum (extract_content_usage response_body) ;;
        emit BLogBedrockOk ;;;
        pret (MkClaudeResponse tu.1 bedrock_model "bedrock" tu.2))
       (fun e =>
          emit (BLogBedrockFailed (exc_str e)) ;;;
          praise (PyExc Exception ("Bedrock fallback failed: " +:+ exc_str e))).

(** The test of [generate_response]:
    ["429" in str(e) or "throttl" in str(e).lower()]. *)
Definition is_throttling (msg : string) : bool :=
  py_in "429" msg || py_in "throttl" (str_lower msg).

Definition both_failed_msg (anthropic_error bedrock_error : string) : string :=
  "Both services failed. Anthropic: " +:+ anthropic_error +:+ ". Bedrock: " +:+ bedrock_error.

(** [generate_response] *)
Definition generate_response (c : client) (prompt : string) (max_tokens : Z)
  : PyM W blog_line ClaudeResponse :=
  ptry (call_anthropic_direct c prompt max_tokens)
       (fun anthropic_error =>
          emit (BLogAnthropicFailed (exc_str anthropic_error)) ;;;
          emit (if is_throttling (exc_str anthropic_error) then BLogDetectedThrottling
                else BLogDetectedFailure) ;;;
          ptry (call_bedrock_fallback c prompt max_tokens)
               (fun bedrock_error =>
                  let error_msg := both_failed_msg (exc_str anthropic_error) (exc_str bedrock_error) in
                  emit (BLogBothFailed error_msg) ;;;
                  praise (PyExc Exception error_msg))).
End Client.

(** ** Lemmas *)

Section Lemmas.
Context {W : Type} `{!AwsHttp W}.

Lemma call_anthropic_direct_frame c p mt : log_frame (W:=W) (call_anthropic_direct c p mt).
Proof. unfold call_anthropic_direct. solve_log_frame. Qed.

Lemma call_bedrock_fallback_frame c p mt : log_frame (W:=W) (call_bedrock_fallback c p mt).
Proof. unfold call_bedrock_fallback. solve_log_frame. Qed.

(** Every exception [call_bedrock_fallback] raises is its own
    ["Bedrock fallback failed: ..."] wrapper. *)
Lemma call_bedrock_fallback_error c p mt w e s :
  run (W:=W) (call_bedrock_fallback c p mt) w = (inl e, s) ->
  exists e0, e = PyExc Exception ("Bedrock fallback failed: " +:+ exc_str e0).
Proof.
  unfold run, call_bedrock_fallback, ptry, pbind, pcall, of_sum, praise, pret, emit; simpl.
  repeat case_match; intros; simplify_eq; eauto.
Qed.

End Lemmas.

(** ** Properties *)

(** What [call_anthropic_direct]'s handler makes of an exception. *)
Definition request_failed (e : py_exc) : py_exc :=
  if decide (exc_type e = RequestException) then PyExc Exception ("Request failed: " +:+ exc_str e)
  else e.

Definition missing_bedrock_client : string :=
  "'ClaudeFallbackClient' object has no attribute 'bedrock_client'".

Section Properties.
Context {W : Type} `{!AwsHttp W}.

(** C18: [call_anthropic_direct] dispatches on the HTTP status: 200 with
    a body holding [content[0].text] gives a response from source
    ["anthropic"] with the body's usage; 429 raises ["Throttled: <body>"];
    any other status raises ["API Error <status>: <body>"]; a
    [RequestException] (from the post or from parsing the body) becomes
    ["Request failed: ..."], and a malformed body's [KeyError],
    [IndexError] or [TypeError] passes through unchanged. *)
Theorem call_anthropic_direct_spec c p mt w :
  fst (run (call_anthropic_direct c p mt) w) =
    match fst (session_post (anthropic_url c) (anthropic_headers c)
                 (anthropic_payload p mt) 60 w) with
    | inl e => inl (request_failed e)
    | inr resp =>
        if decide (status_code resp = 200%Z) then
          match resp_json resp with
          | inl e => inl (request_failed e)
          | inr data =>
              match extract_content_usage data with
              | inl e => inl (request_failed e)
              | inr (text, u) => inr (MkClaudeResponse text anthropic_model "anthropic" u)
              end
          end
        else if decide (status_code resp = 429%Z) then
          inl (PyExc Exception ("Throttled: " +:+ resp_text resp))
        else
          inl (PyExc Exception ("API Error " +:+ str_of_Z (status_code resp) +:+ ": "
                                  +:+ resp_text resp))
    end.
Proof.
  unfold run, call_anthropic_direct, request_failed, ptry, pbind, pcall, of_sum, praise,
    pret, emit; simpl.
  destruct (session_post _ _ _ _ w) as [[e|resp] w1]; simpl; [by case_decides|].
  destruct (decide (status_code resp = 200%Z)); simpl.
  - destruct (resp_json resp) as [ex|data]; simpl; [by case_decides|].
    destruct (extract_content_usage data) as [ex|[text u]]; simpl; by case_decides.
  - by case_decides.
Qed.

(** when the direct call succeeds, [generate_response] returns its
    response, with its log and world: Bedrock is never called. *)
Lemma generate_response_anthropic_ok c p mt w r s :
  run (call_anthropic_direct c p mt) w = (inr r, s) ->
  run (generate_response c p mt) w = (inr r, s).
Proof. unfold run, generate_response, ptry. by intros ->. Qed.

(** C15: when the direct call raises [e1], [generate_response] logs the
    failure and its classification (throttling when ["429"] or
    ["throttl"] occurs in the message, failure otherwise) and returns
    what Bedrock returns, from the world the direct call left; the
    classification changes the log line only. *)
Theorem generate_response_bedrock_fallback c p mt w e1 w1 l1 r w2 l2 :
  run (call_anthropic_direct c p mt) w = (inl e1, PyState w1 l1) ->
  run (call_bedrock_fallback c p mt) w1 = (inr r, PyState w2 l2) ->
  run (generate_response c p mt) w =
    (inr r, PyState w2 (l1 ++ [BLogAnthropicFailed (exc_str e1);
                               if is_throttling (exc_str e1) then BLogDetectedThrottling
                               else BLogDetectedFailure] ++ l2)).
Proof.
  intros H1 H2. unfold run, generate_response, ptry at 1. unfold run in H1. rewrite H1.
  rewrite !pbind_emit. simpl. unfold ptry. rewrite call_bedrock_fallback_frame.
  unfold run in H2. rewrite H2. simpl. by rewrite <- !app_assoc.
Qed.

(** C16: when both calls raise, [generate_response] raises one
    [Exception] whose message names both errors, ["Both services
    failed. Anthropic: <e1>. Bedrock: <e2>"], where [e2] is Bedrock's
    ["Bedrock fallback failed: ..."] wrapper, and logs it last. *)
Theorem generate_response_both_fail c p mt w e1 w1 l1 e2 w2 l2 :
  run (call_anthropic_direct c p mt) w = (inl e1, PyState w1 l1) ->
  run (call_bedrock_fallback c p mt) w1 = (inl e2, PyState w2 l2) ->
  run (generate_response c p mt) w =
    (inl (PyExc Exception (both_failed_msg (exc_str e1) (exc_str e2))),
     PyState w2 (l1 ++ [BLogAnthropicFailed (exc_str e1);
                        if is_throttling (exc_str e1) then BLogDetectedThrottling
                        else BLogDetectedFailure] ++ l2 ++
                 [BLogBothFailed (both_failed_msg (exc_str e1) (exc_str e2))])) /\
  exists e0, exc_str e2 = "Bedrock fallback failed: " +:+ exc_str e0.
Proof.
  intros H1 H2. split.
  - unfold run, generate_response, ptry at 1. unfold run in H1. rewrite H1.
    rewrite !pbind_emit. simpl. unfold ptry. rewrite call_bedrock_fallback_frame.
    unfold run in H2. rewrite H2. simpl. rewrite pbind_emit. simpl.
    by rewrite <- !app_assoc.
  - destruct (call_bedrock_fallback_error _ _ _ _ _ _ H2) as [e0 ->]. by exists e0.
Qed.

(** Without a Bedrock client, [call_bedrock_fallback] calls nothing
    and raises ["Bedrock fallback failed: 'ClaudeFallbackClient' object
    has no attribute 'bedrock_client'"]. *)
Lemma call_bedrock_without_client c p mt w :
  bedrock_client c = false ->
  run (call_bedrock_fallback c p mt) w =
    (inl (PyExc Exception ("Bedrock fallback failed: " +:+ missing_bedrock_client)),
     PyState w [BLogCallingBedrock; BLogBedrockFailed missing_bedrock_client]).
Proof. intros H. unfold run, call_bedrock_fallback. simpl. by rewrite H. Qed.

(** The constructor never raises; it keeps the key and region, and
    [bedrock_client] is assigned exactly when [boto3.client
    ('bedrock-runtime', ...)] succeeded, whatever the STS check does. *)
Theorem init_spec key region w :
  exists c s, run (init key region) w = (inr c, s) /\
    anthropic_api_key c = key /\ aws_region c = region /\
    bedrock_client c = match fst (boto3_client "bedrock-runtime" region w) with
                       | inr _ => true | inl _ => false end.
Proof.
  unfold run, init, ptry, pbind, pcall, of_sum, praise, pret, emit; simpl.
  destruct (boto3_client "bedrock-runtime" region w) as [[e|[]] w1]; simpl; [by eauto 10|].
  repeat (case_match; simpl); simplify_eq/=; eauto 10.
Qed.
(** C35: a failed [boto3.client('bedrock-runtime', ...)] in
    [__init__] is only logged: the constructor returns a client (with
    the two warning lines, without calling STS), and from then on every
    [call_bedrock_fallback] of that client, in any later world, calls
    nothing and raises ["Bedrock fallback failed: 'ClaudeFallbackClient'
    object has no attribute 'bedrock_client'"]: the Bedrock fallback is
    lost for the client's lifetime. *)
Theorem init_without_bedrock_client key region w e w1 :
  boto3_client "bedrock-runtime" region w = (inl e, w1) ->
  exists c, run (init key region) w =
      (inr c, PyState w1 [BLogAwsIssue (exc_str e); BLogBedrockMayNotWork]) /\
    forall p mt w', run (call_bedrock_fallback c p mt) w' =
      (inl (PyExc Exception ("Bedrock fallback failed: " +:+ missing_bedrock_client)),
       PyState w' [BLogCallingBedrock; BLogBedrockFailed missing_bedrock_client]).
Proof.
  intros He. exists (Client key region false "https://api.anthropic.com/v1/messages").
  split; [|intros; by apply call_bedrock_without_client].
  unfold run, init, ptry, pbind, pcall. cbn. by rewrite He.
Qed.
(** C17: [generate_response] raises one exception only, the combined
    [Exception("Both services failed. Anthropic: <a>. Bedrock: <b>")],
    whose Bedrock part is Bedrock's own wrapper: whatever the direct
    call raises ([KeyError] of a malformed body included) is caught and
    leads to the Bedrock call. *)
Theorem generate_response_error c p mt w e s :
  run (generate_response c p mt) w = (inl e, s) ->
  exists a b, e = PyExc Exception (both_failed_msg a ("Bedrock fallback failed: " +:+ b)).
Proof.
  unfold run, generate_response, ptry at 1.
  destruct (call_anthropic_direct c p mt (PyState w [])) as [[e1|r] [w1 l1]]; [|done].
  rewrite !pbind_emit. simpl. unfold ptry. rewrite call_bedrock_fallback_frame.
  destruct (call_bedrock_fallback c p mt (PyState w1 [])) as [[e2|r] s2] eqn:E2; [|done].
  destruct (call_bedrock_fallback_error c p mt w1 e2 s2 E2) as [e0 ->].
  rewrite pbind_emit. intros [= <- _]. by exists (exc_str e1), (exc_str e0).
Qed.
End Properties.

(** ** A concrete world for the witnesses

    The Anthropic API answers with a fixed status and body; Bedrock is up
    or throttled; the world records the services called. *)
Module Scenario.
Record aws := Aws { api_status : Z; bedrock_up : bool; called : list string }.

Definition ok_body : json :=
  JObj [("content", JList [JObj [("type", JStr "text"); ("text", JStr "OK")]]);
        ("usage", JObj [("output_tokens", JNum 1)])].

#[export] Instance aws_http : AwsHttp aws := {|
  boto3_client _ _ w := (inr tt, w);
  sts_get_caller_identity _ w := (inr (JObj [("Account", JStr "123456789012")]), w);
  session_post _ _ _ _ w :=
    (inr (HttpResponse (api_status w) "rate limited" (inr ok_body)),
     Aws (api_status w) (bedrock_up w) (called w ++ ["anthropic"]));
  bedrock_invoke_model _ _ _ w :=
    (if bedrock_up w then inr ok_body
     else inl (PyExc Exception "ThrottlingException: Too many requests"),
     Aws (api_status w) (bedrock_up w) (called w ++ ["bedrock"]))
|}.

(** An SDK that does not know the Bedrock runtime service; the world
    records the services called. *)
Record old_sdk := OldSdk { sdk_called : list string }.

#[export] Instance old_sdk_http : AwsHttp old_sdk := {|
  boto3_client svc _ w := (inl (PyExc Exception ("Unknown service: '" +:+ svc +:+ "'")), w);
  sts_get_caller_identity _ w := (inr (JObj []), OldSdk (sdk_called w ++ ["sts"]));
  session_post _ _ _ _ w :=
    (inr (HttpResponse 200 "OK" (inr ok_body)), OldSdk (sdk_called w ++ ["anthropic"]));
  bedrock_invoke_model _ _ _ w := (inr ok_body, OldSdk (sdk_called w ++ ["bedrock"]))
|}.

Definition cl : client := Client (Some "sk-test") "us-east-1" true "https://api.anthropic.com/v1/messages".
End Scenario.

Import Scenario.

(** Witness of [generate_response_bedrock_fallback]: a 429, then Bedrock. *)
Lemma generate_response_bedrock_fallback_witness :
  exists e1 w1 l1 r w2 l2,
    run (call_anthropic_direct cl "X" 4000) (Aws 429 true []) = (inl e1, PyState w1 l1) /\
    run (call_bedrock_fallback cl "X" 4000) w1 = (inr r, PyState w2 l2) /\
    run (generate_response cl "X" 4000) (Aws 429 true []) =
      (inr r, PyState w2 (l1 ++ [BLogAnthropicFailed (exc_str e1);
                                 if is_throttling (exc_str e1) then BLogDetectedThrottling
                                 else BLogDetectedFailure] ++ l2)).
Proof.
  do 6 eexists. split; [reflexivity | split; [reflexivity |]].
  eapply generate_response_bedrock_fallback; reflexivity.
Defined.

(** Witness of [generate_response_both_fail]: a 503, then Bedrock throttled. *)
Lemma generate_response_both_fail_witness :
  exists e1 w1 l1 e2 w2 l2,
    run (call_anthropic_direct cl "X" 4000) (Aws 503 false []) = (inl e1, PyState w1 l1) /\
    run (call_bedrock_fallback cl "X" 4000) w1 = (inl e2, PyState w2 l2) /\
    run (generate_response cl "X" 4000) (Aws 503 false []) =
      (inl (PyExc Exception (both_failed_msg (exc_str e1) (exc_str e2))),
       PyState w2 (l1 ++ [BLogAnthropicFailed (exc_str e1);
                          if is_throttling (exc_str e1) then BLogDetectedThrottling
                          else BLogDetectedFailure] ++ l2 ++
                   [BLogBothFailed (both_failed_msg (exc_str e1) (exc_str e2))])) /\
    exists e0, exc_str e2 = "Bedrock fallback failed: " +:+ exc_str e0.
Proof.
  do 6 eexists. split; [reflexivity | split; [reflexivity |]].
  eapply generate_response_both_fail; reflexivity.
Defined.

(** Witness of [init_without_bedrock_client]: an SDK without the
    Bedrock runtime service. *)
Lemma init_without_bedrock_client_witness :
  boto3_client "bedrock-runtime" "us-east-1" (OldSdk []) =
    (inl (PyExc Exception "Unknown service: 'bedrock-runtime'"), OldSdk []) /\
  exists c, run (init (Some "sk-test") "us-east-1") (OldSdk []) =
      (inr c, PyState (OldSdk [])
                [BLogAwsIssue (exc_str (PyExc Exception "Unknown service: 'bedrock-runtime'"));
                 BLogBedrockMayNotWork]) /\
    forall p mt w', run (call_bedrock_fallback c p mt) w' =
      (inl (PyExc Exception ("Bedrock fallback failed: " +:+ missing_bedrock_client)),
       PyState w' [BLogCallingBedrock; BLogBedrockFailed missing_bedrock_client]).
Proof.
  assert (He : boto3_client "bedrock-runtime" "us-east-1" (OldSdk []) =
                 (inl (PyExc Exception "Unknown service: 'bedrock-runtime'"), OldSdk []))
    by reflexivity.
  split; [exact He | exact (init_without_bedrock_client (Some "sk-test") "us-east-1" _ _ _ He)].
Defined.

(** Witness of [generate_response_error]: a 503, then Bedrock throttled. *)
Lemma generate_response_error_witness :
  exists e s, run (generate_response cl "X" 4000) (Aws 503 false []) = (inl e, s) /\
    exists a b, e = PyExc Exception (both_failed_msg a ("Bedrock fallback failed: " +:+ b)).
Proof.
  do 2 eexists. split; [cbv; reflexivity|].
  eapply (generate_response_error cl "X" 4000 (Aws 503 false [])). cbv; reflexivity.
Defined.

End BedrockFallback.
