(* ===== verification/EntryPoints.v ===== *)
(** * The command-line entry points

    The [main] functions and [__main__] blocks of the repository, as
    programs over the components they call.  Their output is a list of
    lines: what [print] writes, and the lines of [logging] that pass the
    root logger's level.

    - [HandlerMain]: [main] of [src/llm_handler.py], dispatching on
      [sys.argv[1]] (model list, strategy list, a strategy, an unknown
      option, or the default strategy), running [process] and printing
      the result and the attempt history.
    - [BedrockMain]: [main] of [src/bedrock-fallback.py], reading its
      configuration from [os.environ] ([int()] on [MAX_TOKENS],
      [getattr(logging, LOG_LEVEL.upper())] and [setLevel]), then calling
      [generate_response] inside a [try].

    The cost line [f"Cost: ${response.cost:.4f}"] is printed with
    [FloatFormat.format_fixed 4]. *)

From Stdlib Require Import SpecFloat ZArith.
From S2P Require Import Prelude PyDict FloatFormat AvailableModels EventPayload LlmHandler FallbackSpec HandlerRefinement BedrockFallback.
Import FloatFormat AvailableModels EventPayload LlmHandler HandlerRefinement.

Module HandlerMain.

(** A line of the handler's command-line output. *)
Inductive out_line :=
  | Out (s : string)
  | OutLog (l : log_line).

Definition quantum_prompt : string := "Explain quantum computing in simple terms.".

Definition status_icon (ok : bool) : string := if ok then "✅" else "❌".

(** [f"{x}"] of an [Optional[str]]. *)
Definition str_opt (o : option string) : string :=
  match o with Some s => s | None => "None" end.

(** [str(usage)] of a dict of ints. *)
Definition repr_usage (u : dict Z) : string :=
  "{" +:+ String.concat ", " (map (fun '(k, v) => py_repr_str k +:+ ": " +:+ str_of_Z v) u) +:+ "}".

(** Truth of a Python float: every value but the zeros. *)
Definition float_truthy (f : spec_float) : bool :=
  match f with S754_zero _ => false | _ => true end.

(** The attempt history, numbered from [i]: the name and icon, then the
    error cut at 80 characters and followed by ["..."] when there is
    one. *)
Fixpoint attempt_lines (i : nat) (atts : list attempt) : list string :=
  match atts with
  | [] => []
  | a :: atts' =>
      ("  " +:+ str_of_nat i +:+ ". " +:+ att_name a +:+ ": "
         +:+ status_icon (bool_decide (att_status a = StatusSuccess)))
      :: (if bool_decide (att_error a = "") then []
          else ["     Error: " +:+ String.substring 0 80 (att_error a) +:+ "..."])
      ++ attempt_lines (S i) atts'
  end.

Section Main.
Context {W : Type} `{!LiteLLM W} (m : models_module).
Local Open Scope py_scope.

Definition print (s : string) : PyM W out_line unit := emit (Out s).

(** The printing of the results in [main]. *)
Definition print_results (r : SimpleResponse) : PyM W out_line unit :=
  print (newline +:+ "📊 Results:") ;;;
  print ("Success: " +:+ status_icon (success r)) ;;;
  (if success r then
     print ("Model Used: " +:+ match model_used r with
                              | Some k => get_model_name m k
                              | None => "None"
                              end) ;;;
     (match cost r with
      | Some c => if float_truthy c then print ("Cost: $" +:+ format_fixed 4 c) else pret tt
      | None => pret tt
      end) ;;;
     (match usage r with
      | Some (_ :: _ as u) => print ("Usage: " +:+ repr_usage u)
      | _ => pret tt
      end) ;;;
     print (newline +:+ "💬 Response:") ;;;
     print (str_opt (content r))
   else print ("Error: " +:+ str_opt (error r))) ;;;
  match attempts r with
  | Some (_ :: _ as atts) =>
      print (newline +:+ "🔄 Attempt History:") ;;;
      pfor (attempt_lines 1 atts) print
  | _ => pret tt
  end.

(** The dispatch on [sys.argv]: [None] when [main] returns early, the
    payload to process otherwise. *)
Definition select_payload (argv : list string) : PyM W out_line (option EventPayload) :=
  match argv with
  | _ :: arg :: _ =>
      if bool_decide (arg = "models") then
        print "📋 Available Models:" ;;;
        pfor (dict_keys (AVAILABLE_MODELS m))
             (fun key => print ("  " +:+ key +:+ ": " +:+ get_model_name m key)) ;;;
        pret None
      else if bool_decide (arg = "strategies") then
        print "📋 Example Strategies:" ;;;
        pfor (dict_keys EXAMPLE_PAYLOADS)
             (fun strategy =>
                example <- of_sum (dict_getitem strategy EXAMPLE_PAYLOADS) ;;
                print ("  " +:+ strategy +:+ ": " +:+ py_repr_list (models example))) ;;;
        pret None
      else if dict_contains arg EXAMPLE_PAYLOADS then
        payload <- of_sum (get_example_payload arg quantum_prompt) ;;
        print ("🎯 Using " +:+ arg +:+ " strategy") ;;;
        pret (Some payload)
      else
        print ("Unknown option: " +:+ arg) ;;;
        print "Available options: models, strategies, or strategy name" ;;;
        pret None
  | _ =>
      payload <- of_sum (get_example_payload "quality_first" quantum_prompt) ;;
      pret (Some payload)
  end.

(** [main()] of [llm_handler.py] with [sys.argv] and [os.environ]; it
    returns [os.environ] as the handler's construction leaves it. *)
Definition handler_main (argv : list string) (environ : dict string)
  : PyM W out_line (dict string) :=
  let '(environ', init_line) := handler_init m environ in
  emit (OutLog init_line) ;;;
  sel <- select_payload argv ;;
  match sel with
  | None => pret environ'
  | Some payload =>
      response <- relog (fun l => [OutLog l]) (process m payload) ;;
      print_results response ;;;
      pret environ'
  end.
End Main.

(** ** Properties *)

Section MainProperties.
Context {W : Type} `{!LiteLLM W} (m : models_module).

Lemma handler_init_setup environ :
  handler_init m environ = (environ, LogHandlerInit (length (AVAILABLE_MODELS m))).
Proof. unfold handler_init. by rewrite setup_api_keys_id. Qed.

(** C36: [main models] lists the registry and calls no provider: after
    the constructor's log line it prints the header and one line
    ["  <key>: <display name>"] per key of [AVAILABLE_MODELS] in order,
    leaves the provider's state and [os.environ] as they were, and
    returns. *)
Theorem handler_main_models prog rest environ w :
  run (handler_main m (prog :: "models" :: rest) environ) w =
    (inr environ,
     PyState w (OutLog (LogHandlerInit (length (AVAILABLE_MODELS m))) :: Out "📋 Available Models:"
                :: map (fun key => Out ("  " +:+ key +:+ ": " +:+ get_model_name m key))
                       (dict_keys (AVAILABLE_MODELS m)))).
Proof.
  unfold run, handler_main, select_payload, print. rewrite handler_init_setup.
  rewrite bool_decide_eq_true_2 by done. pym_run. reflexivity.
Qed.

(** C31: an unknown option is reported and nothing is run: for an
    argument that is neither [models], [strategies] nor a strategy of
    [EXAMPLE_PAYLOADS], [main] prints the two lines of its usage
    message after the constructor's line, calls no provider and
    returns. *)
Theorem handler_main_unknown_option prog arg rest environ w :
  arg <> "models" -> arg <> "strategies" -> arg ∉ dict_keys EXAMPLE_PAYLOADS ->
  run (handler_main m (prog :: arg :: rest) environ) w =
    (inr environ,
     PyState w [OutLog (LogHandlerInit (length (AVAILABLE_MODELS m)));
                Out ("Unknown option: " +:+ arg);
                Out "Available options: models, strategies, or strategy name"]).
Proof.
  intros H1 H2 H3. unfold run, handler_main. rewrite handler_init_setup.
  unfold select_payload. rewrite !bool_decide_eq_false_2 by done.
  destruct (dict_contains arg EXAMPLE_PAYLOADS) eqn:Hc; [by apply dict_contains_spec in Hc|].
  reflexivity.
Qed.

(** A loop over keys that reads each from a dict and prints returns
    when every key is in the dict. *)
Lemma pfor_getitem_returns {V} (d : dict V) (xs : list string) (f : string -> V -> out_line) s :
  Forall (fun k => is_Some (dict_lookup k d)) xs ->
  exists l', pfor (W:=W) xs (fun k => pbind (of_sum (dict_getitem k d)) (fun v => emit (f k v))) s =
             (inr tt, PyState (py_world s) (py_log s ++ l')).
Proof.
  revert s. induction xs as [|k xs IH]; intros [w l] Hall; cbn [pfor].
  - exists []. by rewrite app_nil_r.
  - apply Forall_cons in Hall as [[v Hv] Hrest].
    rewrite pbind_assoc, (dict_getitem_Some _ _ _ Hv). cbn [of_sum].
    rewrite pbind_ret, pbind_emit. cbn [py_world py_log].
    destruct (IH (PyState w (l ++ [f k v])) Hrest) as [l' E]. rewrite E.
    exists (f k v :: l'). simpl. by rewrite <- app_assoc.
Qed.

(** Printing the results never raises. *)
Lemma print_results_returns r (s : pystate W out_line) :
  exists s', print_results m r s = (inr tt, s').
Proof.
  unfold print_results, print. pym_run.
  repeat (case_match; pym_run); eauto.
Qed.
(** C26: on a successful response with a non-zero cost, the summary
    prints the cost line [Cost: $t], where [t] is the cost correctly
    rounded to the 4 decimals of [f"{cost:.4f}"], ties to even, with
    the cost's sign. *)
Theorem print_results_cost r neg mt e (s : pystate W out_line) :
  success r = true -> cost r = Some (S754_finite neg mt e) ->
  exists t, Out ("Cost: $" +:+ t) ∈ py_log (snd (print_results m r s)) /\ rounds_to 4 neg mt e t.
Proof.
  intros Hs Hc. exists (format_fixed 4 (S754_finite neg mt e)).
  split; [|apply format_fixed_rounds].
  unfold print_results, print. rewrite Hs, !pbind_emit, !pbind_assoc, pbind_emit, pbind_assoc, Hc.
  cbn [float_truthy]. rewrite pbind_emit.
  eapply log_mono_keeps; [solve_log_mono | cbn [py_log]; set_solver].
Qed.
End MainProperties.

(** Processing a payload of the catalogue and printing its results
    returns. *)
Lemma process_and_print_returns {W : Type} `{!LiteLLM W} strategy pr p (env : dict string)
      (s : pystate W out_line) :
  get_example_payload strategy pr = inr p ->
  exists s', pbind (relog (fun l => [OutLog l]) (process available_models p))
               (fun response => pbind (print_results available_models response)
                                      (fun _ => pret env)) s = (inr env, s').
Proof.
  intros Hp. unfold pbind at 1, relog.
  destruct (example_payload_process_returns strategy pr p (py_world s) Hp) as (r & s1 & E).
  unfold run in E. rewrite E. cbn beta iota.
  destruct (print_results_returns available_models r
              (PyState (py_world s1) (py_log s ++ flat_map (fun l => [OutLog l]) (py_log s1))))
    as [s2 E2].
  unfold pbind. rewrite E2. by eexists.
Qed.

(** With the repository's registry, [main] never raises, for every
    [sys.argv], every [os.environ] and every provider behaviour: the
    options and the default all select a strategy of the catalogue, or
    return early, and no strategy can make [process] raise. *)
Lemma handler_main_never_raises {W : Type} `{!LiteLLM W} argv environ (w : W) :
  exists s, run (handler_main available_models argv environ) w = (inr environ, s).
Proof.
  unfold run, handler_main. rewrite handler_init_setup. pym_run. unfold select_payload.
  destruct argv as [|prog [|arg rest]];
    [| |destruct (bool_decide (arg = "models")); [|destruct (bool_decide (arg = "strategies"))]].
  1, 2: pym_run; eapply (process_and_print_returns "quality_first" quantum_prompt); reflexivity.
  - unfold print. pym_run. by eexists.
  - unfold print. pym_run. unfold pbind at 1.
    match goal with
    | |- context [pfor ?xs ?body ?st] =>
        destruct (pfor_getitem_returns EXAMPLE_PAYLOADS xs
                    (fun k v => Out ("  " +:+ k +:+ ": " +:+ py_repr_list (models v))) st)
          as [l' E]; [by_decide|]
    end.
    rewrite E. by eexists.
  - destruct (dict_contains arg EXAMPLE_PAYLOADS) eqn:Hc.
    + destruct (get_example_payload arg quantum_prompt) as [e|p] eqn:Hp.
      { exfalso. unfold get_example_payload, dict_getitem in Hp. rewrite Hc in Hp.
        unfold dict_contains in Hc.
        destruct (dict_lookup arg EXAMPLE_PAYLOADS); [done|]. by apply bool_decide_eq_true in Hc as []. }
      pym_run. unfold print. pym_run. eapply process_and_print_returns. exact Hp.
    + unfold print. pym_run. by eexists.
Qed.

(** C33: the attempt history is bounded: every line it prints is either
    the numbered name-and-icon line of an attempt, or the error line of
    an attempt with a non-empty error, which shows a prefix of that
    error of [min 80 (len error)] characters (the whole error when it is
    short) followed by ["..."], whether or not anything was cut. *)
Theorem attempt_lines_bounded i atts line :
  line ∈ attempt_lines i atts ->
  (exists j a, a ∈ atts /\ line = "  " +:+ str_of_nat j +:+ ". " +:+ att_name a +:+ ": "
                                 +:+ status_icon (bool_decide (att_status a = StatusSuccess))) \/
  (exists a e rest, a ∈ atts /\ att_error a <> "" /\ att_error a = e +:+ rest /\
     String.length e = Nat.min 80 (String.length (att_error a)) /\
     line = "     Error: " +:+ e +:+ "...").
Proof.
  revert i. induction atts as [|a atts IH]; intros i Hl; [set_solver|]. simpl in Hl.
  apply elem_of_cons in Hl as [->|Hl]; [left; exists i, a; set_solver|].
  apply elem_of_app in Hl as [Hl|Hl].
  - case_bool_decide as He; [set_solver|]. apply list_elem_of_singleton in Hl as ->.
    right. destruct (substring_0_prefix 80 (att_error a)) as [rest Hr].
    exists a, (String.substring 0 80 (att_error a)), rest.
    rewrite substring_0_length. set_solver.
  - destruct (IH (S i) Hl) as [(j & b & Hb & E)|(b & e & rest & Hb & H)];
      [left; exists j, b | right; exists b, e, rest]; set_solver.
Qed.

Import LlmHandler.Scenario.

(** Witness of [handler_main_unknown_option]: [python llm_handler.py help]. *)
Lemma handler_main_unknown_option_witness :
  "help" <> "models" /\ "help" <> "strategies" /\ "help" ∉ dict_keys EXAMPLE_PAYLOADS /\
  run (handler_main scenario_models ["llm_handler.py"; "help"] []) ([] : calls) =
    (inr [],
     PyState [] [OutLog (LogHandlerInit (length (AVAILABLE_MODELS scenario_models)));
                 Out ("Unknown option: " +:+ "help");
                 Out "Available options: models, strategies, or strategy name"]).
Proof.
  assert (H1 : "help" <> "models") by done.
  assert (H2 : "help" <> "strategies") by done.
  assert (H3 : "help" ∉ dict_keys EXAMPLE_PAYLOADS) by by_decide.
  split; [exact H1 | split; [exact H2 | split; [exact H3 |]]].
  exact (handler_main_unknown_option scenario_models "llm_handler.py" "help" [] [] [] H1 H2 H3).
Defined.

(** Witness of [print_results_cost]: a response that cost [0.03125]
    (a tie, printed [0.0312]). *)
Definition cost_response : SimpleResponse :=
  MkSimpleResponse true (Some "ok") (Some "claude-sonnet") (Some (S754_finite false 1 (-5)))
    None None (Some []).

Lemma print_results_cost_witness :
  success cost_response = true /\ cost cost_response = Some (S754_finite false 1 (-5)) /\
  exists t, Out ("Cost: $" +:+ t)
      ∈ py_log (snd (print_results scenario_models cost_response (PyState ([] : calls) [])))
    /\ rounds_to 4 false 1 (-5) t.
Proof.
  assert (H1 : success cost_response = true) by reflexivity.
  assert (H2 : cost cost_response = Some (S754_finite false 1 (-5))) by reflexivity.
  split; [exact H1 | split; [exact H2 |]].
  exact (print_results_cost scenario_models cost_response false 1 (-5) _ H1 H2).
Defined.

(** Witness of [attempt_lines_bounded]: the error line of a failed
    attempt whose message is shorter than 80 characters still ends in
    ["..."]. *)
Lemma attempt_lines_bounded_witness :
  ("     Error: " +:+ fast_fail_err +:+ "...")
    ∈ attempt_lines 1 [Attempt "fast-fail" "fast-fail" StatusFailed fast_fail_err] /\
  ((exists j a, a ∈ [Attempt "fast-fail" "fast-fail" StatusFailed fast_fail_err] /\
      "     Error: " +:+ fast_fail_err +:+ "..." =
        "  " +:+ str_of_nat j +:+ ". " +:+ att_name a +:+ ": "
          +:+ status_icon (bool_decide (att_status a = StatusSuccess))) \/
   (exists a e rest, a ∈ [Attempt "fast-fail" "fast-fail" StatusFailed fast_fail_err] /\
      att_error a <> "" /\ att_error a = e +:+ rest /\
      String.length e = Nat.min 80 (String.length (att_error a)) /\
      "     Error: " +:+ fast_fail_err +:+ "..." = "     Error: " +:+ e +:+ "...")).
Proof.
  assert (H : ("     Error: " +:+ fast_fail_err +:+ "...")
                ∈ attempt_lines 1 [Attempt "fast-fail" "fast-fail" StatusFailed fast_fail_err])
    by by_decide.
  split; [exact H | exact (attempt_lines_bounded 1 _ _ H)].
Defined.

End HandlerMain.

Module BedrockMain.
Import BedrockFallback.BedrockFallback.

(** A line of the Bedrock script's output. *)
Inductive bout :=
  | BOut (s : string)
  | BOutLog (l : blog_line).

(** The level of each logging call of [ClaudeFallbackClient]. *)
Definition blog_level (l : blog_line) : Z :=
  match l with
  | BLogAwsValid _ | BLogAttemptAnthropic | BLogAnthropicOk | BLogCallingBedrock
  | BLogBedrockOk | BLogDetectedThrottling | BLogDetectedFailure => 20
  | BLogAwsIssue _ | BLogBedrockMayNotWork | BLogThrottled | BLogAnthropicFailed _ => 30
  | BLogApiError _ | BLogRequestFailed _ | BLogBedrockFailed _ | BLogBothFailed _ => 40
  end.

(** A log line reaches the output when its level is at least the root
    logger's. *)
Definition log_filter (level : Z) (l : blog_line) : list bout :=
  if decide (level <= blog_level l)%Z then [BOutLog l] else [].

(** The attributes of the [logging] module whose name is its own
    [upper()]: the level constants, [BASIC_FORMAT] and [_STYLES]. *)
Inductive logging_attr :=
  | LogInt (z : Z)
  | LogStr (s : string)
  | LogStyles.

Definition logging_upper_attrs : dict logging_attr :=
  [("BASIC_FORMAT", LogStr "%(levelname)s:%(name)s:%(message)s");
   ("CRITICAL", LogInt 50); ("DEBUG", LogInt 10); ("ERROR", LogInt 40); ("FATAL", LogInt 50);
   ("INFO", LogInt 20); ("NOTSET", LogInt 0); ("WARN", LogInt 30); ("WARNING", LogInt 30);
   ("_STYLES", LogStyles)].

(** [logging._nameToLevel] *)
Definition name_to_level : dict Z :=
  [("CRITICAL", 50); ("FATAL", 50); ("ERROR", 40); ("WARN", 30); ("WARNING", 30);
   ("INFO", 20); ("DEBUG", 10); ("NOTSET", 0)]%Z.

(** [getattr(logging, name)] for an upper-case [name]. *)
Definition logging_getattr (name : string) : py_exc + logging_attr :=
  match dict_lookup name logging_upper_attrs with
  | Some a => inr a
  | None => inl (PyExc AttributeError ("module 'logging' has no attribute '" +:+ name +:+ "'"))
  end.

(** [str(e)] of the [TypeError] of [setLevel(logging._STYLES)]. *)
Definition styles_type_error : string :=
  "Level not an integer or a valid string: {'%': (<class 'logging.PercentStyle'>, '%(levelname)s:%(name)s:%(message)s'), '{': (<class 'logging.StrFormatStyle'>, '{levelname}:{name}:{message}'), '$': (<class 'logging.StringTemplateStyle'>, '${levelname}:${name}:${message}')}".

(** [logging._checkLevel], as [setLevel] calls it. *)
Definition check_level (a : logging_attr) : py_exc + Z :=
  match a with
  | LogInt z => inr z
  | LogStr s =>
      match dict_lookup s name_to_level with
      | Some z => inr z
      | None => inl (PyExc ValueError ("Unknown level: " +:+ py_repr_str s))
      end
  | LogStyles => inl (PyExc TypeError styles_type_error)
  end.

(** The configuration [main] reads from [os.environ]: the API key, the
    region, [int(MAX_TOKENS)] and the level [setLevel] installs. *)
Definition read_config (environ : dict string) : py_exc + (option string * string * Z * Z) :=
  let anthropic_key := dict_lookup "ANTHROPIC_API_KEY" environ in
  let aws_region := dict_get "AWS_REGION" "us-east-1" environ in
  match py_int (dict_get "MAX_TOKENS" "4000" environ) with
  | inl e => inl e
  | inr max_tokens =>
      let log_level := dict_get "LOG_LEVEL" "INFO" environ in
      match logging_getattr (str_upper log_level) with
      | inl e => inl e
      | inr a =>
          match check_level a with
          | inl e => inl e
          | inr level => inr (anthropic_key, aws_region, max_tokens, level)
          end
      end
  end.

(** [repr] and [str] of the JSON values of a response, and their
    truth. *)
Fixpoint json_repr (j : json) : string :=
  match j with
  | JNull => "None"
  | JBool b => if b then "True" else "False"
  | JNum z => str_of_Z z
  | JStr s => py_repr_str s
  | JList l => "[" +:+ String.concat ", " (map json_repr l) +:+ "]"
  | JObj kvs =>
      "{" +:+ String.concat ", " (map (fun kv => py_repr_str kv.1 +:+ ": " +:+ json_repr kv.2) kvs)
        +:+ "}"
  end.

Definition json_str (j : json) : string :=
  match j with JStr s => s | _ => json_repr j end.

Definition json_truthy (j : json) : bool :=
  match j with
  | JNull => false
  | JBool b => b
  | JNum z => bool_decide (z <> 0)%Z
  | JStr s => bool_decide (s <> "")
  | JList l => bool_decide (l <> [])
  | JObj kvs => bool_decide (kvs <> [])
  end.

Definition bedrock_prompt : string := "Explain quantum computing in simple terms.".

Section Main.
Context {W : Type} `{!AwsHttp W}.
Local Open Scope py_scope.

Definition bprint (s : string) : PyM W bout unit := emit (BOut s).

(** [main()] of [bedrock-fallback.py] with [os.environ]. *)
Definition bedrock_main (environ : dict string) : PyM W bout unit :=
  cfg <- of_sum (read_config environ) ;;
  let '(anthropic_key, aws_region, max_tokens, level) := cfg in
  match anthropic_key with
  | None | Some EmptyString =>
      bprint "❌ Please set ANTHROPIC_API_KEY in your .env file" ;;;
      bprint "📝 Edit the .env file and add your API key"
  | Some key =>
      client <- relog (log_filter level) (init (Some key) aws_region) ;;
      ptry (bprint "🚀 Generating response..." ;;;
            bprint ("📍 Using region: " +:+ aws_region) ;;;
            bprint ("🎯 Max tokens: " +:+ str_of_Z max_tokens) ;;;
            response <- relog (log_filter level)
                          (generate_response client bedrock_prompt max_tokens) ;;
            bprint (newline +:+ "📊 Response Details:") ;;;
            bprint ("Source: " +:+ source response) ;;;
            bprint ("Model: " +:+ model_used response) ;;;
            (if json_truthy (usage response)
             then bprint ("Usage: " +:+ json_repr (usage response)) else pret tt) ;;;
            bprint (newline +:+ "💬 Response:") ;;;
            bprint (json_str (content response)))
           (fun e => bprint ("❌ Error: " +:+ exc_str e))
  end.
End Main.

(** ** Properties *)

Section MainProperties.
Context {W : Type} `{!AwsHttp W}.

(** C21: a malformed configuration aborts the script before it does
    anything: when [int(MAX_TOKENS)], [getattr(logging, ...)] or
    [setLevel] raises, [main] raises that exception (outside its
    [try]), prints nothing and makes no AWS call, even when the API key
    is missing. *)
Theorem bedrock_main_bad_config environ e (w : W) :
  read_config environ = inl e -> run (bedrock_main environ) w = (inl e, PyState w []).
Proof. intros H. unfold run, bedrock_main. unfold pbind at 1. by rewrite H. Qed.

(** C32: without an API key ([ANTHROPIC_API_KEY] unset or empty) and with
    a valid configuration, [main] prints its two help lines, creates no
    client, makes no AWS call and returns. *)
Theorem bedrock_main_missing_key environ region max_tokens level (w : W) :
  (read_config environ = inr (None, region, max_tokens, level) \/
   read_config environ = inr (Some "", region, max_tokens, level)) ->
  run (bedrock_main environ) w =
    (inr tt, PyState w [BOut "❌ Please set ANTHROPIC_API_KEY in your .env file";
                        BOut "📝 Edit the .env file and add your API key"]).
Proof. unfold run, bedrock_main. unfold pbind at 1. by intros [-> | ->]. Qed.

(** [__init__] never raises, whatever the log before it. *)
Lemma init_returns key region (s : pystate W blog_line) :
  exists c s', init key region s = (inr c, s').
Proof.
  unfold init, ptry, pbind, pcall, of_sum, praise, pret, emit; simpl.
  repeat (case_match; simpl); simplify_eq/=; eauto.
Qed.

(** Once the configuration is valid and a key is given, [main] returns
    and has printed ["🚀 Generating response..."]: the constructor never
    raises, and [main]'s [except Exception] catches every exception of
    [generate_response]. *)
Lemma bedrock_main_generates environ key region max_tokens level (w : W) :
  read_config environ = inr (Some key, region, max_tokens, level) -> key <> "" ->
  exists s, run (bedrock_main environ) w = (inr tt, s) /\ BOut "🚀 Generating response..." ∈ py_log s.
Proof.
  intros H Hk. unfold run, bedrock_main. unfold pbind at 1. rewrite H.
  destruct key as [|c key]; [done|]. cbn [of_sum pret]. cbn beta iota.
  unfold pbind at 1, relog. cbn [py_world py_log].
  destruct (init_returns (Some (String c key)) region (PyState w [])) as (cl & s1 & ->).
  cbn beta iota. unfold bprint at 1.
  match goal with |- context [ptry (pbind (emit ?l) ?k) ?h ?s0] =>
    destruct (ptry_emit_prefix l k h s0) as [ls E]; [solve_log_mono | solve_log_mono |] end.
  unfold ptry in *. destruct (pbind _ _ _) as [[ex|[]] s2]; simpl in E;
    (eexists; split; [reflexivity | rewrite E; set_solver]).
Qed.

(** C19: once the configuration is valid and a key is given, [main] never
    raises: the constructor never raises, and every exception of
    [generate_response] is caught by [main]'s [except Exception] and
    printed as ["❌ Error: <message>"]. *)
Theorem bedrock_main_never_raises environ key region max_tokens level (w : W) :
  read_config environ = inr (Some key, region, max_tokens, level) -> key <> "" ->
  exists s, run (bedrock_main environ) w = (inr tt, s).
Proof.
  intros H Hk. destruct (bedrock_main_generates environ key region max_tokens level w H Hk)
    as (s & E & _). by exists s.
Qed.

(** C22: round trip of [MAX_TOKENS]: when it holds [str(n)] (for [n] of
    at most 4300 digits) and [LOG_LEVEL] is unset, the configuration is
    read without error and the script runs with [max_tokens = n], at
    level [INFO], with the key and region of the environment. *)
Theorem read_config_max_tokens environ n :
  dict_lookup "MAX_TOKENS" environ = Some (str_of_Z n) ->
  String.length (str_of_N (Z.to_N (Z.abs n))) <= int_max_str_digits ->
  dict_lookup "LOG_LEVEL" environ = None ->
  read_config environ =
    inr (dict_lookup "ANTHROPIC_API_KEY" environ, dict_get "AWS_REGION" "us-east-1" environ, n, 20%Z).
Proof.
  intros Hm Hl Hv. unfold read_config, dict_get. rewrite Hm, Hv, (py_int_str_of_Z n Hl).
  reflexivity.
Qed.
End MainProperties.

Import BedrockFallback.BedrockFallback.Scenario.

(** Witness of [bedrock_main_bad_config]: [MAX_TOKENS=4k]. *)
Lemma bedrock_main_bad_config_witness :
  read_config [("MAX_TOKENS", "4k")] =
    inl (PyExc ValueError "invalid literal for int() with base 10: '4k'") /\
  run (bedrock_main [("MAX_TOKENS", "4k")]) (Aws 200 true []) =
    (inl (PyExc ValueError "invalid literal for int() with base 10: '4k'"),
     PyState (Aws 200 true []) []).
Proof.
  assert (H : read_config [("MAX_TOKENS", "4k")] =
                inl (PyExc ValueError "invalid literal for int() with base 10: '4k'"))
    by reflexivity.
  split; [exact H | exact (bedrock_main_bad_config _ _ (Aws 200 true []) H)].
Defined.

(** Witness of [bedrock_main_missing_key]: an empty environment. *)
Lemma bedrock_main_missing_key_witness :
  (read_config [] = inr (None, "us-east-1", 4000%Z, 20%Z) \/
   read_config [] = inr (Some "", "us-east-1", 4000%Z, 20%Z)) /\
  run (bedrock_main []) (Aws 200 true []) =
    (inr tt, PyState (Aws 200 true []) [BOut "❌ Please set ANTHROPIC_API_KEY in your .env file";
                                        BOut "📝 Edit the .env file and add your API key"]).
Proof.
  assert (H : read_config [] = inr (None, "us-east-1", 4000%Z, 20%Z) \/
              read_config [] = inr (Some "", "us-east-1", 4000%Z, 20%Z)) by (left; reflexivity).
  split; [exact H | exact (bedrock_main_missing_key [] _ _ _ (Aws 200 true []) H)].
Defined.

(** Witness of [bedrock_main_never_raises]: a key, Anthropic answering 503
    and Bedrock throttled. *)
Lemma bedrock_main_never_raises_witness :
  read_config [("ANTHROPIC_API_KEY", "sk-test")] =
    inr (Some "sk-test", "us-east-1", 4000%Z, 20%Z) /\ "sk-test" <> "" /\
  exists s, run (bedrock_main [("ANTHROPIC_API_KEY", "sk-test")]) (Aws 503 false []) = (inr tt, s).
Proof.
  assert (H : read_config [("ANTHROPIC_API_KEY", "sk-test")] =
                inr (Some "sk-test", "us-east-1", 4000%Z, 20%Z)) by reflexivity.
  assert (Hk : "sk-test" <> "") by done.
  split; [exact H | split; [exact Hk |]].
  exact (bedrock_main_never_raises _ _ _ _ _ (Aws 503 false []) H Hk).
Defined.

(** Witness of [read_config_max_tokens]: [MAX_TOKENS=512]. *)
Lemma read_config_max_tokens_witness :
  dict_lookup "MAX_TOKENS" [("MAX_TOKENS", "512")] = Some (str_of_Z 512) /\
  String.length (str_of_N (Z.to_N (Z.abs 512))) <= int_max_str_digits /\
  dict_lookup "LOG_LEVEL" [("MAX_TOKENS", "512")] = None /\
  read_config [("MAX_TOKENS", "512")] = inr (None, "us-east-1", 512%Z, 20%Z).
Proof.
  assert (H1 : dict_lookup "MAX_TOKENS" [("MAX_TOKENS", "512")] = Some (str_of_Z 512))
    by reflexivity.
  assert (H2 : String.length (str_of_N (Z.to_N (Z.abs 512))) <= int_max_str_digits)
    by (vm_compute; lia).
  assert (H3 : dict_lookup "LOG_LEVEL" [("MAX_TOKENS", "512")] = None) by reflexivity.
  split; [exact H1 | split; [exact H2 | split; [exact H3 |]]].
  exact (read_config_max_tokens _ 512 H1 H2 H3).
Defined.

End BedrockMain.
