(* ===== verification/ScriptRuns.v ===== *)
(** * Running [llm_handler.py] and [bedrock-fallback.py] as scripts

    Both scripts start with the same top-level statements before
    [if __name__ == "__main__": main()]:
    - [load_dotenv()] (python-dotenv, [override=False]) copies the
      bindings of the [.env] file into [os.environ], except for
      variables the environment already has; an assignment that
      [os.environ] refuses ([os.putenv]'s checks, [putenv_error]) raises
      out of the import;
    - [logging.basicConfig(level=logging.INFO)] gives the root logger
      the level [INFO], which the module's [logger] inherits.

    [load_dotenv] takes the bindings as python-dotenv's parser returns
    them: a dict from name to [Optional[str]], a name written without
    [=] being bound to [None]; reading and parsing the file (quotes,
    [export], [${VAR}] expansion) is the library's and is not modelled.
    [handler_script] and [bedrock_script] compose the loader, the root
    level and the [main] functions of [EntryPoints]. *)

From Stdlib Require Import Ascii SpecFloat ZArith.
From S2P Require Import Prelude PyDict AvailableModels EventPayload LlmHandler BedrockFallback EntryPoints.
Import AvailableModels EventPayload LlmHandler.

Module ScriptRuns.

(** ** [load_dotenv()] *)

Definition nul : Ascii.ascii := Ascii.ascii_of_nat 0.

(** The exception of [os.environ[k] = v] ([os.putenv], then the
    mapping's own store): the file-system encoder refuses a NUL byte in
    the name, then in the value; [putenv] refuses a name holding [=],
    and [setenv] an empty name. *)
Definition putenv_error (k v : string) : option py_exc :=
  if char_in nul k || char_in nul v then Some (PyExc ValueError "embedded null byte")
  else if char_in "="%char k then Some (PyExc ValueError "illegal environment variable name")
  else if decide (k = "") then Some (PyExc OSError "[Errno 22] Invalid argument")
  else None.

(** [os.environ[k] = v] *)
Definition environ_setitem (k v : string) (environ : dict string) : py_exc + dict string :=
  match putenv_error k v with
  | Some e => inl e
  | None => inr (dict_setitem k v environ)
  end.

(** [DotEnv.set_as_environment_variables] with [override=False]: for
    each binding in file order, skip a name already in [os.environ] or
    bound to [None], and set the others; the first assignment that
    raises ends the loop with its exception. *)
Fixpoint load_dotenv (bindings : dict (option string)) (environ : dict string) : py_exc + dict string :=
  match bindings with
  | [] => inr environ
  | (k, v) :: rest =>
      if dict_contains k environ then load_dotenv rest environ
      else match v with
           | None => load_dotenv rest environ
           | Some v =>
               match environ_setitem k v environ with
               | inl e => inl e
               | inr environ' => load_dotenv rest environ'
               end
           end
  end.

(** The bindings [load_dotenv] assigns: bound to a value in [.env] and
    absent from the environment. *)
Definition assigned (bindings : dict (option string)) (environ : dict string) (k v : string) : Prop :=
  dict_lookup k bindings = Some (Some v) /\ dict_lookup k environ = None.

(** ** [llm_handler.py] *)

(** [logging.basicConfig(level=logging.INFO)]: the root logger's level;
    [logger = logging.getLogger(__name__)] has none of its own.
    [basicConfig] does nothing when the root logger already has a
    handler; the model takes the call to take effect, as it does when
    the script starts in a fresh interpreter whose earlier imports
    ([dotenv], [litellm], [requests]) add no handler to the root logger.
    Were it a no-op, the root level would stay [WARNING] and the
    [logger.info] lines would not be printed. *)
Definition root_level : Z := 20.

(** The level of each logging call of [SimpleLLMHandler]:
    [logger.error] for a failed model and for the exhausted run,
    [logger.info] for the others. *)
Definition handler_log_level (l : log_line) : Z :=
  match l with
  | LogModelFailed _ | LogAllFailed _ => 40
  | _ => 20
  end.

(** What reaches the output: every [print], and the log lines at or
    above the root level. *)
Definition handler_out_filter (o : HandlerMain.out_line) : list HandlerMain.out_line :=
  match o with
  | HandlerMain.Out _ => [o]
  | HandlerMain.OutLog l => if decide (root_level <= handler_log_level l)%Z then [o] else []
  end.

(** [python llm_handler.py ...]: [load_dotenv()] (whose exception ends
    the import), [basicConfig], then [main()] with the repository's
    registry; the result is [os.environ] at the end. *)
Definition handler_script {W : Type} `{!LiteLLM W} (bindings : dict (option string))
           (argv : list string) (environ : dict string) : PyM W HandlerMain.out_line (dict string) :=
  match load_dotenv bindings environ with
  | inl e => praise e
  | inr environ' => relog handler_out_filter (HandlerMain.handler_main available_models argv environ')
  end.

(** ** [bedrock-fallback.py] *)

(** [python bedrock-fallback.py]: [load_dotenv()], then [main()], which
    installs its own level with [setLevel] before logging anything. *)
Definition bedrock_script {W : Type} `{!BedrockFallback.AwsHttp W} (bindings : dict (option string))
           (environ : dict string) : PyM W BedrockMain.bout unit :=
  match load_dotenv bindings environ with
  | inl e => praise e
  | inr environ' => BedrockMain.bedrock_main environ'
  end.

(** ** Lemmas *)

Lemma dict_wf_cons_inv {V} k (v : V) rest : dict_wf ((k, v) :: rest) -> (k ∉ dict_keys rest) /\ dict_wf rest.
Proof. unfold dict_wf, dict_keys. cbn [map fst]. by intros [? ?]%NoDup_cons. Qed.

Lemma dict_contains_false {V} k (d : dict V) : dict_contains k d = false -> dict_lookup k d = None.
Proof. unfold dict_contains. case_bool_decide as H; [done|]. destruct (dict_lookup k d); naive_solver. Qed.

(** A binding of the rest of a well-formed [.env] is not its head. *)
Lemma dict_lookup_cons_rest {V} k' (v : V) rest k x :
  k' ∉ dict_keys rest -> dict_lookup k rest = Some x -> dict_lookup k ((k', v) :: rest) = Some x.
Proof.
  intros Hk' Hx. cbn [dict_lookup]. rewrite decide_False; [done|].
  intros ->. by apply Hk', (dict_lookup_Some_keys _ x).
Qed.

(** When [load_dotenv] returns, the variables the environment had are
    untouched and in place, and the others come from [.env]. *)
Lemma load_dotenv_inr bindings : dict_wf bindings -> forall environ environ',
  load_dotenv bindings environ = inr environ' ->
  (exists new, environ' = environ ++ new) /\
  forall k, dict_lookup k environ' =
    match dict_lookup k environ with
    | Some x => Some x
    | None => match dict_lookup k bindings with Some v => v | None => None end
    end.
Proof.
  induction bindings as [|[k' v] rest IH]; intros Hwf environ environ' E; cbn [load_dotenv] in E.
  - injection E as <-. split; [exists []; by rewrite app_nil_r|]. intros k. by destruct (dict_lookup k environ).
  - apply dict_wf_cons_inv in Hwf as [Hk' Hwf].
    assert (Hstep : forall env1, load_dotenv rest env1 = inr environ' ->
              (forall k, k <> k' -> dict_lookup k env1 = dict_lookup k environ) ->
              dict_lookup k' env1 = match dict_lookup k' environ with Some x => Some x | None => v end ->
              (exists new, env1 = environ ++ new) ->
              (exists new, environ' = environ ++ new) /\
              forall k, dict_lookup k environ' =
                match dict_lookup k environ with
                | Some x => Some x
                | None => match dict_lookup k ((k', v) :: rest) with Some v => v | None => None end
                end).
    { intros env1 E1 Hne Heq [n1 ->]. destruct (IH Hwf _ _ E1) as [[n2 ->] Hl].
      split; [exists (n1 ++ n2); by rewrite app_assoc|]. intros k. rewrite Hl. cbn [dict_lookup].
      case_decide as Hk.
      - subst k. rewrite Heq, (proj2 (dict_lookup_None k' rest) Hk').
        destruct (dict_lookup k' environ); [done | by destruct v].
      - rewrite Hne by done. by destruct (dict_lookup k environ). }
    destruct (dict_contains k' environ) eqn:Hc.
    + apply (Hstep environ E); [done | | exists []; by rewrite app_nil_r].
      destruct (dict_lookup k' environ) eqn:He; [done|].
      unfold dict_contains in Hc. rewrite He in Hc. apply bool_decide_eq_true_1 in Hc. by destruct Hc.
    + apply dict_contains_false in Hc. destruct v as [v|].
      * unfold environ_setitem in E. destruct (putenv_error k' v); [done|].
        apply (Hstep _ E); [intros; by apply dict_lookup_setitem_ne | by rewrite Hc, dict_lookup_setitem_eq|].
        exists [(k', v)]. apply dict_setitem_new. by apply dict_lookup_None.
      * apply (Hstep environ E); [done | by rewrite Hc | exists []; by rewrite app_nil_r].
Qed.

(** When [load_dotenv] raises, the exception is that of an assignment
    it had to make. *)
Lemma load_dotenv_inl bindings : dict_wf bindings -> forall environ e,
  load_dotenv bindings environ = inl e ->
  exists k v, assigned bindings environ k v /\ putenv_error k v = Some e.
Proof.
  unfold assigned. induction bindings as [|[k' v] rest IH]; intros Hwf environ e E; cbn [load_dotenv] in E;
    [done|]. apply dict_wf_cons_inv in Hwf as [Hk' Hwf].
  destruct (dict_contains k' environ) eqn:Hc.
  - destruct (IH Hwf _ _ E) as (k & x & [Hb He] & Hx). exists k, x.
    split; [split; [by apply dict_lookup_cons_rest | done] | done].
  - apply dict_contains_false in Hc. destruct v as [v|].
    + unfold environ_setitem in E. destruct (putenv_error k' v) as [e'|] eqn:Hp.
      * injection E as ->. exists k', v. cbn [dict_lookup]. rewrite decide_True by done. done.
      * destruct (IH Hwf _ _ E) as (k & x & [Hb He] & Hx). exists k, x.
        assert (Hne : k <> k') by (intros ->; by rewrite dict_lookup_setitem_eq in He).
        rewrite dict_lookup_setitem_ne in He by done.
        split; [split; [by apply dict_lookup_cons_rest | done] | done].
    + destruct (IH Hwf _ _ E) as (k & x & [Hb He] & Hx). exists k, x.
      split; [split; [by apply dict_lookup_cons_rest | done] | done].
Qed.

(** An assignment the environment refuses makes [load_dotenv] raise. *)
Lemma load_dotenv_bad bindings : forall environ k v,
  assigned bindings environ k v -> is_Some (putenv_error k v) -> exists e, load_dotenv bindings environ = inl e.
Proof.
  unfold assigned. induction bindings as [|[k' v'] rest IH]; intros environ k v [Hb He] Hp; [done|].
  cbn [dict_lookup] in Hb. cbn [load_dotenv]. case_decide as Hk.
  - subst k'. injection Hb as ->. unfold dict_contains. rewrite He. cbn.
    unfold environ_setitem. destruct Hp as [e ->]. by exists e.
  - destruct (dict_contains k' environ); [by apply (IH _ k v)|]. destruct v' as [v'|]; [|by apply (IH _ k v)].
    unfold environ_setitem. destruct (putenv_error k' v'); [by eexists|].
    apply (IH _ k v); [split; [done | by rewrite dict_lookup_setitem_ne] | done].
Qed.

(** Every logging call of [SimpleLLMHandler] is at [INFO] or above, so
    the root level drops none of the handler's lines. *)
Lemma handler_out_filter_id o : handler_out_filter o = [o].
Proof.
  destruct o as [s|l]; [done|]. cbn [handler_out_filter].
  rewrite decide_True; [done|]. unfold root_level, handler_log_level. destruct l; lia.
Qed.

Lemma flat_map_handler_out_filter os : flat_map handler_out_filter os = os.
Proof. induction os as [|o os IH]; [done|]. cbn [flat_map]. by rewrite handler_out_filter_id, IH. Qed.

(** ** Properties *)

(** C23: [load_dotenv()] never overrides the environment.  When it
    returns, the variables [os.environ] had keep their values and their
    order, the names [.env] binds to a value and the environment lacks
    are appended, and a name bound to [None] (written without [=]) is
    not set.  It raises exactly when one of the assignments it has to
    make is refused by [os.environ] (a NUL byte, a name holding [=], an
    empty name), and then with that assignment's exception. *)
Theorem load_dotenv_spec bindings environ :
  dict_wf bindings ->
  match load_dotenv bindings environ with
  | inr environ' =>
      (exists new, environ' = environ ++ new) /\
      forall k, dict_lookup k environ' =
        match dict_lookup k environ with
        | Some x => Some x
        | None => match dict_lookup k bindings with Some v => v | None => None end
        end
  | inl e => exists k v, assigned bindings environ k v /\ putenv_error k v = Some e
  end /\
  ((exists e, load_dotenv bindings environ = inl e) <->
   exists k v, assigned bindings environ k v /\ is_Some (putenv_error k v)).
Proof.
  intros Hwf. split.
  - destruct (load_dotenv bindings environ) eqn:E; [by apply load_dotenv_inl | by apply load_dotenv_inr].
  - split.
    + intros [e E]. destruct (load_dotenv_inl _ Hwf _ _ E) as (k & v & Ha & Hp).
      exists k, v. split; [done | by exists e].
    + intros (k & v & Ha & Hp). by apply (load_dotenv_bad _ _ k v).
Qed.

(** C12: [python llm_handler.py ...] raises only what [load_dotenv()]
    raises at import, before any output and any provider call: the
    refusal of an assignment of the [.env] file.  Otherwise it returns,
    whatever the arguments, the environment and the provider do, with
    [os.environ] as [load_dotenv()] left it, and its output is exactly
    what [main()] prints and logs, since every line the handler logs is
    at the level [INFO] that [basicConfig] installs or above. *)
Theorem handler_script_spec {W : Type} `{!LiteLLM W} bindings argv environ (w : W) :
  dict_wf bindings ->
  (forall e s, run (handler_script bindings argv environ) w = (inl e, s) ->
     s = PyState w [] /\ exists k v, assigned bindings environ k v /\ putenv_error k v = Some e) /\
  (forall environ', load_dotenv bindings environ = inr environ' ->
     exists s, run (handler_script bindings argv environ) w = (inr environ', s) /\
       py_log s = py_log (snd (run (HandlerMain.handler_main available_models argv environ') w))).
Proof.
  intros Hwf. unfold handler_script. destruct (load_dotenv bindings environ) as [e0|env'] eqn:E.
  - split; [|done]. intros e s [= <- <-]. split; [done|]. by apply load_dotenv_inl.
  - destruct (HandlerMain.handler_main_never_raises argv env' w) as [s' Em].
    split; [intros e s; by rewrite run_relog, Em|].
    intros env'' [= <-]. rewrite run_relog, Em. eexists. split; [reflexivity|].
    apply flat_map_handler_out_filter.
Qed.

(** C20: [python bedrock-fallback.py] reads its API key from the
    environment or, when the environment has none, from [.env]: when
    every assignment [load_dotenv()] makes is accepted, a non-empty key
    is found so, and [MAX_TOKENS] and [LOG_LEVEL] are set nowhere, the
    script prints ["🚀 Generating response..."] rather than its help
    text, and returns without raising. *)
Theorem bedrock_script_runs {W : Type} `{!BedrockFallback.AwsHttp W} bindings environ key (w : W) :
  dict_wf bindings ->
  (forall k v, assigned bindings environ k v -> putenv_error k v = None) ->
  dict_lookup "MAX_TOKENS" environ = None -> dict_lookup "MAX_TOKENS" bindings = None ->
  dict_lookup "LOG_LEVEL" environ = None -> dict_lookup "LOG_LEVEL" bindings = None ->
  (dict_lookup "ANTHROPIC_API_KEY" environ = Some key \/
   (dict_lookup "ANTHROPIC_API_KEY" environ = None /\
    dict_lookup "ANTHROPIC_API_KEY" bindings = Some (Some key))) ->
  key <> "" ->
  exists s, run (bedrock_script bindings environ) w = (inr tt, s) /\
    BedrockMain.BOut "🚀 Generating response..." ∈ py_log s.
Proof.
  intros Hwf Hok Hm1 Hm2 Hl1 Hl2 Hkey Hk. unfold bedrock_script.
  destruct (load_dotenv bindings environ) as [e|env] eqn:E.
  { destruct (load_dotenv_inl _ Hwf _ _ E) as (k & v & Ha & Hp). by rewrite Hok in Hp. }
  destruct (load_dotenv_inr _ Hwf _ _ E) as [_ Hl].
  assert (Hc : BedrockMain.read_config env =
                 inr (Some key, dict_get "AWS_REGION" "us-east-1" env, 4000%Z, 20%Z)).
  { unfold BedrockMain.read_config, dict_get. rewrite !Hl, Hm1, Hm2, Hl1, Hl2.
    destruct Hkey as [-> | [-> ->]]; reflexivity. }
  exact (BedrockMain.bedrock_main_generates env key _ _ _ w Hc Hk).
Qed.

(** ** Witnesses *)

Module Example.
(** A [.env] file with a key and a bare name, over an environment that
    already has a key of its own. *)
Definition dotenv_file : dict (option string) := [("ANTHROPIC_API_KEY", Some "sk-dotenv"); ("DEBUG", None)].
Definition shell_env : dict string := [("ANTHROPIC_API_KEY", "sk-env"); ("PATH", "/bin")].
Definition dotenv_key_only : dict (option string) := [("ANTHROPIC_API_KEY", Some "sk-dotenv")].
(** A value holding a NUL byte. *)
Definition dotenv_nul : dict (option string) := [("TOKEN", Some (String nul EmptyString))].
End Example.

(** Witness of [load_dotenv_spec]: the environment's key wins and the
    bare [DEBUG] is not set. *)
Lemma load_dotenv_spec_witness :
  dict_wf Example.dotenv_file /\
  (match load_dotenv Example.dotenv_file Example.shell_env with
   | inr environ' =>
       (exists new, environ' = Example.shell_env ++ new) /\
       forall k, dict_lookup k environ' =
         match dict_lookup k Example.shell_env with
         | Some x => Some x
         | None => match dict_lookup k Example.dotenv_file with Some v => v | None => None end
         end
   | inl e => exists k v, assigned Example.dotenv_file Example.shell_env k v /\ putenv_error k v = Some e
   end /\
   ((exists e, load_dotenv Example.dotenv_file Example.shell_env = inl e) <->
    exists k v, assigned Example.dotenv_file Example.shell_env k v /\ is_Some (putenv_error k v))).
Proof.
  assert (Hwf : dict_wf Example.dotenv_file) by by_decide.
  split; [exact Hwf | exact (load_dotenv_spec _ Example.shell_env Hwf)].
Defined.

Import LlmHandler.Scenario.

(** Witness of [handler_script_spec]: a [.env] value with a NUL byte,
    with the recording provider of the handler's scenario. *)
Lemma handler_script_spec_witness :
  dict_wf Example.dotenv_nul /\
  (forall e s, run (handler_script Example.dotenv_nul ["llm_handler.py"] []) ([] : LlmHandler.Scenario.calls) = (inl e, s) ->
     s = PyState [] [] /\ exists k v, assigned Example.dotenv_nul [] k v /\ putenv_error k v = Some e) /\
  (forall environ', load_dotenv Example.dotenv_nul [] = inr environ' ->
     exists s, run (handler_script Example.dotenv_nul ["llm_handler.py"] []) ([] : LlmHandler.Scenario.calls) = (inr environ', s) /\
       py_log s = py_log (snd (run (HandlerMain.handler_main available_models ["llm_handler.py"] environ') ([] : LlmHandler.Scenario.calls)))).
Proof.
  assert (Hwf : dict_wf Example.dotenv_nul) by by_decide.
  split; [exact Hwf | exact (handler_script_spec Example.dotenv_nul ["llm_handler.py"] [] [] Hwf)].
Defined.

Import BedrockFallback.BedrockFallback.Scenario.

(** Witness of [bedrock_script_runs]: an empty environment, the key in
    [.env], Anthropic answering 503 and Bedrock down. *)
Lemma bedrock_script_runs_witness :
  dict_wf Example.dotenv_key_only /\
  exists s, run (bedrock_script Example.dotenv_key_only []) (Aws 503 false []) = (inr tt, s) /\
    BedrockMain.BOut "🚀 Generating response..." ∈ py_log s.
Proof.
  assert (Hwf : dict_wf Example.dotenv_key_only) by by_decide.
  split; [exact Hwf|].
  apply (bedrock_script_runs Example.dotenv_key_only [] "sk-dotenv" (Aws 503 false []) Hwf);
    [| reflexivity | reflexivity | reflexivity | reflexivity | right; split; reflexivity | done].
  intros k v [Hb He]. cbn in Hb. case_decide; [|done]. subst k. injection Hb as <-. reflexivity.
Defined.

End ScriptRuns.
